(** * Medical dashboard front end: layout controller, notifications, charts

    A shallow embedding of the two client scripts of the dashboard:

    - the main script (sidebar toggle, alert dismissal, navigation
      highlight, [validateForm], [Notification], page-unload guard);
    - [static/js/charts.js] ([generateDemoData], [createBarChart] and
      the colour palette).

    JavaScript strings are [string]s, JavaScript numbers are rationals
    (every finite double is one) with the rounding of the floating-point
    unit kept abstract, exceptions are an explicit [outcome], and the
    document is a flat store of elements that remember their ancestors.
    Time is a clock with a queue of timers.  The user-interface library
    the scripts call is not part of them: of its [close] routine the
    model keeps what it does to the document. *)

From Stdlib Require Import ZArith QArith Qround Qminmax.
From Stdlib Require Import Bool String Ascii List Permutation DecimalString Lia.
Import ListNotations.

Open Scope string_scope.

(* ================================================================== *)
(** * Part I. Definitions                                             *)
(* ================================================================== *)

(** ** Results of running JavaScript code *)

Inductive JsError : Type :=
| TypeError (what : string).

Inductive outcome (A : Type) : Type :=
| Returned (a : A)
| Thrown (e : JsError).

Arguments Returned {A} a.
Arguments Thrown {A} e.

Definition threw {A : Type} (r : outcome A) : bool :=
  match r with
  | Returned _ => false
  | Thrown _ => true
  end.

(** ** Strings *)

(** [drop n s] is [s.slice(n)]. *)
Fixpoint drop (n : nat) (s : string) : string :=
  match n, s with
  | O, _ => s
  | S _, EmptyString => EmptyString
  | S n', String _ s' => drop n' s'
  end.

(** [String.prototype.includes]: does [pat] occur somewhere in [s]? *)
Fixpoint includes (s pat : string) : bool :=
  if prefix pat s then true
  else match s with
       | EmptyString => false
       | String _ s' => includes s' pat
       end.

(** [String.prototype.replace] with a string pattern: only the first
    occurrence is replaced.  The replacement texts used by the scripts
    (the empty string and ["1"]) contain no [$], so they are inserted as
    they are. *)
Fixpoint replace (s pat rep : string) : string :=
  if prefix pat s then rep ++ drop (String.length pat) s
  else match s with
       | EmptyString => EmptyString
       | String c s' => String c (replace s' pat rep)
       end.

(** What the specification calls the first occurrence of [pat] in [s]:
    [s] splits as [pre ++ pat ++ post] and no split has a shorter [pre]. *)
Definition first_occurrence (pat s pre post : string) : Prop :=
  s = pre ++ pat ++ post /\
  forall pre' post', s = pre' ++ pat ++ post' ->
                     (String.length pre <= String.length pre')%nat.

Definition is_substring (pat s : string) : Prop :=
  exists pre post, s = pre ++ pat ++ post.

(** Number-to-string conversion of an integer, as a template literal
    performs it: the decimal digits, after a minus sign if need be.  (The
    integers the scripts print are far below the size at which JavaScript
    turns to the exponent notation.) *)
Definition Number_toString (z : Z) : string :=
  NilZero.string_of_int (Z.to_int z).

(** ** Counted loops *)

Fixpoint for_iter {S : Type} (n : nat) (i : Z) (body : Z -> S -> S) (s : S) : S :=
  match n with
  | O => s
  | Datatypes.S n' => for_iter n' (i + 1)%Z body (body i s)
  end.

(** [for (let i = first; i <= last; i++) body]. *)
Definition for_loop {S : Type} (first last : Z) (body : Z -> S -> S) (s : S) : S :=
  for_iter (Z.to_nat (last - first + 1)) first body s.

(** ** Numbers *)

(** The floating-point unit: [fl] rounds the exact result of an
    arithmetic operation to a representable number.  It is monotone and
    leaves half-integers of moderate size alone, as rounding to double
    precision does; exact arithmetic is the instance [exact_arithmetic]. *)
Class Rounding : Type := {
  fl : Q -> Q;
  fl_monotone : forall x y : Q, x <= y -> fl x <= fl y;
  fl_half_integer :
    forall n : Z, (Z.abs n <= 2 ^ 53)%Z -> fl (inject_Z n / 2) == inject_Z n / 2
}.

#[export] Instance exact_arithmetic : Rounding :=
  {| fl := fun x => x;
     fl_monotone := fun _ _ H => H;
     fl_half_integer := fun n _ => Qeq_refl (inject_Z n / 2) |}.

(** [Math.round]: the nearest integer, ties going up. *)
Definition Math_round (x : Q) : Q := inject_Z (Qfloor (x + (1 # 2))).

Definition Math_max (x y : Q) : Q := Qmax x y.
Definition Math_min (x y : Q) : Q := Qmin x y.

(** [Math.random] hands out the numbers of a sequence, one per call; the
    state is the number of calls made so far. *)
Definition Random : Type := nat -> Q.

Definition Math_random (draws : Random) (calls : nat) : Q * nat :=
  (draws calls, Datatypes.S calls).

(** ** charts.js *)

Module MedicalColors.
Definition primary := "rgba(0, 255, 204, 0.8)".
Definition secondary := "rgba(52, 152, 219, 0.8)".
Definition success := "rgba(40, 167, 69, 0.8)".
Definition warning := "rgba(255, 193, 7, 0.8)".
Definition danger := "rgba(220, 53, 69, 0.8)".
Definition info := "rgba(23, 162, 184, 0.8)".
Definition primaryTransparent := "rgba(0, 255, 204, 0.1)".
Definition secondaryTransparent := "rgba(52, 152, 219, 0.1)".
Definition dangerTransparent := "rgba(220, 53, 69, 0.1)".
End MedicalColors.

Record DemoData : Type := {
  labels : list string;
  riskScores : list Q;
  bloodPressure : list Q;
  glucoseLevels : list Q;
  weightGain : list Q;
  fetalHeartRate : list Q
}.

(** The state of the loop of [generateTrend]: the array built so far, the
    running value and the calls made to [Math.random]. *)
Record TrendState : Type := {
  ts_data : list Q;
  ts_current : Q;
  ts_calls : nat
}.

Section GenerateDemoData.
Context {R : Rounding}.
Variable draws : Random.

(** The labels loop: [labels.push(`Week ${i * 4}`)]. *)
Definition push_label (i : Z) (labels : list string) : list string :=
  labels ++ ["Week " ++ Number_toString (i * 4)].

Definition generateLabels (weeks : Z) : list string :=
  for_loop 1 weeks push_label [].

(** One turn of the loop of [generateTrend]. *)
Definition trend_step (min max volatility : Q) (_ : Z) (st : TrendState)
  : TrendState :=
  let (r, calls) := Math_random draws (ts_calls st) in
  let change := fl (fl (r - (1 # 2)) * volatility) in
  let current := Math_max min (Math_min max (fl (ts_current st + change))) in
  {| ts_data := ts_data st ++ [Math_round current];
     ts_current := current;
     ts_calls := calls |}.

Definition generateTrend (weeks : Z) (start min max volatility : Q)
           (calls : nat) : list Q * nat :=
  let st := for_loop 0 (weeks - 1) (trend_step min max volatility)
                     {| ts_data := []; ts_current := start; ts_calls := calls |} in
  (ts_data st, ts_calls st).

(** [generateDemoData(weeks = 7)]; the properties of the object literal
    are evaluated from top to bottom. *)
Definition generateDemoData (weeks_arg : option Z) : DemoData :=
  let weeks := match weeks_arg with Some w => w | None => 7%Z end in
  let labels := generateLabels weeks in
  let (risk, c1) := generateTrend weeks 25 10 40 8 O in
  let (bp, c2) := generateTrend weeks 125 110 140 5 c1 in
  let (glucose, c3) := generateTrend weeks 95 70 120 10 c2 in
  let (weight, c4) := generateTrend weeks 2 0 5 1 c3 in
  let (heart, _) := generateTrend weeks 140 120 160 5 c4 in
  {| labels := labels;
     riskScores := risk;
     bloodPressure := bp;
     glucoseLevels := glucose;
     weightGain := weight;
     fetalHeartRate := heart |}.
End GenerateDemoData.

(** *** What the specification says of a generated series *)

Section SeriesSpecification.
Context {R : Rounding}.
Variable draws : Random.

(** A walk that starts from [c]: each step adds a perturbation, the
    draw moved to the middle and scaled by the volatility, which lies
    between minus and plus half the volatility, and clamps the sum to
    [[lo, hi]].  The walk takes its draws from the [k]-th on. *)
Inductive random_walk (lo hi vol : Q) : nat -> Q -> list Q -> Prop :=
| walk_done : forall k c, random_walk lo hi vol k c []
| walk_step : forall k c change c' rest,
    change = fl (fl (draws k - (1 # 2)) * vol) ->
    - (vol / 2) <= change /\ change <= vol / 2 ->
    c' = Qmax lo (Qmin hi (fl (c + change))) ->
    random_walk lo hi vol (S k) c' rest ->
    random_walk lo hi vol k c (c' :: rest).

Definition integer_within (lo hi : Z) (v : Q) : Prop :=
  exists z : Z, v = inject_Z z /\ (lo <= z <= hi)%Z.

(** A series of [weeks] integers within [[lo, hi]] that is such a
    walk, rounded. *)
Definition metric_series (first_draw : nat) (start lo hi vol : Z)
           (weeks : Z) (series : list Q) : Prop :=
  Z.of_nat (List.length series) = weeks /\
  Forall (integer_within lo hi) series /\
  exists currents,
    random_walk (inject_Z lo) (inject_Z hi) (inject_Z vol)
                first_draw (inject_Z start) currents /\
    series = map Math_round currents.
End SeriesSpecification.

(** ** JavaScript values and objects *)

#[warnings="-register-all"]
Inductive Value : Type :=
| VUndefined
| VNumber (q : Q)
| VString (s : string)
| VArray (items : list Value).

(** The own properties of an object, in the order of their creation. *)
Definition JsObject : Type := list (string * Value).

Definition is_digit (c : ascii) : bool :=
  (48 <=? nat_of_ascii c)%nat && (nat_of_ascii c <=? 57)%nat.

Fixpoint digits_value (s : string) (acc : N) : option N :=
  match s with
  | EmptyString => Some acc
  | String c s' =>
      if is_digit c
      then digits_value s' (acc * 10 + N.of_nat (nat_of_ascii c - 48))%N
      else None
  end.

(** A key is an array index when it is the decimal writing, without
    leading zeros, of an integer below 2^32 - 1. *)
Definition array_index (key : string) : option N :=
  match key with
  | EmptyString => None
  | String c rest =>
      if Ascii.eqb c "0" && negb (String.eqb rest "") then None
      else match digits_value key 0 with
           | Some n => if (n <=? 4294967294)%N then Some n else None
           | None => None
           end
  end.

Fixpoint insert_index (k : N * string) (l : list (N * string)) : list (N * string) :=
  match l with
  | [] => [k]
  | k' :: l' => if (fst k <=? fst k')%N then k :: l else k' :: insert_index k l'
  end.

Definition index_keys (o : JsObject) : list (N * string) :=
  fold_right
    (fun kv acc => match array_index (fst kv) with
                   | Some n => insert_index (n, fst kv) acc
                   | None => acc
                   end) [] o.

Definition is_array_index (key : string) : bool :=
  match array_index key with Some _ => true | None => false end.

(** [Object.keys]: the array indices in ascending order, then the other
    keys in the order of their creation. *)
Definition Object_keys (o : JsObject) : list string :=
  map snd (index_keys o) ++
  filter (fun k => negb (is_array_index k)) (map fst o).

(** [o[key]] for a string key. *)
Fixpoint get_property (o : JsObject) (key : string) : Value :=
  match o with
  | [] => VUndefined
  | (k, v) :: o' => if String.eqb k key then v else get_property o' key
  end.

(** [o[k]] where [k] is an element of an array of strings or, past the
    end of the array, [undefined], which names the property
    ["undefined"]. *)
Definition get_computed (o : JsObject) (k : option string) : Value :=
  match k with
  | Some key => get_property o key
  | None => get_property o "undefined"
  end.

(** ** The document *)

Record Element : Type := {
  tagName : string;
  ancestors : list nat;
  attributes : list (string * string);
  classList : list string;
  value : string;
  validity : bool;
  cssText : string;
  innerHTML : string
}.

(** Every node ever created has an entry in [element]; the nodes that
    are in the document are listed in [attached], in document order. *)
Record Document : Type := {
  element : nat -> Element;
  attached : list nat;
  body : nat;
  next_node : nat
}.

Definition has_classList (e : Element) (cl : list string) : Element :=
  {| tagName := tagName e; ancestors := ancestors e;
     attributes := attributes e; classList := cl; value := value e;
     validity := validity e; cssText := cssText e; innerHTML := innerHTML e |}.

Definition update_element (d : Document) (n : nat) (f : Element -> Element)
  : Document :=
  {| element := fun m => if Nat.eqb m n then f (element d m) else element d m;
     attached := attached d;
     body := body d;
     next_node := next_node d |}.

(** *** Class lists *)

Definition contains_token (cl : list string) (t : string) : bool :=
  existsb (String.eqb t) cl.

Definition add_token (cl : list string) (t : string) : list string :=
  if contains_token cl t then cl else cl ++ [t].

Definition remove_token (cl : list string) (t : string) : list string :=
  filter (fun c => negb (String.eqb t c)) cl.

Definition toggle_token (cl : list string) (t : string) : list string :=
  if contains_token cl t then remove_token cl t else add_token cl t.

Definition classList_contains (d : Document) (n : nat) (t : string) : bool :=
  contains_token (classList (element d n)) t.

Definition classList_add (d : Document) (n : nat) (t : string) : Document :=
  update_element d n (fun e => has_classList e (add_token (classList e) t)).

Definition classList_remove (d : Document) (n : nat) (t : string) : Document :=
  update_element d n (fun e => has_classList e (remove_token (classList e) t)).

Definition classList_toggle (d : Document) (n : nat) (t : string) : Document :=
  update_element d n (fun e => has_classList e (toggle_token (classList e) t)).

(** The tokens of a [class] attribute: split at white space, each token
    kept once. *)
Definition is_space (c : ascii) : bool :=
  let n := nat_of_ascii c in
  Nat.eqb n 32 || Nat.eqb n 9 || Nat.eqb n 10 || Nat.eqb n 12 || Nat.eqb n 13.

Fixpoint split_tokens (s : string) (word : string) : list string :=
  match s with
  | EmptyString => if String.eqb word "" then [] else [word]
  | String c s' =>
      if is_space c
      then (if String.eqb word "" then [] else [word]) ++ split_tokens s' ""
      else split_tokens s' (word ++ String c "")
  end.

Definition tokens (className : string) : list string :=
  fold_left add_token (split_tokens className "") [].

(** *** Attributes and look-up *)

Fixpoint assoc (l : list (string * string)) (name : string) : option string :=
  match l with
  | [] => None
  | (k, v) :: l' => if String.eqb k name then Some v else assoc l' name
  end.

Definition getAttribute (d : Document) (n : nat) (name : string) : option string :=
  assoc (attributes (element d n)) name.


Definition has_id (d : Document) (id : string) (n : nat) : bool :=
  match getAttribute d n "id" with
  | Some i => String.eqb i id
  | None => false
  end.

(** [document.getElementById]: the first element of the document with
    that identifier, [None] for [null]. *)
Definition getElementById (d : Document) (id : string) : option nat :=
  if String.eqb id "" then None else find (has_id d id) (attached d).

Definition querySelectorAll (d : Document) (sel : Document -> nat -> bool)
  : list nat :=
  filter (sel d) (attached d).

(** [a.contains(b)]: [b] is [a] or one of its descendants. *)
Definition node_contains (d : Document) (a b : nat) : bool :=
  Nat.eqb a b || existsb (Nat.eqb a) (ancestors (element d b)).

(** The selectors of the scripts. *)
Definition sel_tooltip (d : Document) (n : nat) : bool :=
  match getAttribute d n "data-bs-toggle" with
  | Some v => String.eqb v "tooltip"
  | None => false
  end.

Definition sel_alert_not_permanent (d : Document) (n : nat) : bool :=
  classList_contains d n "alert" && negb (classList_contains d n "alert-permanent").

Definition sel_sidebar_nav_link (d : Document) (n : nat) : bool :=
  classList_contains d n "nav-link" &&
  existsb (fun a => classList_contains d a "sidebar") (ancestors (element d n)).



(** [document.createElement]: a new node, not in the document yet. *)
Definition createElement (d : Document) (tag : string) : nat * Document :=
  let n := next_node d in
  (n, {| element := fun m =>
           if Nat.eqb m n
           then {| tagName := tag; ancestors := []; attributes := [];
                   classList := []; value := ""; validity := true;
                   cssText := ""; innerHTML := "" |}
           else element d m;
         attached := attached d;
         body := body d;
         next_node := S n |}).

(** [document.body.appendChild(n)] for a node that is not in the
    document: it becomes the last child of the body. *)
Definition body_appendChild (d : Document) (n : nat) : Document :=
  {| element := fun m =>
       if Nat.eqb m n
       then let e := element d m in
            {| tagName := tagName e;
               ancestors := ancestors (element d (body d)) ++ [body d];
               attributes := attributes e; classList := classList e;
               value := value e; validity := validity e;
               cssText := cssText e; innerHTML := innerHTML e |}
       else element d m;
     attached := attached d ++ [n];
     body := body d;
     next_node := next_node d |}.

(** [n.remove()]: the node leaves the document, and what it contains
    leaves with it. *)
Definition detach (d : Document) (n : nat) : Document :=
  {| element := element d;
     attached := filter (fun m => negb (node_contains d n m)) (attached d);
     body := body d;
     next_node := next_node d |}.

Definition is_attached (d : Document) (n : nat) : bool :=
  existsb (Nat.eqb n) (attached d).

(** ** charts.js: [createBarChart] *)

(** The preset [ChartConfigs.barChart]. *)
Record BarOptions : Type := {
  responsive : bool;
  maintainAspectRatio : bool;
  legend_display : bool;
  x_grid_display : bool;
  y_beginAtZero : bool;
  y_grid_borderDash : list Z
}.

Definition ChartConfigs_barChart : BarOptions :=
  {| responsive := true;
     maintainAspectRatio := false;
     legend_display := false;
     x_grid_display := false;
     y_beginAtZero := true;
     y_grid_borderDash := [3; 3]%Z |}.

Record Dataset : Type := {
  ds_label : string;
  ds_data : Value;
  backgroundColor : string;
  borderColor : string;
  borderWidth : Z;
  borderRadius : Z
}.

(** What [new Chart(ctx, config)] is given. *)
Record Chart : Type := {
  chart_ctx : nat;
  chart_type : string;
  chart_labels : Value;
  chart_datasets : list Dataset;
  chart_options : BarOptions
}.

(** [document.getElementById(canvasId).getContext('2d')]: the drawing
    surface of a canvas, named after its node.  The look-up of a property
    of [null], and the call of a method an element does not have, raise a
    [TypeError]. *)
Definition getContext2d (d : Document) (canvasId : string) : outcome nat :=
  match getElementById d canvasId with
  | None => Thrown (TypeError "Cannot read properties of null (reading 'getContext')")
  | Some n =>
      if String.eqb (tagName (element d n)) "canvas"
      then Returned n
      else Thrown (TypeError "getContext is not a function")
  end.

(** [createBarChart(canvasId, data, label, color = MedicalColors.primary)]. *)
Definition createBarChart (d : Document) (canvasId : string) (data : JsObject)
           (label : string) (color_arg : option string) : outcome Chart :=
  let color := match color_arg with
               | Some c => c
               | None => MedicalColors.primary
               end in
  match getContext2d d canvasId with
  | Thrown e => Thrown e
  | Returned ctx =>
      Returned
        {| chart_ctx := ctx;
           chart_type := "bar";
           chart_labels := get_property data "labels";
           chart_datasets :=
             [ {| ds_label := label;
                  ds_data := get_computed data (nth_error (Object_keys data) 1);
                  backgroundColor := color;
                  borderColor := replace color "0.8" "1";
                  borderWidth := 1;
                  borderRadius := 5 |} ];
           chart_options := ChartConfigs_barChart |}
  end.

(** ** The main script *)

(** The callbacks of the timers.  The two callbacks the scripts hand to
    [setTimeout] call the [close] routine of the user-interface library
    on an alert; the library in its turn defers the removal of an alert
    that fades out. *)
Inductive Callback : Type :=
| CloseAlert (alert : nat)
| RemoveAlert (alert : nat).

Record Timer : Type := {
  due : Z;
  callback : Callback
}.

(** The listeners the scripts register.  Each one is a closure over the
    constants [sidebarToggle] and [sidebar] of the handler that created
    it. *)
Inductive Listener : Type :=
| ToggleClick (sidebarToggle sidebar : nat)
| DocumentClick (sidebarToggle sidebar : option nat).

(** The state of a page.  [fade_time] is not the scripts' doing: it is
    the time the user-interface library, with the style sheet of the
    page, takes to fade an element out. *)
Record Page : Type := {
  document : Document;
  innerWidth : Z;
  pathname : string;
  listeners : list Listener;
  tooltips : list nat;
  timers : list Timer;
  now : Z;
  loaded : bool;
  console_errors : list JsError;
  fade_time : nat -> Z
}.

Definition with_document (p : Page) (d : Document) : Page :=
  {| document := d; innerWidth := innerWidth p; pathname := pathname p;
     listeners := listeners p; tooltips := tooltips p; timers := timers p;
     now := now p; loaded := loaded p; console_errors := console_errors p;
     fade_time := fade_time p |}.

Definition with_listeners (p : Page) (l : list Listener) : Page :=
  {| document := document p; innerWidth := innerWidth p; pathname := pathname p;
     listeners := l; tooltips := tooltips p; timers := timers p;
     now := now p; loaded := loaded p; console_errors := console_errors p;
     fade_time := fade_time p |}.

Definition with_tooltips (p : Page) (l : list nat) : Page :=
  {| document := document p; innerWidth := innerWidth p; pathname := pathname p;
     listeners := listeners p; tooltips := l; timers := timers p;
     now := now p; loaded := loaded p; console_errors := console_errors p;
     fade_time := fade_time p |}.

Definition with_timers (p : Page) (l : list Timer) : Page :=
  {| document := document p; innerWidth := innerWidth p; pathname := pathname p;
     listeners := listeners p; tooltips := tooltips p; timers := l;
     now := now p; loaded := loaded p; console_errors := console_errors p;
     fade_time := fade_time p |}.

Definition with_now (p : Page) (t : Z) : Page :=
  {| document := document p; innerWidth := innerWidth p; pathname := pathname p;
     listeners := listeners p; tooltips := tooltips p; timers := timers p;
     now := t; loaded := loaded p; console_errors := console_errors p;
     fade_time := fade_time p |}.

Definition with_innerWidth (p : Page) (w : Z) : Page :=
  {| document := document p; innerWidth := w; pathname := pathname p;
     listeners := listeners p; tooltips := tooltips p; timers := timers p;
     now := now p; loaded := loaded p; console_errors := console_errors p;
     fade_time := fade_time p |}.

Definition with_loaded (p : Page) : Page :=
  {| document := document p; innerWidth := innerWidth p; pathname := pathname p;
     listeners := listeners p; tooltips := tooltips p; timers := timers p;
     now := now p; loaded := true; console_errors := console_errors p;
     fade_time := fade_time p |}.

Definition report (p : Page) (e : JsError) : Page :=
  {| document := document p; innerWidth := innerWidth p; pathname := pathname p;
     listeners := listeners p; tooltips := tooltips p; timers := timers p;
     now := now p; loaded := loaded p;
     console_errors := console_errors p ++ [e];
     fade_time := fade_time p |}.

(** [setTimeout(callback, delay)]: the timer runs after the timers that
    are due no later. *)
Fixpoint enqueue (t : Timer) (q : list Timer) : list Timer :=
  match q with
  | [] => [t]
  | t' :: q' => if (due t' <=? due t)%Z then t' :: enqueue t q' else t :: q
  end.

(** The delay of a timer is a signed integer of 32 bits: a larger
    number wraps around, and a negative delay is no delay. *)
Definition ToInt32 (z : Z) : Z :=
  ((z + 2147483648) mod 4294967296 - 2147483648)%Z.

Definition timer_delay (delay : Z) : Z := Z.max 0 (ToInt32 delay).

Definition setTimeout (p : Page) (cb : Callback) (delay : Z) : Page :=
  with_timers p (enqueue {| due := (now p + timer_delay delay)%Z; callback := cb |}
                         (timers p)).

(** [new bootstrap.Alert(alert).close()] at some moment.  The library
    itself is not part of the scripts; what is modelled is what it does
    to the document: the alert loses the class [show] at once, and it is
    removed at once unless it carries the class [fade], in which case it
    is removed when it has faded out.  How long that takes is up to the
    style sheet and the library: it is [fade_time], a parameter of the
    page that gives the time for every element. *)
Definition Alert_close (moment : Z) (alert : nat) (p : Page) : Page :=
  let d := classList_remove (document p) alert "show" in
  if classList_contains d alert "fade"
  then with_timers (with_document p d)
         (enqueue {| due := (moment + Z.max 0 (fade_time p alert))%Z;
                     callback := RemoveAlert alert |} (timers p))
  else with_document p (detach d alert).

(** A timer runs its callback at the moment it is due. *)
Definition run_callback (tm : Timer) (p : Page) : Page :=
  match callback tm with
  | CloseAlert n => Alert_close (due tm) n p
  | RemoveAlert n => with_document p (detach (document p) n)
  end.

(** *** The sidebar *)

(** The listener of the toggle control:
    [sidebar.classList.toggle('active')]. *)
Definition toggle_click_listener (sidebar : nat) (p : Page) : outcome Page :=
  Returned (with_document p (classList_toggle (document p) sidebar "active")).

(** The document-wide click listener.  [&&] evaluates from left to right
    and stops at the first false operand; reading [classList] of [null]
    raises a [TypeError]. *)
Definition document_click_listener (sidebarToggle sidebar : option nat)
           (target : nat) (p : Page) : outcome Page :=
  if (innerWidth p <=? 768)%Z then
    match sidebar with
    | None => Thrown (TypeError "Cannot read properties of null (reading 'classList')")
    | Some sb =>
        if classList_contains (document p) sb "active"
           && negb (node_contains (document p) sb target)
           && negb (match sidebarToggle with
                    | Some tg => Nat.eqb target tg
                    | None => false
                    end)
        then Returned (with_document p (classList_remove (document p) sb "active"))
        else Returned p
    end
  else Returned p.

(** A click on [target] reaches the listeners of the nodes from [target]
    up to the document.  A listener that throws is reported and the
    others still run. *)
Definition run_listener (target : nat) (p : Page) (l : Listener) : Page :=
  let r := match l with
           | ToggleClick tg sb =>
               if node_contains (document p) tg target
               then toggle_click_listener sb p
               else Returned p
           | DocumentClick tg sb => document_click_listener tg sb target p
           end in
  match r with
  | Returned p' => p'
  | Thrown e => report p e
  end.

Definition dispatch_click (target : nat) (p : Page) : Page :=
  fold_left (run_listener target) (listeners p) p.

(** *** The navigation links *)

(** The test of the loop over the links: a missing and an empty [href]
    are both falsy. *)
Definition nav_link_matches (currentPath : string) (href : option string) : bool :=
  match href with
  | None => false
  | Some h =>
      negb (String.eqb h "")
      && includes currentPath (replace h "/" "")
      && negb (String.eqb h "#")
  end.

Definition mark_nav_link (currentPath : string) (d : Document) (link : nat)
  : Document :=
  if nav_link_matches currentPath (getAttribute d link "href")
  then classList_add d link "active"
  else classList_remove d link "active".

(** *** The handler of [DOMContentLoaded] *)

Definition bind_sidebar (p : Page) : Page :=
  let sidebarToggle := getElementById (document p) "sidebarToggle" in
  let sidebar := getElementById (document p) "sidebar" in
  let p1 := match sidebarToggle, sidebar with
            | Some tg, Some sb => with_listeners p (listeners p ++ [ToggleClick tg sb])
            | _, _ => p
            end in
  with_listeners p1 (listeners p1 ++ [DocumentClick sidebarToggle sidebar]).

(** [new bootstrap.Tooltip(el)] for every element with a tooltip: the
    page remembers the elements handed to the library.  What the library
    then does to such an element of its own accord, to its [title]
    above all, is not part of the scripts and is left out. *)
Definition init_tooltips (p : Page) : Page :=
  with_tooltips p (tooltips p ++ querySelectorAll (document p) sel_tooltip).

Definition schedule_alerts (p : Page) : Page :=
  fold_left (fun q alert => setTimeout q (CloseAlert alert) 5000)
            (querySelectorAll (document p) sel_alert_not_permanent) p.

Definition mark_nav_links (p : Page) : Page :=
  let currentPath := pathname p in
  let navLinks := querySelectorAll (document p) sel_sidebar_nav_link in
  with_document p (fold_left (mark_nav_link currentPath) navLinks (document p)).

Definition on_DOMContentLoaded (p : Page) : Page :=
  mark_nav_links (schedule_alerts (init_tooltips (bind_sidebar p))).

(** *** [validateForm] *)

(** The elements that have a [checkValidity] method. *)
Definition has_checkValidity (tag : string) : bool :=
  existsb (String.eqb tag)
          ["form"; "input"; "select"; "textarea"; "button"; "fieldset";
           "output"; "object"].

Definition checkValidity (d : Document) (n : nat) : outcome bool :=
  if has_checkValidity (tagName (element d n))
  then Returned (validity (element d n))
  else Thrown (TypeError "form.checkValidity is not a function").

Definition validateForm (formId : string) (p : Page) : outcome bool * Page :=
  match getElementById (document p) formId with
  | None => (Returned true, p)
  | Some form =>
      let p' := with_document p (classList_add (document p) form "was-validated") in
      (checkValidity (document p') form, p')
  end.

(** *** The page-unload guard *)





(** *** Notifications *)

Definition newline : string := String "010"%char "".
Definition quote : string := String "034"%char "".

Definition has_cssText (e : Element) (css : string) : Element :=
  {| tagName := tagName e; ancestors := ancestors e;
     attributes := attributes e; classList := classList e; value := value e;
     validity := validity e; cssText := css; innerHTML := innerHTML e |}.

Definition has_innerHTML (e : Element) (html : string) : Element :=
  {| tagName := tagName e; ancestors := ancestors e;
     attributes := attributes e; classList := classList e; value := value e;
     validity := validity e; cssText := cssText e; innerHTML := html |}.

Definition banner_className (type : string) : string :=
  "alert alert-" ++ type ++ " alert-dismissible fade show position-fixed".

Definition banner_cssText : string :=
  newline ++ "            top: 20px;" ++
  newline ++ "            right: 20px;" ++
  newline ++ "            z-index: 9999;" ++
  newline ++ "            min-width: 300px;" ++
  newline ++ "            box-shadow: 0 4px 12px rgba(0,0,0,0.15);" ++
  newline ++ "        ".

Definition banner_innerHTML (message : string) : string :=
  newline ++ "            " ++ message ++
  newline ++ "            <button type=" ++ quote ++ "button" ++ quote ++
  " class=" ++ quote ++ "btn-close" ++ quote ++
  " data-bs-dismiss=" ++ quote ++ "alert" ++ quote ++ "></button>" ++
  newline ++ "        ".

Module Notification.

(** [show: function(message, type = 'info', duration = 5000)]; the
    result is the node of the banner. *)
Definition show (message : string) (type_arg : option string)
           (duration_arg : option Z) (p : Page) : nat * Page :=
  let type := match type_arg with Some t => t | None => "info" end in
  let duration := match duration_arg with Some t => t | None => 5000%Z end in
  let (alertDiv, d1) := createElement (document p) "div" in
  let d2 := update_element d1 alertDiv
              (fun e => has_classList e (tokens (banner_className type))) in
  let d3 := update_element d2 alertDiv (fun e => has_cssText e banner_cssText) in
  let d4 := update_element d3 alertDiv
              (fun e => has_innerHTML e (banner_innerHTML message)) in
  let p1 := with_document p (body_appendChild d4 alertDiv) in
  let p2 := if (0 <? duration)%Z
            then setTimeout p1 (CloseAlert alertDiv) duration
            else p1 in
  (alertDiv, p2).

Definition success (message : string) (p : Page) : nat * Page :=
  show message (Some "success") None p.

Definition error (message : string) (p : Page) : nat * Page :=
  show message (Some "danger") None p.

Definition info (message : string) (p : Page) : nat * Page :=
  show message (Some "info") None p.

Definition warning (message : string) (p : Page) : nat * Page :=
  show message (Some "warning") None p.

End Notification.

(** ** The life of a page *)

(** What can happen to a page: the browser's events, the passing of time,
    the calls page scripts make to the exported functions, and the user
    closing an alert of the document by hand, with its close button,
    which calls the [close] routine of the library. *)
Inductive Event : Type :=
| DOMContentLoaded
| Click (target : nat)
| Resize (width : Z)
| Elapse (units : Z)
| Dismiss (alert : nat)
| Call_show (message : string) (type : option string) (duration : option Z)
| Call_success (message : string)
| Call_error (message : string)
| Call_info (message : string)
| Call_warning (message : string)
| Call_validateForm (formId : string).

Definition is_due (t : Z) (tm : Timer) : bool := (due tm <=? t)%Z.

(** The timers that are due by [t] run, earliest first. *)
Definition fire (t : Z) (p : Page) : Page :=
  let due_now := filter (is_due t) (timers p) in
  let later := filter (fun tm => negb (is_due t tm)) (timers p) in
  fold_left (fun q tm => run_callback tm q) due_now (with_timers p later).

(** Time passes: the timers that have come due run, and then the
    removals they have led the library to schedule, as far as these have
    come due too. *)
Definition elapse (units : Z) (p : Page) : Page :=
  let t := (now p + Z.max 0 units)%Z in
  fire t (fire t (with_now p t)).

Definition step (p : Page) (ev : Event) : Page :=
  match ev with
  | DOMContentLoaded =>
      if loaded p then p else with_loaded (on_DOMContentLoaded p)
  | Click target => dispatch_click target p
  | Resize w => with_innerWidth p w
  | Elapse units => elapse units p
  | Dismiss alert =>
      if is_attached (document p) alert then Alert_close (now p) alert p else p
  | Call_show m ty du => snd (Notification.show m ty du p)
  | Call_success m => snd (Notification.success m p)
  | Call_error m => snd (Notification.error m p)
  | Call_info m => snd (Notification.info m p)
  | Call_warning m => snd (Notification.warning m p)
  | Call_validateForm id =>
      match validateForm id p with
      | (Returned _, p') => p'
      | (Thrown e, p') => report p' e
      end
  end.

Definition run (p : Page) (evs : list Event) : Page := fold_left step evs p.

(** The time that passes in the course of a run. *)
Fixpoint elapsed (evs : list Event) : Z :=
  match evs with
  | [] => 0
  | Elapse units :: evs' => Z.max 0 units + elapsed evs'
  | _ :: evs' => elapsed evs'
  end.

(** An element that has a tag and ancestors and nothing else. *)
Definition blank_element (tag : string) (anc : list nat) : Element :=
  {| tagName := tag; ancestors := anc; attributes := []; classList := [];
     value := ""; validity := true; cssText := ""; innerHTML := "" |}.


(** ** Sample data *)

Definition sample_draws : Random :=
  fun k => if Nat.even k then 1 # 8 else 7 # 8.

Definition sample_canvas_document : Document :=
  {| element := fun n =>
       match n with
       | 0%nat => blank_element "body" []
       | _ => {| tagName := "canvas"; ancestors := [0%nat];
                 attributes := [("id", "chart")]; classList := [];
                 value := ""; validity := true; cssText := ""; innerHTML := "" |}
       end;
     attached := [0; 1]%nat;
     body := 0%nat;
     next_node := 2%nat |}.

Definition sample_bar_data : JsObject :=
  [ ("labels", VArray [VString "a"; VString "b"; VString "c"]);
    ("foo", VArray [VNumber 1; VNumber 2; VNumber 3]) ].

Definition sample_element (tag : string) (anc : list nat)
           (attrs : list (string * string)) (classes : list string) : Element :=
  {| tagName := tag; ancestors := anc; attributes := attrs;
     classList := classes; value := ""; validity := true;
     cssText := ""; innerHTML := "" |}.

(** A page before [DOMContentLoaded], on which an alert takes 150 units
    to fade out. *)
Definition sample_page (d : Document) (width : Z) (path : string) : Page :=
  {| document := d; innerWidth := width; pathname := path; listeners := [];
     tooltips := []; timers := []; now := 0; loaded := false;
     console_errors := []; fade_time := fun _ => 150%Z |}.

(** A page with a toggle control and some content, and no sidebar, on a
    narrow screen. *)
Definition document_without_sidebar : Document :=
  {| element := fun n =>
       match n with
       | 0%nat => sample_element "body" [] [] []
       | 1%nat => sample_element "button" [0%nat] [("id", "sidebarToggle")] []
       | _ => sample_element "main" [0%nat] [] []
       end;
     attached := [0; 1; 2]%nat;
     body := 0%nat;
     next_node := 3%nat |}.

Definition page_without_sidebar : Page :=
  sample_page document_without_sidebar 500 "/dashboard".

(** A page with an open sidebar (node 1) holding two links (nodes 2
    and 3), a toggle control (node 4) and some content (node 5). *)
Definition document_with_sidebar : Document :=
  {| element := fun n =>
       match n with
       | 0%nat => sample_element "body" [] [] []
       | 1%nat => sample_element "nav" [0%nat] [("id", "sidebar")]
                                 ["sidebar"; "active"]
       | 2%nat => sample_element "a" [0; 1]%nat [("href", "/patients")] ["nav-link"]
       | 3%nat => sample_element "a" [0; 1]%nat [("href", "#")] ["nav-link"; "active"]
       | 4%nat => sample_element "button" [0%nat] [("id", "sidebarToggle")] []
       | _ => sample_element "main" [0%nat] [] []
       end;
     attached := [0; 1; 2; 3; 4; 5]%nat;
     body := 0%nat;
     next_node := 6%nat |}.

Definition page_at_breakpoint : Page :=
  sample_page document_with_sidebar 768 "/patients/123".

Definition page_of_inpatients : Page :=
  sample_page document_with_sidebar 1024 "/inpatients/7".

(** ** What the specification says of the layout controller *)

(** The open marker of the sidebar is there before the click and gone
    after it. *)
Definition marker_removed (p p' : Page) (sidebar : nat) : Prop :=
  classList_contains (document p) sidebar "active" = true /\
  classList_contains (document p') sidebar "active" = false.

(** The sidebar is open and the click is neither in it nor on the toggle
    control. *)
Definition click_outside_open_sidebar (p : Page) (sidebarToggle : option nat)
           (sidebar target : nat) : Prop :=
  classList_contains (document p) sidebar "active" = true /\
  node_contains (document p) sidebar target = false /\
  sidebarToggle <> Some target.

(** The navigation test in the words of the layout controller: an
    [href] that is not empty and not ["#"] and that, its first slash
    taken away, occurs in the path. *)
Definition link_is_current (path : string) (href : option string) : Prop :=
  exists h, href = Some h /\ h <> "" /\ h <> "#" /\
            is_substring (replace h "/" "") path.



(** A page whose document holds a body and nothing else, before
    [DOMContentLoaded]. *)
Definition empty_document : Document :=
  {| element := fun _ => sample_element "body" [] [] [];
     attached := [0%nat];
     body := 0%nat;
     next_node := 1%nat |}.

Definition fresh_page : Page := sample_page empty_document 1024 "/".

(** ** What the specification says of notifications *)

(** The alert a timer is about. *)
Definition alert_of (tm : Timer) : nat :=
  match callback tm with
  | CloseAlert n => n
  | RemoveAlert n => n
  end.

(** Every timer of the page is about an alert that exists. *)
Definition timers_known (p : Page) : Prop :=
  forall tm, In tm (timers p) -> (alert_of tm < next_node (document p))%nat.

(** Every node of the document has been handed out by the document. *)
Definition nodes_known (p : Page) : Prop :=
  forall n, is_attached (document p) n = true ->
            (n < next_node (document p))%nat.

Definition well_formed (p : Page) : Prop := timers_known p /\ nodes_known p.

(** A node and the elements it is in have been handed out by the
    document. *)
Definition known_around (d : Document) (n : nat) : Prop :=
  forall a, node_contains d a n = true -> (a < next_node d)%nat.

(** No pending timer is about the node or an element it is in. *)
Definition kept (p : Page) (n : nat) : Prop :=
  forall tm, In tm (timers p) ->
             node_contains (document p) (alert_of tm) n = false.

(** The user closes by hand neither the banner nor an element the
    banner is in. *)
Definition no_manual_dismissal (d : Document) (banner : nat) (evs : list Event)
  : Prop :=
  forall a, In (Dismiss a) evs -> node_contains d a banner = false.

(** The banner stays: the page has been initialized, and as long as the
    deadline has not come the banner is in the document and the one
    thing the pending timers can do to it, or to an element it is in, is
    to close it at the deadline. *)
Definition stays (banner : nat) (deadline : option Z) (q : Page) : Prop :=
  loaded q = true /\
  known_around (document q) banner /\
  ((forall t, deadline = Some t -> (now q < t)%Z) ->
   (forall tm, In tm (timers q) ->
               node_contains (document q) (alert_of tm) banner = true ->
               callback tm = CloseAlert banner /\ deadline = Some (due tm)) /\
   is_attached (document q) banner = true).

(** The banner goes: it is out of the document already, or a timer that
    closes it is pending and leaves the library the time to fade it out
    by the deadline, or its removal is pending and due by the
    deadline. *)
Definition goes (banner : nat) (deadline : Z) (q : Page) : Prop :=
  (banner < next_node (document q))%nat /\
  (is_attached (document q) banner = false \/
   (exists tm, In tm (timers q) /\ callback tm = CloseAlert banner /\
               (now q < due tm)%Z /\
               (due tm + Z.max 0 (fade_time q banner) <= deadline)%Z) \/
   (exists tm, In tm (timers q) /\ callback tm = RemoveAlert banner /\
               (now q < due tm)%Z /\ (due tm <= deadline)%Z)).


(** What a click and a call of [validateForm] leave as it is: the nodes
    in the document, the supply of nodes, the timers, the clock and the
    mark of initialization. *)
Definition frame (p : Page) : list nat * nat * list Timer * Z * bool :=
  (attached (document p), next_node (document p), timers p, now p, loaded p).

(** The calls that come down to [Notification.show]. *)
Definition shows (ev : Event) : option (string * option string * option Z) :=
  match ev with
  | Call_show m ty du => Some (m, ty, du)
  | Call_success m => Some (m, Some "success", None)
  | Call_error m => Some (m, Some "danger", None)
  | Call_info m => Some (m, Some "info", None)
  | Call_warning m => Some (m, Some "warning", None)
  | _ => None
  end.


(** ** charts.js: the line charts *)

(** The configuration objects handed to the charting library: object
    literals, with their properties in the order they are written.
    [JValue] is a value of the page data, passed on as it is. *)
#[warnings="-register-all"]
Inductive Json : Type :=
| JBool (b : bool)
| JNumber (q : Q)
| JString (s : string)
| JArray (items : list Json)
| JObject (props : list (string * Json))
| JValue (v : Value).

Definition props_of (j : Json) : list (string * Json) :=
  match j with
  | JObject props => props
  | _ => []
  end.

(** [j.k], [undefined] when there is no such property. *)
Fixpoint find_prop (props : list (string * Json)) (k : string) : Json :=
  match props with
  | [] => JValue VUndefined
  | (k', v) :: props' => if String.eqb k' k then v else find_prop props' k
  end.

Definition json_prop (j : Json) (k : string) : Json := find_prop (props_of j) k.

Definition json_path (j : Json) (ks : list string) : Json :=
  fold_left json_prop ks j.

(** A property written in an object literal: it takes the place of a
    property of the same name written or spread before it, or comes
    last. *)
Fixpoint set_prop (props : list (string * Json)) (k : string) (v : Json)
  : list (string * Json) :=
  match props with
  | [] => [(k, v)]
  | (k', v') :: props' =>
      if String.eqb k' k then (k, v) :: props'
      else (k', v') :: set_prop props' k v
  end.

(** The object literal [{...base, k1: v1, k2: v2, ...}]. *)
Definition spread (base : Json) (more : list (string * Json)) : Json :=
  JObject (fold_left (fun props kv => set_prop props (fst kv) (snd kv))
                     more (props_of base)).

(** The preset [ChartConfigs.lineChart]. *)
Definition ChartConfigs_lineChart : Json :=
  JObject
    [ ("responsive", JBool true);
      ("maintainAspectRatio", JBool false);
      ("interaction",
       JObject [("intersect", JBool false); ("mode", JString "index")]);
      ("plugins",
       JObject
         [ ("legend", JObject [("position", JString "top")]);
           ("tooltip",
            JObject [ ("backgroundColor", JString "rgba(0, 0, 0, 0.7)");
                      ("titleColor", JString "#fff");
                      ("bodyColor", JString "#fff");
                      ("borderColor", JString "rgba(255, 255, 255, 0.1)");
                      ("borderWidth", JNumber 1) ]) ]);
      ("scales",
       JObject
         [ ("x", JObject [("grid", JObject [("display", JBool false)])]);
           ("y", JObject [ ("beginAtZero", JBool true);
                           ("grid", JObject [("borderDash",
                                              JArray [JNumber 3; JNumber 3])]) ]) ]) ].

(** What [new Chart(ctx, config)] is given by the line charts. *)
Record LineChart : Type := {
  lc_ctx : nat;
  lc_config : Json
}.

(** [createRiskTrendChart(canvasId, data)]. *)
Definition createRiskTrendChart (d : Document) (canvasId : string)
           (data : JsObject) : outcome LineChart :=
  match getContext2d d canvasId with
  | Thrown e => Thrown e
  | Returned ctx =>
      Returned
        {| lc_ctx := ctx;
           lc_config :=
             JObject
               [ ("type", JString "line");
                 ("data",
                  JObject
                    [ ("labels", JValue (get_property data "labels"));
                      ("datasets",
                       JArray
                         [ JObject
                             [ ("label", JString "Risk Score");
                               ("data", JValue (get_property data "riskScores"));
                               ("borderColor", JString MedicalColors.danger);
                               ("backgroundColor",
                                JString MedicalColors.dangerTransparent);
                               ("borderWidth", JNumber 3);
                               ("tension", JNumber (4 # 10));
                               ("fill", JBool true);
                               ("pointBackgroundColor", JString MedicalColors.danger);
                               ("pointBorderColor", JString "#fff");
                               ("pointBorderWidth", JNumber 2);
                               ("pointRadius", JNumber 6) ] ]) ]);
                 ("options",
                  spread ChartConfigs_lineChart
                    [ ("scales",
                       spread (json_prop ChartConfigs_lineChart "scales")
                         [ ("y",
                            spread (json_path ChartConfigs_lineChart ["scales"; "y"])
                              [ ("title",
                                 JObject [ ("display", JBool true);
                                           ("text", JString "Risk Score (%)") ]);
                                ("max", JNumber 50) ]) ]);
                      ("plugins",
                       spread (json_prop ChartConfigs_lineChart "plugins")
                         [ ("annotation",
                            JObject
                              [ ("annotations",
                                 JObject
                                   [ ("thresholdLine",
                                      JObject
                                        [ ("type", JString "line");
                                          ("yMin", JNumber 30);
                                          ("yMax", JNumber 30);
                                          ("borderColor", JString MedicalColors.danger);
                                          ("borderWidth", JNumber 2);
                                          ("borderDash", JArray [JNumber 5; JNumber 5]);
                                          ("label",
                                           JObject
                                             [ ("display", JBool true);
                                               ("content", JString "High Risk Threshold");
                                               ("position", JString "end");
                                               ("backgroundColor",
                                                JString MedicalColors.danger) ]) ]) ]) ]) ]) ]) ] |}
  end.

(** The test of an [if]: [undefined], [0] and the empty string are
    falsy, an array is truthy even when it is empty. *)
Definition truthy (v : Value) : bool :=
  match v with
  | VUndefined => false
  | VNumber q => negb (Qeq_bool q 0)
  | VString s => negb (String.eqb s "")
  | VArray _ => true
  end.

Definition bloodPressure_dataset (data : JsObject) : Json :=
  JObject [ ("label", JString "Blood Pressure");
            ("data", JValue (get_property data "bloodPressure"));
            ("borderColor", JString MedicalColors.secondary);
            ("backgroundColor", JString MedicalColors.secondaryTransparent);
            ("tension", JNumber (3 # 10));
            ("fill", JBool false) ].

Definition glucoseLevels_dataset (data : JsObject) : Json :=
  JObject [ ("label", JString "Glucose Levels");
            ("data", JValue (get_property data "glucoseLevels"));
            ("borderColor", JString MedicalColors.success);
            ("backgroundColor", JString MedicalColors.primaryTransparent);
            ("tension", JNumber (3 # 10));
            ("fill", JBool false);
            ("yAxisID", JString "y1") ].

Definition vitalSigns_options : Json :=
  JObject
    [ ("responsive", JBool true);
      ("maintainAspectRatio", JBool false);
      ("interaction",
       JObject [("intersect", JBool false); ("mode", JString "index")]);
      ("plugins",
       JObject
         [ ("legend", JObject [("position", JString "top")]);
           ("tooltip",
            JObject [("mode", JString "index"); ("intersect", JBool false)]) ]);
      ("scales",
       JObject
         [ ("x", JObject [("grid", JObject [("display", JBool false)])]);
           ("y", JObject [ ("type", JString "linear");
                           ("display", JBool true);
                           ("position", JString "left");
                           ("title",
                            JObject [ ("display", JBool true);
                                      ("text", JString "Blood Pressure (mmHg)") ]) ]);
           ("y1", JObject [ ("type", JString "linear");
                            ("display", JBool true);
                            ("position", JString "right");
                            ("title",
                             JObject [ ("display", JBool true);
                                       ("text", JString "Glucose (mg/dL)") ]);
                            ("grid",
                             JObject [("drawOnChartArea", JBool false)]) ]) ]) ].

(** [createVitalSignsChart(canvasId, data, type = 'line')]; the array
    [datasets] grows by [push]. *)
Definition createVitalSignsChart (d : Document) (canvasId : string)
           (data : JsObject) (type_arg : option string) : outcome LineChart :=
  let type := match type_arg with Some t => t | None => "line" end in
  match getContext2d d canvasId with
  | Thrown e => Thrown e
  | Returned ctx =>
      let datasets0 : list Json := [] in
      let datasets1 :=
        if truthy (get_property data "bloodPressure")
        then (datasets0 ++ [bloodPressure_dataset data])%list
        else datasets0 in
      let datasets2 :=
        if truthy (get_property data "glucoseLevels")
        then (datasets1 ++ [glucoseLevels_dataset data])%list
        else datasets1 in
      Returned
        {| lc_ctx := ctx;
           lc_config :=
             JObject
               [ ("type", JString type);
                 ("data",
                  JObject [ ("labels", JValue (get_property data "labels"));
                            ("datasets", JArray datasets2) ]);
                 ("options", vitalSigns_options) ] |}
  end.

(** The datasets of a chart, and what a dataset plots. *)
Definition datasets_of (c : LineChart) : list Json :=
  match json_path (lc_config c) ["data"; "datasets"] with
  | JArray items => items
  | _ => []
  end.

(** The object [generateDemoData] returns, its properties in the order
    of the literal. *)
Definition demo_object (d : DemoData) : JsObject :=
  [ ("labels", VArray (map VString (labels d)));
    ("riskScores", VArray (map VNumber (riskScores d)));
    ("bloodPressure", VArray (map VNumber (bloodPressure d)));
    ("glucoseLevels", VArray (map VNumber (glucoseLevels d)));
    ("weightGain", VArray (map VNumber (weightGain d)));
    ("fetalHeartRate", VArray (map VNumber (fetalHeartRate d))) ].

(** ** Pages that differ in nothing one can observe *)

Definition same_document (d d' : Document) : Prop :=
  (forall n, element d' n = element d n) /\
  attached d' = attached d /\ body d' = body d /\ next_node d' = next_node d.

Definition same_page (p p' : Page) : Prop :=
  same_document (document p) (document p') /\
  innerWidth p' = innerWidth p /\ pathname p' = pathname p /\
  listeners p' = listeners p /\ tooltips p' = tooltips p /\
  timers p' = timers p /\ now p' = now p /\ loaded p' = loaded p /\
  console_errors p' = console_errors p /\ fade_time p' = fade_time p.



(** What one sees of a dataset: its name, what it plots and the axis it
    is bound to. *)
Definition dataset_summary (ds : Json) : Json * Json * Json :=
  (json_prop ds "label", json_prop ds "data", json_prop ds "yAxisID").

(** A page with a flash message (node 1) and a notice that is to stay
    (node 2), before the layout is initialized. *)
Definition document_with_alerts : Document :=
  {| element := fun n =>
       match n with
       | 0%nat => sample_element "body" [] [] []
       | 1%nat => sample_element "div" [0%nat] [] ["alert"; "alert-success"]
       | _ => sample_element "div" [0%nat] []
                             ["alert"; "alert-warning"; "alert-permanent"]
       end;
     attached := [0; 1; 2]%nat;
     body := 0%nat;
     next_node := 3%nat |}.

Definition page_with_alerts : Page :=
  sample_page document_with_alerts 1024 "/dashboard".

(** A page under [/patients] whose sidebar (node 1) links to the home
    page (node 2) and to the list of patients (node 3). *)
Definition document_with_home_link : Document :=
  {| element := fun n =>
       match n with
       | 0%nat => sample_element "body" [] [] []
       | 1%nat => sample_element "nav" [0%nat] [("id", "sidebar")] ["sidebar"]
       | 2%nat => sample_element "a" [0; 1]%nat [("href", "/")] ["nav-link"]
       | _ => sample_element "a" [0; 1]%nat [("href", "/patients")] ["nav-link"]
       end;
     attached := [0; 1; 2; 3]%nat;
     body := 0%nat;
     next_node := 4%nat |}.

Definition page_with_home_link : Page :=
  sample_page document_with_home_link 1024 "/patients".

(** The same element, its classes apart: the tag, the place, the
    attributes, the value, the validity and the style. *)
Definition same_but_classes (e e' : Element) : Prop :=
  tagName e' = tagName e /\ ancestors e' = ancestors e /\
  attributes e' = attributes e /\ value e' = value e /\
  validity e' = validity e /\ cssText e' = cssText e.

(** Every value of the series is at most [down] below and at most [up]
    above the value before it, the first one being compared with
    [prev]. *)
Fixpoint steps_within (down up : Z) (prev : Q) (series : list Q) : Prop :=
  match series with
  | [] => True
  | v :: rest =>
      prev - inject_Z down <= v /\ v <= prev + inject_Z up /\
      steps_within down up v rest
  end.

(* ================================================================== *)
(** * Part II. Properties                                             *)
(* ================================================================== *)

(** ** Strings *)

Lemma prefix_split (p s : string) :
  prefix p s = true <-> exists t, s = p ++ t.
Proof.
  revert s; induction p as [|c p IH]; intros s; simpl.
  - split; [intros _; now exists s | destruct s; reflexivity].
  - destruct s as [|c' s]; simpl.
    + split; [discriminate | intros [t Ht]; discriminate].
    + destruct (Ascii.ascii_dec c c') as [->|Hc].
      * rewrite IH. split; intros [t Ht]; exists t; congruence.
      * split; [discriminate | intros [t Ht]; congruence].
Qed.

Lemma drop_append (p t : string) : drop (String.length p) (p ++ t) = t.
Proof. induction p; simpl; auto. Qed.

Lemma append_assoc (a b c : string) : (a ++ b) ++ c = a ++ b ++ c.
Proof. induction a; simpl; congruence. Qed.

Lemma append_nil_r (a : string) : a ++ "" = a.
Proof. induction a; simpl; congruence. Qed.

Lemma length_append (a b : string) :
  String.length (a ++ b) = (String.length a + String.length b)%nat.
Proof. induction a; simpl; congruence. Qed.

Lemma includes_eq (s pat : string) :
  includes s pat =
  if prefix pat s then true
  else match s with
       | EmptyString => false
       | String _ s' => includes s' pat
       end.
Proof. destruct s; reflexivity. Qed.

Lemma replace_eq (s pat rep : string) :
  replace s pat rep =
  if prefix pat s then rep ++ drop (String.length pat) s
  else match s with
       | EmptyString => EmptyString
       | String c s' => String c (replace s' pat rep)
       end.
Proof. destruct s; reflexivity. Qed.

Lemma includes_spec (s pat : string) :
  includes s pat = true <-> is_substring pat s.
Proof.
  induction s as [|c s IH]; rewrite includes_eq.
  - destruct (prefix pat "") eqn:E.
    + split; [intros _ | reflexivity].
      apply prefix_split in E as [t Ht]. now exists "", t.
    + split; [discriminate|].
      intros ([|c pre] & post & H); simpl in H.
      * assert (prefix pat "" = true) by (apply prefix_split; eauto). congruence.
      * discriminate.
  - destruct (prefix pat (String c s)) eqn:E.
    + split; [intros _ | reflexivity].
      apply prefix_split in E as [t Ht]. now exists "", t.
    + rewrite IH. split.
      * intros (pre & post & ->). now exists (String c pre), post.
      * intros ([|c' pre] & post & H); simpl in H.
        -- assert (prefix pat (String c s) = true) by (apply prefix_split; eauto).
           congruence.
        -- injection H as -> ->. now exists pre, post.
Qed.

Lemma includes_false (s pat : string) :
  includes s pat = false <-> ~ is_substring pat s.
Proof.
  rewrite <- includes_spec. destruct (includes s pat); split; congruence.
Qed.

(** Without an occurrence of the pattern, [replace] returns its
    argument. *)
Lemma replace_absent (s pat rep : string) :
  ~ is_substring pat s -> replace s pat rep = s.
Proof.
  induction s as [|c s IH]; intros H; rewrite replace_eq.
  - destruct (prefix pat "") eqn:E; auto.
    apply prefix_split in E as [t Ht]. destruct H. now exists "", t.
  - destruct (prefix pat (String c s)) eqn:E.
    + apply prefix_split in E as [t Ht]. destruct H. now exists "", t.
    + f_equal. apply IH. intros (pre & post & ->).
      apply H. now exists (String c pre), post.
Qed.

(** [replace] rewrites the first occurrence and nothing else. *)
Lemma replace_first_occurrence (s pat rep pre post : string) :
  first_occurrence pat s pre post -> replace s pat rep = pre ++ rep ++ post.
Proof.
  revert s; induction pre as [|c pre IH]; intros s [-> Hmin];
    rewrite replace_eq; simpl append.
  - assert (E : prefix pat (pat ++ post) = true) by (apply prefix_split; eauto).
    rewrite E. now rewrite drop_append.
  - destruct (prefix pat (String c (pre ++ pat ++ post))) eqn:E.
    + apply prefix_split in E as [t Ht].
      specialize (Hmin "" t Ht). simpl in Hmin. lia.
    + f_equal. apply IH. split; auto.
      intros pre' post' H. specialize (Hmin (String c pre') post').
      simpl in Hmin. rewrite H in Hmin. specialize (Hmin eq_refl). lia.
Qed.

(** ** Counted loops *)

Lemma for_iter_succ {S : Type} (n : nat) (i : Z) (body : Z -> S -> S) (s : S) :
  for_iter (Datatypes.S n) i body s
  = body (i + Z.of_nat n)%Z (for_iter n i body s).
Proof.
  revert i s; induction n as [|n IH]; intros i s.
  - simpl. now rewrite Z.add_0_r.
  - change (for_iter (Datatypes.S (Datatypes.S n)) i body s)
      with (for_iter (Datatypes.S n) (i + 1)%Z body (body i s)).
    rewrite IH. simpl for_iter. f_equal. lia.
Qed.

(** ** The labels of [generateDemoData] *)

Lemma push_labels_iter (n : nat) (i : Z) (acc : list string) :
  for_iter n i push_label acc
  = (acc ++ map (fun k => ("Week " ++ Number_toString ((i + Z.of_nat k) * 4))%string)
                (seq 0 n))%list.
Proof.
  induction n as [|n IH].
  - simpl. now rewrite app_nil_r.
  - rewrite for_iter_succ, IH, seq_S, map_app. unfold push_label.
    now rewrite <- app_assoc.
Qed.

Lemma generateLabels_map (weeks : Z) :
  generateLabels weeks
  = map (fun k => "Week " ++ Number_toString ((1 + Z.of_nat k) * 4))
        (seq 0 (Z.to_nat weeks)).
Proof.
  unfold generateLabels, for_loop. rewrite push_labels_iter. simpl.
  now replace (weeks - 1 + 1)%Z with weeks by lia.
Qed.

Lemma labels_generateDemoData {R : Rounding} (draws : Random) (w : option Z) :
  labels (generateDemoData draws w)
  = generateLabels (match w with Some w => w | None => 7%Z end).
Proof.
  unfold generateDemoData.
  repeat match goal with
         | |- context [generateTrend ?d ?w ?a ?b ?c ?v ?k] =>
             destruct (generateTrend d w a b c v k)
         end.
  reflexivity.
Qed.

(** C4.  For every integer [weeks >= 1], [generateDemoData(weeks)] has
    exactly [weeks] labels, and the label at index [i] (counting from 0)
    is ["Week "] followed by the decimal writing of [4 * (i + 1)]. *)
Theorem C4_labels (R : Rounding) (draws : Random) (weeks : Z) :
  (1 <= weeks)%Z ->
  let ls := labels (generateDemoData draws (Some weeks)) in
  Z.of_nat (List.length ls) = weeks /\
  forall i : nat,
    (Z.of_nat i < weeks)%Z ->
    nth_error ls i = Some ("Week " ++ Number_toString (4 * (Z.of_nat i + 1))).
Proof.
  intros Hw ls. subst ls.
  rewrite labels_generateDemoData, generateLabels_map. split.
  - rewrite length_map, length_seq. lia.
  - intros i Hi. rewrite nth_error_map, nth_error_seq.
    destruct (Nat.ltb_spec i (Z.to_nat weeks)) as [_|H]; [|lia].
    cbn [option_map Nat.add].
    now replace ((1 + Z.of_nat i) * 4)%Z with (4 * (Z.of_nat i + 1))%Z by lia.
Qed.

Lemma C4_labels_witness :
  (1 <= 3)%Z /\
  labels (generateDemoData (fun _ => 0) (Some 3%Z))
  = ["Week 4"; "Week 8"; "Week 12"] /\
  nth_error (labels (generateDemoData (fun _ => 0) (Some 3%Z))) 1
  = Some ("Week " ++ Number_toString (4 * (Z.of_nat 1 + 1))).
Proof.
  split; [lia|]. split; [reflexivity|].
  apply (C4_labels exact_arithmetic (fun _ => 0) 3%Z); lia.
Defined.

(** ** Rounding, clamping and the perturbation *)

Lemma Qfloor_plus_half (z : Z) : Qfloor (inject_Z z + (1 # 2)) = z.
Proof.
  pose proof (Qfloor_le (inject_Z z + (1 # 2))) as Hle.
  pose proof (Qlt_floor (inject_Z z + (1 # 2))) as Hlt.
  set (f := Qfloor (inject_Z z + (1 # 2))) in *.
  unfold Qle, Qlt, Qplus, inject_Z in *; simpl in *. lia.
Qed.

(** [Math.round] of a number between two integers is an integer between
    them. *)
Lemma Math_round_within (lo hi : Z) (x : Q) :
  inject_Z lo <= x -> x <= inject_Z hi -> integer_within lo hi (Math_round x).
Proof.
  intros Hlo Hhi. exists (Qfloor (x + (1 # 2))). split; [reflexivity|]. split.
  - rewrite <- (Qfloor_Z lo). apply Qfloor_resp_le.
    apply Qle_trans with x; auto.
    rewrite <- (Qplus_0_r x) at 1. apply Qplus_le_r. discriminate.
  - rewrite <- (Qfloor_plus_half hi). apply Qfloor_resp_le.
    now apply Qplus_le_l.
Qed.

(** [Math.round] moves its argument by half a unit at most. *)
Lemma Math_round_nearest (x : Q) :
  x - (1 # 2) < Math_round x /\ Math_round x <= x + (1 # 2).
Proof.
  unfold Math_round. split.
  - pose proof (Qlt_floor (x + (1 # 2))) as H.
    rewrite inject_Z_plus in H. apply Qplus_lt_l with (z := 1).
    eapply Qle_lt_trans; [|exact H].
    unfold Qle, Qplus, Qminus, Qopp; simpl. lia.
  - apply Qfloor_le.
Qed.

Lemma clamp_within (lo hi y : Q) :
  lo <= hi -> lo <= Math_max lo (Math_min hi y) /\ Math_max lo (Math_min hi y) <= hi.
Proof.
  intros H. unfold Math_max, Math_min. split.
  - apply Q.le_max_l.
  - apply Q.max_lub; [assumption | apply Q.le_min_l].
Qed.

Section Perturbation.
Context {R : Rounding}.

Lemma fl_proper (x y : Q) : x == y -> fl x == fl y.
Proof.
  intros H. apply Qle_antisym; apply fl_monotone; rewrite H; apply Qle_refl.
Qed.

(** Rounding does not cross a half-integer. *)
Lemma fl_below_half (n : Z) (x : Q) :
  (Z.abs n <= 2 ^ 53)%Z -> x <= inject_Z n / 2 -> fl x <= inject_Z n / 2.
Proof.
  intros Hn Hx. apply Qle_trans with (fl (inject_Z n / 2)).
  - now apply fl_monotone.
  - apply Qle_lteq. right. now apply fl_half_integer.
Qed.

Lemma fl_above_half (n : Z) (x : Q) :
  (Z.abs n <= 2 ^ 53)%Z -> inject_Z n / 2 <= x -> inject_Z n / 2 <= fl x.
Proof.
  intros Hn Hx. apply Qle_trans with (fl (inject_Z n / 2)).
  - apply Qle_lteq. right. symmetry. now apply fl_half_integer.
  - now apply fl_monotone.
Qed.

(** A draw from [[0, 1)], moved to the middle and scaled by an integer
    volatility, lies between minus and plus half the volatility. *)
Lemma perturbation_range (vol : Z) (r : Q) :
  (0 <= vol <= 2 ^ 53)%Z -> 0 <= r -> r < 1 ->
  - (inject_Z vol / 2) <= fl (fl (r - (1 # 2)) * inject_Z vol) /\
  fl (fl (r - (1 # 2)) * inject_Z vol) <= inject_Z vol / 2.
Proof.
  intros Hvol Hr0 Hr1.
  assert (Hv : 0 <= inject_Z vol) by (unfold Qle; simpl; lia).
  assert (Hlo : inject_Z (-1) / 2 <= fl (r - (1 # 2))).
  { apply fl_above_half; [simpl; lia|].
    apply Qle_trans with (0 - (1 # 2)); [discriminate|].
    now apply Qplus_le_l. }
  assert (Hhi : fl (r - (1 # 2)) <= inject_Z 1 / 2).
  { apply fl_below_half; [simpl; lia|].
    apply Qlt_le_weak in Hr1.
    apply Qle_trans with (1 - (1 # 2)); [now apply Qplus_le_l | discriminate]. }
  split.
  - apply Qle_trans with (inject_Z (- vol) / 2).
    + apply Qle_lteq. right. rewrite inject_Z_opp. field.
    + apply fl_above_half; [lia|].
      apply Qle_trans with (inject_Z (-1) / 2 * inject_Z vol).
      * apply Qle_lteq. right. rewrite inject_Z_opp. field.
      * now apply Qmult_le_compat_r.
  - apply fl_below_half; [lia|].
    apply Qle_trans with (inject_Z 1 / 2 * inject_Z vol).
    + now apply Qmult_le_compat_r.
    + apply Qle_lteq. right. field.
Qed.
End Perturbation.

(** ** The series of [generateDemoData] *)

Section Trend.
Context {R : Rounding}.
Variable draws : Random.
Variables lo hi vol : Z.
Hypothesis lo_le_hi : (lo <= hi)%Z.
Hypothesis vol_range : (0 <= vol <= 2 ^ 53)%Z.
Hypothesis draws_range : forall k, 0 <= draws k /\ draws k < 1.

Let turn := trend_step draws (inject_Z lo) (inject_Z hi) (inject_Z vol).

(** The loop of [generateTrend], turn by turn: it extends the array
    with the rounded values of a walk and makes one draw per turn. *)
Lemma trend_loop (n : nat) :
  forall (i : Z) (st : TrendState),
  exists currents,
    ts_data (for_iter n i turn st)
    = (ts_data st ++ map Math_round currents)%list /\
    ts_calls (for_iter n i turn st) = (ts_calls st + n)%nat /\
    List.length currents = n /\
    Forall (fun c => inject_Z lo <= c /\ c <= inject_Z hi) currents /\
    random_walk draws (inject_Z lo) (inject_Z hi) (inject_Z vol)
                (ts_calls st) (ts_current st) currents.
Proof.
  induction n as [|n IH]; intros i st.
  - exists []. simpl. rewrite app_nil_r, Nat.add_0_r.
    repeat split; constructor.
  - destruct (IH (i + 1)%Z (turn i st)) as (cs & Hd & Hc & Hl & Hb & Hw).
    set (c' := ts_current (turn i st)) in *.
    exists (c' :: cs). simpl for_iter. fold turn.
    rewrite Hd, Hc. unfold turn at 1 2, trend_step; simpl.
    repeat split.
    + now rewrite <- app_assoc.
    + lia.
    + simpl. congruence.
    + constructor; auto. apply clamp_within.
      rewrite <- Zle_Qle. exact lo_le_hi.
    + eapply walk_step; [reflexivity | | reflexivity | exact Hw].
      apply perturbation_range; auto; apply draws_range.
Qed.

Lemma generateTrend_series (weeks : Z) (start : Z) (calls : nat) :
  (0 <= weeks)%Z ->
  metric_series draws calls start lo hi vol weeks
    (fst (generateTrend draws weeks (inject_Z start) (inject_Z lo)
                        (inject_Z hi) (inject_Z vol) calls)) /\
  snd (generateTrend draws weeks (inject_Z start) (inject_Z lo)
                     (inject_Z hi) (inject_Z vol) calls)
  = (calls + Z.to_nat weeks)%nat.
Proof.
  intros Hw. unfold generateTrend, for_loop. cbn [fst snd].
  replace (weeks - 1 - 0 + 1)%Z with weeks by lia.
  destruct (trend_loop (Z.to_nat weeks) 0
              {| ts_data := []; ts_current := inject_Z start; ts_calls := calls |})
    as (cs & Hd & Hc & Hl & Hb & Hwalk).
  fold turn. rewrite Hd, Hc. cbn [ts_data ts_calls ts_current app] in *.
  split; [|reflexivity]. repeat split.
  - rewrite length_map, Hl. lia.
  - apply Forall_map. eapply Forall_impl; [|exact Hb].
    intros c [H1 H2]. now apply Math_round_within.
  - exists cs. split; [exact Hwalk | reflexivity].
Qed.
End Trend.

(** Closes a goal about a series with the fact known of it, the index
    of its first draw being written differently. *)
Ltac from_series :=
  match goal with
  | S : metric_series _ ?k _ _ _ _ _ ?s |- metric_series _ ?k' _ _ _ _ _ ?s =>
      replace k' with k by lia; exact S
  end.

(** C5.  For every [weeks >= 1] and every sequence of draws from
    [[0, 1)], each of the five series of [generateDemoData] has [weeks]
    elements, every element is an integer within the range of its metric
    (10-40, 110-140, 70-120, 0-5, 120-160), and the series is the
    rounding of a walk from the start value of the metric whose steps
    add a perturbation between minus and plus half the volatility, the
    sum being clamped to the range before it is rounded. *)
Theorem C5_series (R : Rounding) (draws : Random) (weeks : Z) :
  (1 <= weeks)%Z ->
  (forall k, 0 <= draws k /\ draws k < 1) ->
  let d := generateDemoData draws (Some weeks) in
  let w := Z.to_nat weeks in
  metric_series draws 0 25 10 40 8 weeks (riskScores d) /\
  metric_series draws w 125 110 140 5 weeks (bloodPressure d) /\
  metric_series draws (2 * w) 95 70 120 10 weeks (glucoseLevels d) /\
  metric_series draws (3 * w) 2 0 5 1 weeks (weightGain d) /\
  metric_series draws (4 * w) 140 120 160 5 weeks (fetalHeartRate d).
Proof.
  intros Hw Hdraws d w. subst d. unfold generateDemoData.
  assert (H0 : (0 <= weeks)%Z) by lia.
  pose proof (@generateTrend_series R draws 10 40 8 ltac:(lia) ltac:(lia) Hdraws
                weeks 25 0 H0) as [S1 C1].
  change (inject_Z 25) with 25%Q in *; change (inject_Z 10) with 10%Q in *;
    change (inject_Z 40) with 40%Q in *; change (inject_Z 8) with 8%Q in *.
  destruct (generateTrend draws weeks 25 10 40 8 0) as [risk c1].
  cbn [fst snd] in S1, C1. subst c1.
  pose proof (@generateTrend_series R draws 110 140 5 ltac:(lia) ltac:(lia) Hdraws
                weeks 125 (0 + Z.to_nat weeks) H0) as [S2 C2].
  change (inject_Z 125) with 125%Q in *; change (inject_Z 110) with 110%Q in *;
    change (inject_Z 140) with 140%Q in *; change (inject_Z 5) with 5%Q in *.
  destruct (generateTrend draws weeks 125 110 140 5 (0 + Z.to_nat weeks)) as [bp c2].
  cbn [fst snd] in S2, C2. subst c2.
  pose proof (@generateTrend_series R draws 70 120 10 ltac:(lia) ltac:(lia) Hdraws
                weeks 95 (0 + Z.to_nat weeks + Z.to_nat weeks) H0) as [S3 C3].
  change (inject_Z 95) with 95%Q in *; change (inject_Z 70) with 70%Q in *;
    change (inject_Z 120) with 120%Q in *; change (inject_Z 10) with 10%Q in *.
  destruct (generateTrend draws weeks 95 70 120 10
              (0 + Z.to_nat weeks + Z.to_nat weeks)) as [glucose c3].
  cbn [fst snd] in S3, C3. subst c3.
  pose proof (@generateTrend_series R draws 0 5 1 ltac:(lia) ltac:(lia) Hdraws
                weeks 2 (0 + Z.to_nat weeks + Z.to_nat weeks + Z.to_nat weeks) H0)
    as [S4 C4].
  change (inject_Z 2) with 2%Q in *; change (inject_Z 0) with 0%Q in *;
    change (inject_Z 5) with 5%Q in *; change (inject_Z 1) with 1%Q in *.
  destruct (generateTrend draws weeks 2 0 5 1
              (0 + Z.to_nat weeks + Z.to_nat weeks + Z.to_nat weeks)) as [weight c4].
  cbn [fst snd] in S4, C4. subst c4.
  pose proof (@generateTrend_series R draws 120 160 5 ltac:(lia) ltac:(lia) Hdraws
                weeks 140
                (0 + Z.to_nat weeks + Z.to_nat weeks + Z.to_nat weeks + Z.to_nat weeks)
                H0) as [S5 _].
  change (inject_Z 140) with 140%Q in *; change (inject_Z 120) with 120%Q in *;
    change (inject_Z 160) with 160%Q in *; change (inject_Z 5) with 5%Q in *.
  destruct (generateTrend draws weeks 140 120 160 5
              (0 + Z.to_nat weeks + Z.to_nat weeks + Z.to_nat weeks + Z.to_nat weeks))
    as [heart c5].
  cbn [fst snd] in S5.
  cbn [riskScores bloodPressure glucoseLevels weightGain fetalHeartRate].
  repeat match goal with |- _ /\ _ => split end; from_series.
Qed.

Lemma sample_draws_range (k : nat) : 0 <= sample_draws k /\ sample_draws k < 1.
Proof.
  unfold sample_draws. destruct (Nat.even k); unfold Qle, Qlt; simpl; lia.
Qed.

Lemma C5_series_witness :
  (1 <= 3)%Z /\
  (forall k, 0 <= sample_draws k /\ sample_draws k < 1) /\
  let d := generateDemoData sample_draws (Some 3%Z) in
  let w := Z.to_nat 3 in
  metric_series sample_draws 0 25 10 40 8 3 (riskScores d) /\
  metric_series sample_draws w 125 110 140 5 3 (bloodPressure d) /\
  metric_series sample_draws (2 * w) 95 70 120 10 3 (glucoseLevels d) /\
  metric_series sample_draws (3 * w) 2 0 5 1 3 (weightGain d) /\
  metric_series sample_draws (4 * w) 140 120 160 5 3 (fetalHeartRate d).
Proof.
  split; [lia|]. split; [exact sample_draws_range|].
  apply (C5_series exact_arithmetic sample_draws 3%Z);
    [lia | exact sample_draws_range].
Defined.

(** ** [Object.keys] *)

Lemma insert_index_perm (k : N * string) (l : list (N * string)) :
  Permutation (insert_index k l) (k :: l).
Proof.
  induction l as [|k' l IH]; simpl; auto.
  destruct (fst k <=? fst k')%N; auto.
  rewrite IH. apply perm_swap.
Qed.

(** [Object.keys] lists every key once: it is a rearrangement of the
    keys in creation order. *)
Lemma Object_keys_perm (o : JsObject) : Permutation (Object_keys o) (map fst o).
Proof.
  unfold Object_keys. induction o as [|[k v] o IH]; simpl; auto.
  unfold is_array_index at 1. destruct (array_index k) as [n|]; simpl.
  - rewrite insert_index_perm. simpl. now constructor.
  - rewrite <- Permutation_middle. now constructor.
Qed.

(** Without array indices among the keys, it is the creation order. *)
Lemma Object_keys_plain (o : JsObject) :
  (forall k, In k (map fst o) -> array_index k = None) ->
  Object_keys o = map fst o.
Proof.
  intros H. unfold Object_keys.
  assert (E : index_keys o = []).
  { induction o as [|[k v] o IH]; simpl in *; auto.
    rewrite (H k) by (now left). auto. }
  rewrite E. simpl. induction (map fst o) as [|k l IH]; simpl in *; auto.
  unfold is_array_index at 1. rewrite (H k) by (now left). simpl.
  f_equal. auto.
Qed.

(** Array indices come first, in ascending order, wherever they were
    created. *)
Example Object_keys_indices_first :
  Object_keys [("labels", VUndefined); ("10", VUndefined); ("x", VUndefined);
               ("2", VUndefined); ("01", VUndefined)]
  = ["2"; "10"; "labels"; "x"; "01"].
Proof. reflexivity. Qed.

Lemma get_property_In (o : JsObject) (k : string) :
  In k (map fst o) -> In (k, get_property o k) o.
Proof.
  induction o as [|[k' v] o IH]; simpl; [tauto|].
  destruct (String.eqb_spec k' k) as [->|Hne].
  - now left.
  - intros [H|H]; [congruence | right; auto].
Qed.

Lemma get_property_absent (o : JsObject) (k : string) :
  ~ In k (map fst o) -> get_property o k = VUndefined.
Proof.
  induction o as [|[k' v] o IH]; simpl; auto.
  destruct (String.eqb_spec k' k) as [->|Hne]; tauto.
Qed.

(** ** [createBarChart] *)

(** C6.  [createBarChart] renders, as the series of its one dataset, the
    value stored in [data] under the second key of [Object.keys(data)],
    whatever the name of that key, and [data.labels] as the category
    labels. *)
Theorem C6_second_key (d : Document) (canvasId : string) (ctx : nat)
        (data : JsObject) (label : string) (color : option string) (k : string) :
  getContext2d d canvasId = Returned ctx ->
  nth_error (Object_keys data) 1 = Some k ->
  exists chart ds,
    createBarChart d canvasId data label color = Returned chart /\
    chart_datasets chart = [ds] /\
    ds_data ds = get_property data k /\
    In (k, ds_data ds) data /\
    chart_labels chart = get_property data "labels".
Proof.
  intros Hctx Hk. unfold createBarChart. rewrite Hctx, Hk.
  eexists; eexists. split; [reflexivity|]. cbn.
  repeat split. apply get_property_In.
  eapply Permutation_in; [apply Object_keys_perm|].
  eapply nth_error_In; eassumption.
Qed.

Lemma C6_second_key_witness :
  getContext2d sample_canvas_document "chart" = Returned 1%nat /\
  nth_error (Object_keys sample_bar_data) 1 = Some "foo" /\
  exists chart ds,
    createBarChart sample_canvas_document "chart" sample_bar_data "Visits" None
    = Returned chart /\
    chart_datasets chart = [ds] /\
    ds_data ds = get_property sample_bar_data "foo" /\
    In ("foo", ds_data ds) sample_bar_data /\
    chart_labels chart = get_property sample_bar_data "labels".
Proof.
  split; [reflexivity|]. split; [reflexivity|].
  apply (C6_second_key sample_canvas_document "chart" 1 sample_bar_data
                       "Visits" None "foo"); reflexivity.
Defined.

(** The series of the sample [{labels: [...], foo: [1, 2, 3]}]. *)
Example createBarChart_foo :
  exists chart ds,
    createBarChart sample_canvas_document "chart" sample_bar_data "Visits" None
    = Returned chart /\
    chart_datasets chart = [ds] /\
    ds_data ds = VArray [VNumber 1; VNumber 2; VNumber 3].
Proof. eexists; eexists. repeat split. Qed.

(** An object with fewer than two keys has no series, unless its one key
    is the word the missing key is read as. *)
Lemma createBarChart_no_second_key (d : Document) (canvasId : string) (ctx : nat)
      (data : JsObject) (label : string) (color : option string) :
  getContext2d d canvasId = Returned ctx ->
  nth_error (Object_keys data) 1 = None ->
  ~ In "undefined" (map fst data) ->
  exists chart ds,
    createBarChart d canvasId data label color = Returned chart /\
    chart_datasets chart = [ds] /\
    ds_data ds = VUndefined.
Proof.
  intros Hctx Hk Hu. unfold createBarChart. rewrite Hctx, Hk.
  eexists; eexists. split; [reflexivity|]. cbn. split; [reflexivity|].
  now apply get_property_absent.
Qed.

(** C7.  The border colour of the dataset is the fill colour with the
    first occurrence of ["0.8"] replaced by ["1"]; a fill colour without
    ["0.8"] is its own border colour.  The fill colour is the argument
    [color], or [MedicalColors.primary] when it is left out. *)
Theorem C7_border_color (d : Document) (canvasId : string) (ctx : nat)
        (data : JsObject) (label : string) (color_arg : option string) :
  getContext2d d canvasId = Returned ctx ->
  let color := match color_arg with
               | Some c => c
               | None => MedicalColors.primary
               end in
  exists chart ds,
    createBarChart d canvasId data label color_arg = Returned chart /\
    chart_datasets chart = [ds] /\
    backgroundColor ds = color /\
    borderColor ds = replace color "0.8" "1" /\
    (forall pre post,
        first_occurrence "0.8" color pre post ->
        borderColor ds = pre ++ "1" ++ post) /\
    (~ is_substring "0.8" color -> borderColor ds = color).
Proof.
  intros Hctx color. unfold createBarChart. rewrite Hctx. fold color.
  eexists; eexists. split; [reflexivity|]. cbn [chart_datasets].
  split; [reflexivity|]. cbn [backgroundColor borderColor].
  split; [reflexivity|]. split; [reflexivity|]. split.
  - intros pre post H. now apply replace_first_occurrence.
  - intros H. now apply replace_absent.
Qed.

Lemma C7_border_color_witness :
  getContext2d sample_canvas_document "chart" = Returned 1%nat /\
  exists chart ds,
    createBarChart sample_canvas_document "chart" sample_bar_data "Visits"
                   (Some "rgba(0.8, 0, 0, 0.8)")
    = Returned chart /\
    chart_datasets chart = [ds] /\
    backgroundColor ds = "rgba(0.8, 0, 0, 0.8)" /\
    borderColor ds = replace "rgba(0.8, 0, 0, 0.8)" "0.8" "1" /\
    (forall pre post,
        first_occurrence "0.8" "rgba(0.8, 0, 0, 0.8)" pre post ->
        borderColor ds = pre ++ "1" ++ post) /\
    (~ is_substring "0.8" "rgba(0.8, 0, 0, 0.8)" ->
     borderColor ds = "rgba(0.8, 0, 0, 0.8)").
Proof.
  split; [reflexivity|].
  apply (C7_border_color sample_canvas_document "chart" 1 sample_bar_data
                         "Visits" (Some "rgba(0.8, 0, 0, 0.8)")); reflexivity.
Defined.

(** The palette: every colour of full strength gets a border of
    opacity 1, and a colour of another opacity is its own border. *)
Example border_of_primary :
  replace MedicalColors.primary "0.8" "1" = "rgba(0, 255, 204, 1)".
Proof. reflexivity. Qed.

Example border_of_transparent :
  replace MedicalColors.primaryTransparent "0.8" "1"
  = MedicalColors.primaryTransparent.
Proof. reflexivity. Qed.

Example border_first_occurrence_only :
  replace "rgba(0.8, 0, 0, 0.8)" "0.8" "1" = "rgba(1, 0, 0, 0.8)".
Proof. reflexivity. Qed.

(** ** Class lists *)


Lemma contains_remove_token (cl : list string) (t u : string) :
  contains_token (remove_token cl t) u
  = contains_token cl u && negb (String.eqb t u).
Proof.
  unfold remove_token. induction cl as [|c cl IH]; simpl; auto.
  destruct (String.eqb_spec t c) as [->|Hne]; simpl.
  - rewrite IH. destruct (String.eqb_spec u c) as [->|Hu]; simpl; auto.
    rewrite String.eqb_refl. simpl. now rewrite andb_false_r.
  - rewrite IH. destruct (String.eqb_spec u c) as [->|Hu]; simpl; auto.
    destruct (String.eqb_spec t c); [congruence|]. reflexivity.
Qed.

Lemma contains_add_token (cl : list string) (t u : string) :
  contains_token (add_token cl t) u = contains_token cl u || String.eqb u t.
Proof.
  unfold add_token. destruct (contains_token cl t) eqn:E.
  - destruct (String.eqb_spec u t) as [->|Hne].
    + now rewrite E.
    + now rewrite orb_false_r.
  - unfold contains_token. rewrite existsb_app. simpl. now rewrite orb_false_r.
Qed.

Lemma not_contains_remove (cl : list string) (t : string) :
  contains_token cl t = false -> remove_token cl t = cl.
Proof.
  unfold contains_token, remove_token.
  induction cl as [|c cl IH]; simpl; auto.
  intros H. apply orb_false_iff in H as [H1 H2]. rewrite H1. simpl.
  f_equal. auto.
Qed.

(** ** The sidebar *)

Lemma element_classList_remove (d : Document) (n m : nat) (t : string) :
  element (classList_remove d n t) m
  = if Nat.eqb m n
    then has_classList (element d m) (remove_token (classList (element d m)) t)
    else element d m.
Proof. reflexivity. Qed.

(** C1.  On the page without a sidebar, layout initialization itself
    raises nothing and registers the document-wide click listener; the
    first click on a narrow screen then raises a [TypeError], the
    listener reading [classList] of [null]. *)
Theorem C1_click_without_sidebar :
  getElementById (document page_without_sidebar) "sidebar" = None /\
  console_errors (run page_without_sidebar [DOMContentLoaded]) = [] /\
  listeners (run page_without_sidebar [DOMContentLoaded])
  = [DocumentClick (Some 1%nat) None] /\
  console_errors (run page_without_sidebar [DOMContentLoaded; Click 2])
  = [TypeError "Cannot read properties of null (reading 'classList')"].
Proof. repeat split. Qed.

(** Whatever the page, a document-wide click listener bound without a
    sidebar throws on every click at a width of 768 or less, and on no
    click at a greater width. *)
Lemma document_click_without_sidebar (p : Page) (tg : option nat) (target : nat) :
  threw (document_click_listener tg None target p) = (innerWidth p <=? 768)%Z.
Proof.
  unfold document_click_listener. now destruct (innerWidth p <=? 768)%Z.
Qed.

(** With a sidebar the listener never throws, toggle control or not. *)
Lemma document_click_with_sidebar (p : Page) (tg : option nat) (sb target : nat) :
  threw (document_click_listener tg (Some sb) target p) = false.
Proof.
  unfold document_click_listener.
  destruct (innerWidth p <=? 768)%Z; auto.
  now destruct (_ && _ && _).
Qed.

(** The listener is registered whether the sidebar is there or not. *)
Lemma bind_sidebar_listens (p : Page) :
  In (DocumentClick (getElementById (document p) "sidebarToggle")
                    (getElementById (document p) "sidebar"))
     (listeners (bind_sidebar p)).
Proof.
  unfold bind_sidebar.
  destruct (getElementById (document p) "sidebarToggle"),
           (getElementById (document p) "sidebar");
    cbn [listeners with_listeners]; rewrite ?in_app_iff; simpl; auto.
Qed.

(** C2, as it is stated, fails at the breakpoint itself: at a width of
    768, which is not below 768, a click outside the open sidebar
    removes the marker. *)
Lemma C2_counterexample :
  exists p',
    document_click_listener (Some 4%nat) (Some 1%nat) 5 page_at_breakpoint
    = Returned p' /\
    marker_removed page_at_breakpoint p' 1 /\
    click_outside_open_sidebar page_at_breakpoint (Some 4%nat) 1 5 /\
    ~ (innerWidth page_at_breakpoint < 768)%Z.
Proof.
  eexists. split; [reflexivity|]. repeat split; try discriminate.
Qed.

(** C2, amended.  On a document click the open marker of the sidebar is
    removed if and only if the viewport is at most 768 wide, the sidebar
    is open, and the target is neither inside the sidebar nor the toggle
    control; then the class ["active"] is taken off the sidebar and
    nothing else changes, and in every other case the page is left as it
    is. *)
Theorem C2_document_click (p : Page) (sidebarToggle : option nat)
        (sidebar target : nat) :
  exists p',
    document_click_listener sidebarToggle (Some sidebar) target p = Returned p' /\
    (marker_removed p p' sidebar <->
     (innerWidth p <= 768)%Z /\
     click_outside_open_sidebar p sidebarToggle sidebar target) /\
    ((innerWidth p <= 768)%Z /\
     click_outside_open_sidebar p sidebarToggle sidebar target ->
     p' = with_document p (classList_remove (document p) sidebar "active")) /\
    (~ ((innerWidth p <= 768)%Z /\
        click_outside_open_sidebar p sidebarToggle sidebar target) ->
     p' = p).
Proof.
  unfold document_click_listener, marker_removed, click_outside_open_sidebar.
  destruct (Z.leb_spec (innerWidth p) 768) as [Hw|Hw].
  2:{ exists p. split; [reflexivity|]. split; [|split]; try tauto.
      - split; [|lia]. intros [H1 H2]. congruence.
      - lia. }
  destruct (classList_contains (document p) sidebar "active") eqn:Ha; cbn [andb].
  2:{ exists p. split; [reflexivity|]. split; [|split]; try tauto.
      - split; intros H; [destruct H; congruence | destruct H as (_ & H & _); congruence].
      - intros (_ & H & _). congruence. }
  destruct (node_contains (document p) sidebar target) eqn:Hc; cbn [andb negb].
  { exists p. split; [reflexivity|]. split; [|split]; try tauto.
    - split; intros H; [destruct H; congruence | destruct H as (_ & _ & H & _); congruence].
    - intros (_ & _ & H & _). congruence. }
  assert (Htg : (match sidebarToggle with
                 | Some tg => Nat.eqb target tg
                 | None => false
                 end) = false <-> sidebarToggle <> Some target).
  { destruct sidebarToggle as [tg|]; [|split; congruence].
    destruct (Nat.eqb_spec target tg) as [->|Hne]; split; congruence. }
  destruct (match sidebarToggle with
            | Some tg => Nat.eqb target tg
            | None => false
            end); cbn [negb].
  { exists p. split; [reflexivity|]. split; [|split]; try tauto.
    - split; intros H; [destruct H; congruence|].
      destruct H as (_ & _ & _ & H). apply Htg in H. discriminate.
    - intros (_ & _ & _ & H). apply Htg in H. discriminate. }
  eexists. split; [reflexivity|]. cbn [document with_document].
  assert (Hgone : classList_contains (classList_remove (document p) sidebar "active")
                                     sidebar "active" = false).
  { unfold classList_contains. rewrite element_classList_remove, Nat.eqb_refl.
    cbn [classList has_classList]. rewrite contains_remove_token.
    now rewrite String.eqb_refl, andb_false_r. }
  split; [|split].
  - split; [intros _|intros _; now split].
    repeat split; auto. now apply Htg.
  - reflexivity.
  - intros H. exfalso. apply H. repeat split; auto. now apply Htg.
Qed.

(** ** The navigation links *)

Lemma nav_link_matches_spec (path : string) (href : option string) :
  nav_link_matches path href = true <-> link_is_current path href.
Proof.
  unfold nav_link_matches, link_is_current. destruct href as [h|].
  - rewrite !andb_true_iff, !negb_true_iff, !String.eqb_neq, includes_spec.
    split.
    + intros [[H1 H2] H3]. exists h. auto.
    + intros (h' & E & H1 & H3 & H2). injection E as <-. auto.
  - split; [discriminate | intros (h & E & _); discriminate].
Qed.

Section MarkNavLinks.
Variable path : string.

Lemma mark_nav_link_element (d : Document) (link m : nat) :
  element (mark_nav_link path d link) m
  = if Nat.eqb m link
    then has_classList (element d m)
           (if nav_link_matches path (getAttribute d link "href")
            then add_token (classList (element d m)) "active"
            else remove_token (classList (element d m)) "active")
    else element d m.
Proof.
  unfold mark_nav_link.
  destruct (nav_link_matches path (getAttribute d link "href")); reflexivity.
Qed.

Lemma mark_nav_link_attributes (d : Document) (link m : nat) :
  attributes (element (mark_nav_link path d link) m) = attributes (element d m).
Proof.
  rewrite mark_nav_link_element. now destruct (Nat.eqb m link).
Qed.

Lemma mark_nav_link_href (d : Document) (link m : nat) :
  getAttribute (mark_nav_link path d link) m "href" = getAttribute d m "href".
Proof. unfold getAttribute. now rewrite mark_nav_link_attributes. Qed.

Lemma mark_nav_link_active (d : Document) (link : nat) :
  classList_contains (mark_nav_link path d link) link "active"
  = nav_link_matches path (getAttribute d link "href").
Proof.
  unfold classList_contains. rewrite mark_nav_link_element, Nat.eqb_refl.
  cbn [classList has_classList].
  destruct (nav_link_matches path (getAttribute d link "href")).
  - rewrite contains_add_token, String.eqb_refl. apply orb_true_r.
  - rewrite contains_remove_token, String.eqb_refl. apply andb_false_r.
Qed.

Lemma mark_nav_link_other_class (d : Document) (link m : nat) (t : string) :
  t <> "active" ->
  classList_contains (mark_nav_link path d link) m t = classList_contains d m t.
Proof.
  intros Ht. unfold classList_contains. rewrite mark_nav_link_element.
  destruct (Nat.eqb m link); auto. cbn [classList has_classList].
  destruct (nav_link_matches path (getAttribute d link "href")).
  - rewrite contains_add_token.
    destruct (String.eqb_spec t "active"); [congruence|]. apply orb_false_r.
  - rewrite contains_remove_token.
    destruct (String.eqb_spec "active" t); [congruence|]. apply andb_true_r.
Qed.

(** The loop over the links: every link of the list ends up marked
    exactly when its [href] passes the test, its other classes as they
    were, and the other nodes are left alone. *)
Lemma mark_nav_links_fold (links : list nat) :
  forall d : Document,
    let d' := fold_left (mark_nav_link path) links d in
    (forall m, getAttribute d' m "href" = getAttribute d m "href") /\
    (forall m, In m links ->
               classList_contains d' m "active"
               = nav_link_matches path (getAttribute d m "href")) /\
    (forall m t, t <> "active" ->
                 classList_contains d' m t = classList_contains d m t) /\
    (forall m, ~ In m links -> element d' m = element d m).
Proof.
  induction links as [|a links IH]; intros d; cbn [fold_left].
  - repeat split; auto. intros m [].
  - destruct (IH (mark_nav_link path d a)) as (Hh & Ha & Ho & He).
    repeat split.
    + intros m. now rewrite Hh, mark_nav_link_href.
    + intros m Hm. destruct (in_dec Nat.eq_dec m links) as [Hin|Hout].
      * now rewrite Ha, mark_nav_link_href.
      * destruct Hm as [<-|Hm]; [|contradiction].
        unfold classList_contains. rewrite (He a Hout).
        apply mark_nav_link_active.
    + intros m t Ht. now rewrite Ho, mark_nav_link_other_class.
    + intros m Hm. rewrite He by (simpl in Hm; tauto).
      rewrite mark_nav_link_element.
      destruct (Nat.eqb_spec m a) as [->|]; auto. simpl in Hm. tauto.
Qed.
End MarkNavLinks.

Lemma document_setTimeout (p : Page) (cb : Callback) (delay : Z) :
  document (setTimeout p cb delay) = document p.
Proof. reflexivity. Qed.

Lemma schedule_alerts_fold (alerts : list nat) :
  forall p : Page,
    let p' := fold_left (fun q alert => setTimeout q (CloseAlert alert) 5000)
                        alerts p in
    document p' = document p /\ pathname p' = pathname p /\
    listeners p' = listeners p /\ console_errors p' = console_errors p /\
    now p' = now p /\ loaded p' = loaded p /\ innerWidth p' = innerWidth p.
Proof.
  induction alerts as [|a alerts IH]; intros p; cbn [fold_left].
  - repeat split.
  - destruct (IH (setTimeout p (CloseAlert a) 5000)) as (H1 & H2 & H3 & H4 & H5 & H6 & H7).
    repeat split; assumption.
Qed.

(** Up to the loop over the links, the handler of [DOMContentLoaded]
    leaves the document as it found it. *)
Lemma on_DOMContentLoaded_document (p : Page) :
  document (on_DOMContentLoaded p)
  = fold_left (mark_nav_link (pathname p))
              (querySelectorAll (document p) sel_sidebar_nav_link) (document p).
Proof.
  unfold on_DOMContentLoaded, mark_nav_links. cbn [document with_document].
  pose proof (schedule_alerts_fold
                (querySelectorAll (document (init_tooltips (bind_sidebar p)))
                                  sel_alert_not_permanent)
                (init_tooltips (bind_sidebar p))) as (Hd & Hp & _).
  unfold schedule_alerts. rewrite Hd, Hp.
  assert (E : document (init_tooltips (bind_sidebar p)) = document p).
  { unfold init_tooltips, bind_sidebar.
    destruct (getElementById (document p) "sidebarToggle"),
             (getElementById (document p) "sidebar"); reflexivity. }
  assert (E' : pathname (init_tooltips (bind_sidebar p)) = pathname p).
  { unfold init_tooltips, bind_sidebar.
    destruct (getElementById (document p) "sidebarToggle"),
             (getElementById (document p) "sidebar"); reflexivity. }
  now rewrite E, E'.
Qed.

(** C3, as it is stated, fails: on the path [/inpatients/7] the link to
    [/patients] is a sidebar navigation link whose [href] is not a
    substring of the path, and it is marked active all the same. *)
Lemma C3_counterexample :
  In 2%nat (querySelectorAll (document page_of_inpatients) sel_sidebar_nav_link) /\
  getAttribute (document page_of_inpatients) 2 "href" = Some "/patients" /\
  classList_contains (document (on_DOMContentLoaded page_of_inpatients)) 2 "active"
  = true /\
  ~ is_substring "/patients" (pathname page_of_inpatients).
Proof.
  split; [simpl; auto|]. split; [reflexivity|]. split; [reflexivity|].
  apply includes_false. reflexivity.
Qed.

(** C3, amended.  After layout initialization a sidebar navigation link
    carries the active marker if and only if its [href] is not empty, is
    not ["#"], and, its first slash taken away, is a substring of the
    current path; the marker is taken off every other sidebar link, and
    the other classes of the links stay as they were. *)
Theorem C3_nav_links (p : Page) (link : nat) :
  In link (querySelectorAll (document p) sel_sidebar_nav_link) ->
  let d' := document (on_DOMContentLoaded p) in
  (classList_contains d' link "active" = true <->
   link_is_current (pathname p) (getAttribute (document p) link "href")) /\
  (getAttribute (document p) link "href" = Some "#" ->
   classList_contains d' link "active" = false) /\
  (forall t, t <> "active" ->
             classList_contains d' link t = classList_contains (document p) link t).
Proof.
  intros Hin d'. subst d'. rewrite on_DOMContentLoaded_document.
  destruct (mark_nav_links_fold (pathname p)
              (querySelectorAll (document p) sel_sidebar_nav_link) (document p))
    as (_ & Ha & Ho & _).
  split; [|split].
  - rewrite (Ha link Hin). apply nav_link_matches_spec.
  - intros Hh. rewrite (Ha link Hin), Hh. unfold nav_link_matches.
    rewrite String.eqb_refl. apply andb_false_r.
  - intros t Ht. now apply Ho.
Qed.

Lemma C3_nav_links_witness :
  In 2%nat (querySelectorAll (document page_at_breakpoint) sel_sidebar_nav_link) /\
  let d' := document (on_DOMContentLoaded page_at_breakpoint) in
  (classList_contains d' 2 "active" = true <->
   link_is_current (pathname page_at_breakpoint)
                   (getAttribute (document page_at_breakpoint) 2 "href")) /\
  (getAttribute (document page_at_breakpoint) 2 "href" = Some "#" ->
   classList_contains d' 2 "active" = false) /\
  (forall t, t <> "active" ->
             classList_contains d' 2 t
             = classList_contains (document page_at_breakpoint) 2 t).
Proof.
  split; [simpl; auto|].
  apply (C3_nav_links page_at_breakpoint 2). simpl. auto.
Defined.

(** The scenario of the specification: on [/patients/123] the link to
    [/patients] is marked and the link to [#] loses its mark. *)
Example nav_links_of_patients :
  classList_contains (document (on_DOMContentLoaded page_at_breakpoint)) 2 "active"
  = true /\
  classList_contains (document (on_DOMContentLoaded page_at_breakpoint)) 3 "active"
  = false.
Proof. split; reflexivity. Qed.

(** ** [validateForm] and the page-unload guard *)


Section ClassListAdd.
Variables (d : Document) (n : nat) (t : string).

Lemma element_classList_add (m : nat) :
  element (classList_add d n t) m
  = if Nat.eqb m n
    then has_classList (element d m) (add_token (classList (element d m)) t)
    else element d m.
Proof. reflexivity. Qed.





End ClassListAdd.





(** ** Notifications *)

Section Show.
Variables (message : string) (type : option string) (duration : option Z).
Variable p : Page.

Let type' := match type with Some t => t | None => "info" end.
Let duration' := match duration with Some t => t | None => 5000%Z end.
Let banner := next_node (document p).
Let p' := snd (Notification.show message type duration p).

Let shown : Page :=
  with_document p
    (body_appendChild
       (update_element
          (update_element
             (update_element (snd (createElement (document p) "div")) banner
                (fun e => has_classList e (tokens (banner_className type'))))
             banner (fun e => has_cssText e banner_cssText))
          banner (fun e => has_innerHTML e (banner_innerHTML message)))
       banner).

Lemma show_eq :
  Notification.show message type duration p
  = (banner,
     if (0 <? duration')%Z
     then setTimeout shown (CloseAlert banner) duration'
     else shown).
Proof. reflexivity. Qed.

Lemma show_banner : fst (Notification.show message type duration p) = banner.
Proof. now rewrite show_eq. Qed.

Lemma show_attached :
  attached (document p') = (attached (document p) ++ [banner])%list.
Proof. subst p'. rewrite show_eq. cbn [snd]. now destruct (0 <? duration')%Z. Qed.

Lemma show_next_node : next_node (document p') = S banner.
Proof. subst p'. rewrite show_eq. cbn [snd]. now destruct (0 <? duration')%Z. Qed.

Lemma show_timers :
  timers p'
  = if (0 <? duration')%Z
    then enqueue {| due := (now p + timer_delay duration')%Z;
                    callback := CloseAlert banner |}
                 (timers p)
    else timers p.
Proof. subst p'. rewrite show_eq. cbn [snd]. now destruct (0 <? duration')%Z. Qed.

Lemma show_now : now p' = now p.
Proof. subst p'. rewrite show_eq. cbn [snd]. now destruct (0 <? duration')%Z. Qed.

Lemma show_loaded : loaded p' = loaded p.
Proof. subst p'. rewrite show_eq. cbn [snd]. now destruct (0 <? duration')%Z. Qed.

Lemma show_element_other (m : nat) :
  m <> banner -> element (document p') m = element (document p) m.
Proof.
  intros Hne. apply Nat.eqb_neq in Hne.
  pose proof Hne as Hne'. unfold banner in Hne'.
  subst p'. rewrite show_eq. cbn [snd].
  destruct (0 <? duration')%Z;
    cbn -[tokens banner_className banner_innerHTML banner_cssText Nat.eqb];
    repeat (rewrite Hne || rewrite Hne'); reflexivity.
Qed.

Lemma show_classList :
  classList (element (document p') banner) = tokens (banner_className type').
Proof.
  subst p'. rewrite show_eq. cbn [snd].
  destruct (0 <? duration')%Z;
    cbn -[tokens banner_className banner_innerHTML banner_cssText Nat.eqb];
    now rewrite ?Nat.eqb_refl.
Qed.

Lemma show_innerHTML :
  innerHTML (element (document p') banner) = banner_innerHTML message.
Proof.
  subst p'. rewrite show_eq. cbn [snd].
  destruct (0 <? duration')%Z;
    cbn -[tokens banner_className banner_innerHTML banner_cssText Nat.eqb];
    now rewrite ?Nat.eqb_refl.
Qed.
End Show.

(** C9.  [Notification.error(message)] is
    [Notification.show(message, 'danger', 5000)], and [success], [info]
    and [warning] are [show] with the severities ['success'], ['info'] and
    ['warning'] and the duration 5000: the same banner, the same page.
    The banner of [error] carries the class [alert-danger] and its
    dismissal is due 5000 units after the call. *)
Theorem C9_convenience (message : string) (p : Page) :
  Notification.error message p
  = Notification.show message (Some "danger") (Some 5000%Z) p /\
  Notification.success message p
  = Notification.show message (Some "success") (Some 5000%Z) p /\
  Notification.info message p
  = Notification.show message (Some "info") (Some 5000%Z) p /\
  Notification.warning message p
  = Notification.show message (Some "warning") (Some 5000%Z) p /\
  let banner := fst (Notification.error message p) in
  let p' := snd (Notification.error message p) in
  classList (element (document p') banner)
  = ["alert"; "alert-danger"; "alert-dismissible"; "fade"; "show"; "position-fixed"] /\
  timers p'
  = enqueue {| due := (now p + 5000)%Z; callback := CloseAlert banner |} (timers p).
Proof.
  repeat split.
  unfold Notification.error. rewrite show_banner, show_classList. reflexivity.
Qed.

(** ** Timers and the life of a page *)

Lemma In_enqueue (t x : Timer) (q : list Timer) :
  In x (enqueue t q) <-> x = t \/ In x q.
Proof.
  induction q as [|t' q IH]; simpl.
  - intuition.
  - destruct (due t' <=? due t)%Z; simpl; rewrite ?IH; intuition.
Qed.


Lemma is_attached_detach (d : Document) (n b : nat) :
  is_attached (detach d n) b = is_attached d b && negb (node_contains d n b).
Proof.
  unfold is_attached, detach. cbn [attached].
  induction (attached d) as [|m l IH]; simpl; auto.
  destruct (node_contains d n m) eqn:E; simpl; rewrite IH;
    destruct (Nat.eqb_spec b m) as [->|Hbm]; simpl; auto; rewrite E; simpl; auto.
  apply andb_false_r.
Qed.

Lemma is_attached_app (d : Document) (l : list nat) (b : nat) :
  attached d = l -> is_attached d b = existsb (Nat.eqb b) l.
Proof. intros <-. reflexivity. Qed.

Lemma is_attached_same (d d' : Document) (b : nat) :
  attached d' = attached d -> is_attached d' b = is_attached d b.
Proof. unfold is_attached. now intros ->. Qed.

(** Whether a node is in another is a matter of its ancestors. *)
Lemma node_contains_same (d d' : Document) (a b : nat) :
  ancestors (element d' b) = ancestors (element d b) ->
  node_contains d' a b = node_contains d a b.
Proof. unfold node_contains. now intros ->. Qed.

Lemma node_contains_refl (d : Document) (b : nat) : node_contains d b b = true.
Proof. unfold node_contains. now rewrite Nat.eqb_refl. Qed.

(** The [close] routine of the library: the alert is out of the
    document, or its removal is pending; nothing else leaves the
    document but what the alert contains, and nothing enters it. *)
Section AlertClose.
Variables (moment : Z) (alert : nat) (p : Page).
Let p' := Alert_close moment alert p.
Let removal : Timer :=
  {| due := (moment + Z.max 0 (fade_time p alert))%Z;
     callback := RemoveAlert alert |}.

Lemma Alert_close_spec :
  now p' = now p /\ loaded p' = loaded p /\ fade_time p' = fade_time p /\
  next_node (document p') = next_node (document p) /\
  (forall m, ancestors (element (document p') m)
             = ancestors (element (document p) m)) /\
  (forall x, In x (timers p) -> In x (timers p')) /\
  (forall x, In x (timers p') -> In x (timers p) \/ x = removal) /\
  (forall b, is_attached (document p') b = true ->
             is_attached (document p) b = true) /\
  (forall b, is_attached (document p) b = true ->
             node_contains (document p) alert b = false ->
             is_attached (document p') b = true) /\
  (is_attached (document p') alert = false \/ In removal (timers p')).
Proof.
  assert (Ha : forall m,
             ancestors (element (classList_remove (document p) alert "show") m)
             = ancestors (element (document p) m)).
  { intros m. cbn. now destruct (Nat.eqb m alert). }
  subst p'. unfold Alert_close.
  destruct (classList_contains (classList_remove (document p) alert "show")
                               alert "fade").
  - cbn [now loaded fade_time document timers with_timers with_document].
    repeat split; auto.
    + intros x Hx. apply In_enqueue. now right.
    + intros x Hx. apply In_enqueue in Hx. tauto.
    + right. apply In_enqueue. now left.
  - cbn [now loaded fade_time document timers with_timers with_document].
    repeat split; auto.
    + intros b. rewrite is_attached_detach. intros H.
      apply andb_true_iff in H as [H _]. exact H.
    + intros b Hb Hc. rewrite is_attached_detach.
      rewrite (node_contains_same (document p) _ alert b (Ha b)), Hc.
      cbn [negb]. rewrite andb_true_r. exact Hb.
    + left. rewrite is_attached_detach, node_contains_refl. apply andb_false_r.
Qed.
End AlertClose.

(** A timer that runs: the alert it is about is out of the document, or
    the timer was to close it and its removal is pending. *)
Lemma run_callback_spec (tm : Timer) (q : Page) :
  let q' := run_callback tm q in
  let removal := {| due := (due tm + Z.max 0 (fade_time q (alert_of tm)))%Z;
                    callback := RemoveAlert (alert_of tm) |} in
  now q' = now q /\ loaded q' = loaded q /\ fade_time q' = fade_time q /\
  next_node (document q') = next_node (document q) /\
  (forall m, ancestors (element (document q') m)
             = ancestors (element (document q) m)) /\
  (forall x, In x (timers q) -> In x (timers q')) /\
  (forall x, In x (timers q') ->
             In x (timers q) \/
             (callback tm = CloseAlert (alert_of tm) /\ x = removal)) /\
  (forall b, is_attached (document q') b = true ->
             is_attached (document q) b = true) /\
  (forall b, is_attached (document q) b = true ->
             node_contains (document q) (alert_of tm) b = false ->
             is_attached (document q') b = true) /\
  (is_attached (document q') (alert_of tm) = false \/
   (callback tm = CloseAlert (alert_of tm) /\ In removal (timers q'))).
Proof.
  unfold run_callback, alert_of. destruct (callback tm) as [n|n] eqn:E.
  - destruct (Alert_close_spec (due tm) n q)
      as (H1 & H2 & H3 & H4 & H5 & H6 & H7 & H8 & H9 & H10).
    cbv zeta. repeat split; auto.
    + intros x Hx. destruct (H7 x Hx); auto.
    + destruct H10; auto.
  - cbv zeta. cbn [now loaded fade_time document timers with_document].
    repeat split; auto.
    + intros b. rewrite is_attached_detach. intros H.
      apply andb_true_iff in H as [H _]. exact H.
    + intros b Hb Hc. rewrite is_attached_detach, Hc, Hb. reflexivity.
    + left. rewrite is_attached_detach, node_contains_refl. apply andb_false_r.
Qed.

Lemma run_callbacks (l : list Timer) :
  forall q : Page,
    let q' := fold_left (fun q tm => run_callback tm q) l q in
    now q' = now q /\ loaded q' = loaded q /\ fade_time q' = fade_time q /\
    next_node (document q') = next_node (document q) /\
    (forall m, ancestors (element (document q') m)
               = ancestors (element (document q) m)) /\
    (forall x, In x (timers q) -> In x (timers q')) /\
    (forall x, In x (timers q') ->
               In x (timers q) \/
               exists tm, In tm l /\ callback tm = CloseAlert (alert_of tm) /\
                          x = {| due := (due tm + Z.max 0 (fade_time q (alert_of tm)))%Z;
                                 callback := RemoveAlert (alert_of tm) |}) /\
    (forall b, is_attached (document q') b = true ->
               is_attached (document q) b = true) /\
    (forall b, is_attached (document q) b = true ->
               (forall tm, In tm l ->
                           node_contains (document q) (alert_of tm) b = false) ->
               is_attached (document q') b = true) /\
    (forall tm, In tm l ->
                is_attached (document q') (alert_of tm) = false \/
                (callback tm = CloseAlert (alert_of tm) /\
                 In {| due := (due tm + Z.max 0 (fade_time q (alert_of tm)))%Z;
                       callback := RemoveAlert (alert_of tm) |} (timers q'))).
Proof.
  induction l as [|tm l IH]; intros q; cbn [fold_left].
  - cbv zeta. repeat split; auto. intros tm [].
  - destruct (run_callback_spec tm q)
      as (H1 & H2 & H3 & H4 & H5 & H6 & H7 & H8 & H9 & H10).
    destruct (IH (run_callback tm q))
      as (I1 & I2 & I3 & I4 & I5 & I6 & I7 & I8 & I9 & I10).
    cbv zeta.
    split; [congruence|]. split; [congruence|]. split; [congruence|].
    split; [congruence|].
    split; [intros m; rewrite I5; apply H5|].
    split; [auto|].
    split.
    { intros x Hx. destruct (I7 x Hx) as [Hx'|(tm' & Hin & Hc & ->)].
      - destruct (H7 x Hx') as [Hx''|[Hc ->]]; auto.
        right. exists tm. split; [now left | auto].
      - right. exists tm'. rewrite H3. split; [now right | auto]. }
    split; [auto|].
    split.
    { intros b Hb Hc. apply I9.
      - apply H9; auto. apply Hc. now left.
      - intros tm' Hin.
        rewrite (node_contains_same (document q) _ (alert_of tm') b (H5 b)).
        apply Hc. now right. }
    intros tm' [<-|Hin].
    + destruct H10 as [Hg|[Hc Hr]].
      * left. apply not_true_is_false. intros Hat.
        apply I8 in Hat. congruence.
      * right. split; auto.
    + destruct (I10 tm' Hin) as [Hg|[Hc Hr]]; auto.
      right. split; auto. now rewrite <- H3.
Qed.

(** The timers that are due run: those that are not are still pending,
    and the pending timers that are new are removals the library has
    scheduled. *)
Lemma fire_spec (t : Z) (p : Page) :
  let p' := fire t p in
  now p' = now p /\ loaded p' = loaded p /\ fade_time p' = fade_time p /\
  next_node (document p') = next_node (document p) /\
  (forall m, ancestors (element (document p') m)
             = ancestors (element (document p) m)) /\
  (forall x, In x (timers p) -> is_due t x = false -> In x (timers p')) /\
  (forall x, In x (timers p') ->
             (In x (timers p) /\ is_due t x = false) \/
             exists tm, In tm (timers p) /\ is_due t tm = true /\
                        callback tm = CloseAlert (alert_of tm) /\
                        x = {| due := (due tm + Z.max 0 (fade_time p (alert_of tm)))%Z;
                               callback := RemoveAlert (alert_of tm) |}) /\
  (forall b, is_attached (document p') b = true ->
             is_attached (document p) b = true) /\
  (forall b, is_attached (document p) b = true ->
             (forall tm, In tm (timers p) -> is_due t tm = true ->
                         node_contains (document p) (alert_of tm) b = false) ->
             is_attached (document p') b = true) /\
  (forall tm, In tm (timers p) -> is_due t tm = true ->
              is_attached (document p') (alert_of tm) = false \/
              (callback tm = CloseAlert (alert_of tm) /\
               In {| due := (due tm + Z.max 0 (fade_time p (alert_of tm)))%Z;
                     callback := RemoveAlert (alert_of tm) |} (timers p'))).
Proof.
  unfold fire.
  destruct (run_callbacks (filter (is_due t) (timers p))
              (with_timers p (filter (fun tm => negb (is_due t tm)) (timers p))))
    as (I1 & I2 & I3 & I4 & I5 & I6 & I7 & I8 & I9 & I10).
  cbn [now loaded fade_time document timers with_timers] in *.
  cbv zeta. repeat split; auto.
  - intros x Hx Hd. apply I6. apply filter_In. split; auto. now rewrite Hd.
  - intros x Hx. destruct (I7 x Hx) as [Hx'|(tm & Hin & Hc & ->)].
    + left. apply filter_In in Hx' as [Hx' Hd]. split; auto.
      now apply negb_true_iff in Hd.
    + right. apply filter_In in Hin as [Hin Hd]. exists tm. auto.
  - intros b Hb Hc. apply I9; auto.
    intros tm Hin. apply filter_In in Hin as [Hin Hd]. auto.
  - intros tm Hin Hd. apply I10. apply filter_In. auto.
Qed.

Lemma frame_eq [p q : Page] :
  frame q = frame p ->
  attached (document q) = attached (document p) /\
  next_node (document q) = next_node (document p) /\
  timers q = timers p /\ now q = now p /\ loaded q = loaded p.
Proof. unfold frame. intros H. injection H. auto. Qed.

(** A click changes classes and reports errors; it attaches and
    detaches nothing, and leaves the timers and the clock alone. *)

Lemma frame_run_listener (target : nat) (p : Page) (l : Listener) :
  frame (run_listener target p l) = frame p.
Proof.
  unfold run_listener, toggle_click_listener, document_click_listener.
  destruct l as [tg sb | tg sb].
  - now destruct (node_contains (document p) tg target).
  - destruct (innerWidth p <=? 768)%Z; auto.
    destruct sb as [sb|]; auto.
    now destruct (_ && _ && _).
Qed.

Lemma frame_dispatch_click (target : nat) (p : Page) :
  frame (dispatch_click target p) = frame p.
Proof.
  unfold dispatch_click. generalize (listeners p) as ls. intros ls; revert p.
  induction ls as [|l ls IH]; intros p; cbn [fold_left]; auto.
  now rewrite IH, frame_run_listener.
Qed.

Lemma frame_validateForm (formId : string) (p : Page) :
  frame (step p (Call_validateForm formId)) = frame p.
Proof.
  cbn [step]. unfold validateForm.
  destruct (getElementById (document p) formId) as [form|]; auto.
  now destruct (checkValidity _ form).
Qed.

(** Nor does a click or a call of [validateForm] move an element, or
    change the time the library takes to fade an alert out. *)
Lemma still_run_listener (target : nat) (p : Page) (l : Listener) :
  fade_time (run_listener target p l) = fade_time p /\
  forall m, ancestors (element (document (run_listener target p l)) m)
            = ancestors (element (document p) m).
Proof.
  unfold run_listener, toggle_click_listener, document_click_listener.
  destruct l as [tg sb | tg sb].
  - destruct (node_contains (document p) tg target); split; auto.
    intros m. cbn. now destruct (Nat.eqb m sb).
  - destruct (innerWidth p <=? 768)%Z; auto.
    destruct sb as [sb|]; auto.
    destruct (_ && _ && _); split; auto.
    intros m. cbn. now destruct (Nat.eqb m sb).
Qed.

Lemma still_dispatch_click (target : nat) (p : Page) :
  fade_time (dispatch_click target p) = fade_time p /\
  forall m, ancestors (element (document (dispatch_click target p)) m)
            = ancestors (element (document p) m).
Proof.
  unfold dispatch_click. generalize (listeners p) as ls. intros ls; revert p.
  induction ls as [|l ls IH]; intros p; cbn [fold_left]; auto.
  destruct (IH (run_listener target p l)) as [-> H].
  destruct (still_run_listener target p l) as [-> H'].
  split; auto. intros m. now rewrite H.
Qed.

Lemma still_validateForm (formId : string) (p : Page) :
  fade_time (step p (Call_validateForm formId)) = fade_time p /\
  forall m, ancestors (element (document (step p (Call_validateForm formId))) m)
            = ancestors (element (document p) m).
Proof.
  cbn [step]. unfold validateForm.
  destruct (getElementById (document p) formId) as [form|]; auto.
  destruct (checkValidity _ form); split; auto;
    intros m; cbn; now destruct (Nat.eqb m form).
Qed.

Lemma step_shows (q : Page) (ev : Event) (m : string) (ty : option string)
      (du : option Z) :
  shows ev = Some (m, ty, du) -> step q ev = snd (Notification.show m ty du q).
Proof.
  destruct ev; cbn [shows]; intros H; try discriminate;
    injection H as <- <- <-; reflexivity.
Qed.

(** What the handler of [DOMContentLoaded] leaves as it is, and what it
    does to the timers: it only adds some. *)
Lemma frame_mark_nav_links (p : Page) : frame (mark_nav_links p) = frame p.
Proof.
  unfold mark_nav_links, frame. cbn [document with_document timers now loaded].
  generalize (querySelectorAll (document p) sel_sidebar_nav_link) as links.
  generalize (document p) as d. intros d links; revert d.
  assert (H : forall links d,
             attached (fold_left (mark_nav_link (pathname p)) links d) = attached d /\
             next_node (fold_left (mark_nav_link (pathname p)) links d) = next_node d).
  { induction links0 as [|a links0 IH]; intros d0; cbn [fold_left]; auto.
    destruct (IH (mark_nav_link (pathname p) d0 a)) as [-> ->].
    unfold mark_nav_link. now destruct (nav_link_matches _ _). }
  intros d. now destruct (H links d) as [-> ->].
Qed.

Lemma schedule_alerts_timers (alerts : list nat) :
  forall p : Page,
    let p' := fold_left (fun q alert => setTimeout q (CloseAlert alert) 5000)
                        alerts p in
    forall tm, In tm (timers p) -> In tm (timers p').
Proof.
  induction alerts as [|a alerts IH]; intros p; cbn [fold_left]; auto.
  intros tm H. apply IH. unfold setTimeout. cbn [timers with_timers].
  apply In_enqueue. now right.
Qed.

Lemma on_DOMContentLoaded_frame (p : Page) :
  attached (document (on_DOMContentLoaded p)) = attached (document p) /\
  next_node (document (on_DOMContentLoaded p)) = next_node (document p) /\
  now (on_DOMContentLoaded p) = now p /\
  forall tm, In tm (timers p) -> In tm (timers (on_DOMContentLoaded p)).
Proof.
  unfold on_DOMContentLoaded.
  destruct (frame_eq (frame_mark_nav_links
                        (schedule_alerts (init_tooltips (bind_sidebar p)))))
    as (-> & -> & -> & -> & _).
  set (p0 := init_tooltips (bind_sidebar p)).
  assert (E : document p0 = document p /\ timers p0 = timers p /\ now p0 = now p).
  { subst p0. unfold init_tooltips, bind_sidebar.
    destruct (getElementById (document p) "sidebarToggle"),
             (getElementById (document p) "sidebar"); repeat split. }
  destruct E as (Ed & Et & En).
  pose proof (schedule_alerts_fold
                (querySelectorAll (document p0) sel_alert_not_permanent) p0)
    as (Hd & _ & _ & _ & Hn & _).
  unfold schedule_alerts. rewrite Hd, Hn, Ed, En. repeat split.
  intros tm H. apply schedule_alerts_timers. now rewrite Et.
Qed.

Lemma on_DOMContentLoaded_listeners (p : Page) :
  listeners (on_DOMContentLoaded p) = listeners (bind_sidebar p) /\
  innerWidth (on_DOMContentLoaded p) = innerWidth p /\
  console_errors (on_DOMContentLoaded p) = console_errors p.
Proof.
  unfold on_DOMContentLoaded, mark_nav_links.
  cbn [listeners innerWidth console_errors with_document].
  pose proof (schedule_alerts_fold
                (querySelectorAll (document (init_tooltips (bind_sidebar p)))
                                  sel_alert_not_permanent)
                (init_tooltips (bind_sidebar p)))
    as (_ & _ & Hl & He & _ & _ & Hw).
  unfold schedule_alerts. rewrite Hl, He, Hw.
  unfold init_tooltips, bind_sidebar.
  destruct (getElementById (document p) "sidebarToggle"),
           (getElementById (document p) "sidebar"); repeat split.
Qed.

Lemma fade_time_schedule_alerts (alerts : list nat) :
  forall p : Page,
    fade_time (fold_left (fun q alert => setTimeout q (CloseAlert alert) 5000)
                         alerts p) = fade_time p.
Proof.
  induction alerts as [|a alerts IH]; intros p; cbn [fold_left]; auto.
  now rewrite IH.
Qed.

Lemma still_on_DOMContentLoaded (p : Page) :
  fade_time (on_DOMContentLoaded p) = fade_time p /\
  forall m, ancestors (element (document (on_DOMContentLoaded p)) m)
            = ancestors (element (document p) m).
Proof.
  split.
  - unfold on_DOMContentLoaded, mark_nav_links, schedule_alerts.
    cbn [fade_time with_document]. rewrite fade_time_schedule_alerts.
    unfold init_tooltips, bind_sidebar.
    now destruct (getElementById (document p) "sidebarToggle"),
                 (getElementById (document p) "sidebar").
  - rewrite on_DOMContentLoaded_document.
    generalize (querySelectorAll (document p) sel_sidebar_nav_link) as links.
    generalize (document p) as d. intros d links; revert d.
    induction links as [|a links IH]; intros d m; cbn [fold_left]; auto.
    rewrite IH, mark_nav_link_element. now destruct (Nat.eqb m a).
Qed.

(** On any page without a sidebar, the first click at a width of 768 or
    less after the layout is initialized is reported as a [TypeError]. *)
Lemma click_without_sidebar_reports (p : Page) (target : nat) :
  loaded p = false ->
  listeners p = [] ->
  getElementById (document p) "sidebar" = None ->
  (innerWidth p <= 768)%Z ->
  console_errors (run p [DOMContentLoaded; Click target])
  = (console_errors p
     ++ [TypeError "Cannot read properties of null (reading 'classList')"])%list.
Proof.
  intros Hl Hls Hsb Hw. unfold run. cbn [fold_left step]. rewrite Hl.
  unfold dispatch_click. cbn [listeners with_loaded].
  destruct (on_DOMContentLoaded_listeners p) as (El & Ew & Ee).
  rewrite El. unfold bind_sidebar. rewrite Hsb.
  destruct (getElementById (document p) "sidebarToggle") as [tg|];
    cbn [listeners with_listeners]; rewrite Hls;
    cbn [app fold_left]; unfold run_listener, document_click_listener;
    cbn [innerWidth with_loaded]; rewrite Ew;
    destruct (Z.leb_spec (innerWidth p) 768); try lia;
    cbn [report console_errors with_loaded]; now rewrite Ee.
Qed.

(** Time passes: the clock is moved, and then the timers run, in two
    rounds. *)
Lemma elapse_eq (units : Z) (p : Page) :
  elapse units p
  = fire (now p + Z.max 0 units) (fire (now p + Z.max 0 units)
                                       (with_now p (now p + Z.max 0 units))).
Proof. reflexivity. Qed.

Lemma elapse_frame (units : Z) (p : Page) :
  now (elapse units p) = (now p + Z.max 0 units)%Z /\
  loaded (elapse units p) = loaded p /\
  fade_time (elapse units p) = fade_time p /\
  next_node (document (elapse units p)) = next_node (document p) /\
  (forall m, ancestors (element (document (elapse units p)) m)
             = ancestors (element (document p) m)) /\
  (forall b, is_attached (document (elapse units p)) b = true ->
             is_attached (document p) b = true) /\
  (forall x, In x (timers (elapse units p)) ->
             exists tm, In tm (timers p) /\ alert_of x = alert_of tm).
Proof.
  rewrite elapse_eq.
  set (t := (now p + Z.max 0 units)%Z).
  destruct (fire_spec t (with_now p t))
    as (H1 & H2 & H3 & H4 & H5 & _ & H7 & H8 & _).
  destruct (fire_spec t (fire t (with_now p t)))
    as (I1 & I2 & I3 & I4 & I5 & _ & I7 & I8 & _).
  cbn [now loaded fade_time document timers with_now] in *.
  assert (Hold : forall x, In x (timers (fire t (with_now p t))) ->
                           exists tm, In tm (timers p) /\ alert_of x = alert_of tm).
  { intros x Hx. destruct (H7 x Hx) as [[Hx' _]|(tm & Hin & _ & _ & ->)];
      eauto. }
  split; [congruence|]. split; [congruence|]. split; [congruence|].
  split; [congruence|].
  split; [intros m; rewrite I5; apply H5|].
  split; [auto|].
  intros x Hx. destruct (I7 x Hx) as [[Hx' _]|(tm & Hin & _ & _ & ->)]; auto.
  destruct (Hold tm Hin) as (tm' & Hin' & E). exists tm'. split; auto.
Qed.

(** The clock moves with [Elapse] and with nothing else. *)
Lemma now_step (q : Page) (ev : Event) :
  now (step q ev)
  = (now q + match ev with Elapse u => Z.max 0 u | _ => 0 end)%Z.
Proof.
  destruct ev; cbn [step]; rewrite ?Z.add_0_r; try apply show_now; auto.
  - destruct (loaded q); auto. cbn [now with_loaded].
    now destruct (on_DOMContentLoaded_frame q) as (_ & _ & -> & _).
  - now destruct (frame_eq (frame_dispatch_click target q)) as (_ & _ & _ & -> & _).
  - now destruct (elapse_frame units q) as (-> & _).
  - destruct (is_attached (document q) alert); auto.
    now destruct (Alert_close_spec (now q) alert q) as (-> & _).
  - destruct (frame_eq (frame_validateForm formId q)) as (_ & _ & _ & H & _).
    exact H.
Qed.

Lemma now_run (evs : list Event) :
  forall q : Page, now (run q evs) = (now q + elapsed evs)%Z.
Proof.
  unfold run. induction evs as [|ev evs IH]; intros q; cbn [fold_left elapsed].
  - now rewrite Z.add_0_r.
  - rewrite IH, now_step. destruct ev; lia.
Qed.

Lemma is_attached_show (m : string) (ty : option string) (du : option Z)
      (q : Page) (b : nat) :
  is_attached (document (snd (Notification.show m ty du q))) b
  = is_attached (document q) b || Nat.eqb b (next_node (document q)).
Proof.
  unfold is_attached. rewrite show_attached, existsb_app. simpl.
  now rewrite orb_false_r.
Qed.

Lemma In_timers_show (m : string) (ty : option string) (du : option Z)
      (q : Page) (tm : Timer) :
  In tm (timers (snd (Notification.show m ty du q))) ->
  In tm (timers q) \/ callback tm = CloseAlert (next_node (document q)).
Proof.
  rewrite show_timers. destruct (0 <? _)%Z; auto.
  intros H. apply In_enqueue in H as [->|H]; auto.
Qed.

Lemma timers_show_incl (m : string) (ty : option string) (du : option Z)
      (q : Page) (tm : Timer) :
  In tm (timers q) -> In tm (timers (snd (Notification.show m ty du q))).
Proof.
  intros H. rewrite show_timers. destruct (0 <? _)%Z; auto.
  apply In_enqueue. now right.
Qed.

Lemma fade_time_show (m : string) (ty : option string) (du : option Z)
      (q : Page) :
  fade_time (snd (Notification.show m ty du q)) = fade_time q.
Proof. rewrite show_eq. cbn [snd]. now destruct (0 <? _)%Z. Qed.



(** No event moves an element of the document. *)
Lemma ancestors_step (q : Page) (ev : Event) (b : nat) :
  (b < next_node (document q))%nat ->
  ancestors (element (document (step q ev)) b)
  = ancestors (element (document q) b).
Proof.
  intros Hb.
  destruct (shows ev) as [[[m ty] du]|] eqn:Hs.
  { rewrite (step_shows q ev m ty du Hs). rewrite show_element_other; auto. lia. }
  destruct ev; try discriminate; cbn [step]; auto.
  - destruct (loaded q); auto. cbn [document with_loaded].
    apply still_on_DOMContentLoaded.
  - apply still_dispatch_click.
  - apply elapse_frame.
  - destruct (is_attached (document q) alert); auto.
    apply Alert_close_spec.
  - apply (still_validateForm formId q).
Qed.

Lemma fade_time_step (q : Page) (ev : Event) :
  fade_time (step q ev) = fade_time q.
Proof.
  destruct (shows ev) as [[[m ty] du]|] eqn:Hs.
  { rewrite (step_shows q ev m ty du Hs). apply fade_time_show. }
  destruct ev; try discriminate; cbn [step]; auto.
  - destruct (loaded q); auto. cbn [fade_time with_loaded].
    apply still_on_DOMContentLoaded.
  - apply still_dispatch_click.
  - apply elapse_frame.
  - destruct (is_attached (document q) alert); auto.
    apply Alert_close_spec.
  - apply (still_validateForm formId q).
Qed.

Lemma next_node_step (q : Page) (ev : Event) :
  (next_node (document q) <= next_node (document (step q ev)))%nat.
Proof.
  destruct (shows ev) as [[[m ty] du]|] eqn:Hs.
  { rewrite (step_shows q ev m ty du Hs), show_next_node. lia. }
  destruct ev; try discriminate; cbn [step]; auto.
  - destruct (loaded q); auto. cbn [document with_loaded].
    destruct (on_DOMContentLoaded_frame q) as (_ & -> & _). lia.
  - destruct (frame_eq (frame_dispatch_click target q)) as (_ & -> & _). lia.
  - destruct (elapse_frame units q) as (_ & _ & _ & -> & _). lia.
  - destruct (is_attached (document q) alert); auto.
    destruct (Alert_close_spec (now q) alert q) as (_ & _ & _ & -> & _). lia.
  - destruct (frame_eq (frame_validateForm formId q)) as (_ & E & _).
    cbn [step] in E. rewrite E. lia.
Qed.

Section Banner.
Variable banner : nat.

Lemma known_around_step (q : Page) (ev : Event) :
  known_around (document q) banner ->
  known_around (document (step q ev)) banner /\
  forall a, node_contains (document (step q ev)) a banner
            = node_contains (document q) a banner.
Proof.
  intros Hk.
  assert (Hb : (banner < next_node (document q))%nat)
    by (apply Hk, node_contains_refl).
  assert (E : forall a, node_contains (document (step q ev)) a banner
                        = node_contains (document q) a banner).
  { intros a. apply node_contains_same. now apply ancestors_step. }
  split; auto. intros a Ha. rewrite E in Ha.
  pose proof (next_node_step q ev). specialize (Hk a Ha). lia.
Qed.

(** The timers that run do nothing to a banner that stays. *)
Lemma stays_fire (deadline : option Z) (q : Page) :
  stays banner deadline q -> stays banner deadline (fire (now q) q).
Proof.
  intros (Hl & Hk & Hs).
  destruct (fire_spec (now q) q)
    as (H1 & H2 & H3 & H4 & H5 & H6 & H7 & H8 & H9 & H10).
  assert (E : forall a, node_contains (document (fire (now q) q)) a banner
                        = node_contains (document q) a banner).
  { intros a. apply node_contains_same. apply H5. }
  split; [congruence|].
  split; [intros a Ha; rewrite E in Ha; rewrite H4; now apply Hk|].
  intros H. rewrite H1 in H. destruct (Hs H) as [Ht Ha]. split.
  - intros tm Hin Hc. rewrite E in Hc.
    destruct (H7 tm Hin) as [[Hin' _]|(tm' & Hin' & Hd & _ & ->)]; auto.
    exfalso. cbn [alert_of callback] in Hc.
    destruct (Ht tm' Hin' Hc) as [_ Hdl].
    specialize (H _ Hdl). unfold is_due in Hd. lia.
  - apply H9; auto. intros tm Hin Hd.
    destruct (node_contains (document q) (alert_of tm) banner) eqn:Hc; auto.
    exfalso. destruct (Ht tm Hin Hc) as [_ Hdl].
    specialize (H _ Hdl). unfold is_due in Hd. lia.
Qed.

(** As long as the user closes neither the banner nor an element it is
    in, a banner that stays at one moment stays at the next. *)
Lemma stays_step (deadline : option Z) (q : Page) (ev : Event) :
  stays banner deadline q ->
  (forall a, ev = Dismiss a -> node_contains (document q) a banner = false) ->
  stays banner deadline (step q ev).
Proof.
  intros Hq Hev.
  pose proof Hq as (Hl & Hk & Hs).
  destruct (known_around_step q ev Hk) as [Hk' E].
  assert (Hb : (banner < next_node (document q))%nat)
    by (apply Hk, node_contains_refl).
  destruct (shows ev) as [[[m ty] du]|] eqn:Hsh.
  { rewrite (step_shows q ev m ty du Hsh) in *.
    split; [now rewrite show_loaded|]. split; [exact Hk'|].
    intros H. rewrite show_now in H. destruct (Hs H) as [Ht Ha]. split.
    - intros tm Hin Hc. rewrite E in Hc.
      apply In_timers_show in Hin as [Hin|Hin]; auto.
      exfalso. unfold alert_of in Hc. rewrite Hin in Hc.
      specialize (Hk _ Hc). lia.
    - rewrite is_attached_show, Ha. reflexivity. }
  destruct ev; try discriminate; cbn [step] in *.
  - rewrite Hl. exact Hq.
  - destruct (frame_eq (frame_dispatch_click target q)) as (E1 & E2 & E3 & E4 & E5).
    split; [congruence|]. split; [exact Hk'|].
    intros H. rewrite E4 in H. destruct (Hs H) as [Ht Ha]. split.
    + intros tm Hin Hc. rewrite E in Hc. rewrite E3 in Hin. auto.
    + now rewrite (is_attached_same _ _ banner E1).
  - exact Hq.
  - rewrite elapse_eq.
    set (t := (now q + Z.max 0 units)%Z).
    assert (H0 : stays banner deadline (with_now q t)).
    { split; [exact Hl|]. split; [exact Hk|].
      cbn [now with_now timers document]. intros H.
      apply Hs. intros t' Ht'. specialize (H t' Ht'). subst t. lia. }
    apply stays_fire in H0. cbn [now with_now] in H0.
    apply stays_fire in H0.
    destruct (fire_spec t (with_now q t)) as (H1 & _).
    rewrite H1 in H0. exact H0.
  - destruct (is_attached (document q) alert); [|exact Hq].
    destruct (Alert_close_spec (now q) alert q)
      as (H1 & H2 & H3 & H4 & H5 & H6 & H7 & H8 & H9 & H10).
    specialize (Hev alert eq_refl).
    split; [congruence|]. split; [exact Hk'|].
    intros H. rewrite H1 in H. destruct (Hs H) as [Ht Ha]. split.
    + intros tm Hin Hc. rewrite E in Hc.
      destruct (H7 tm Hin) as [Hin'| ->]; auto.
      cbn [alert_of callback] in Hc. congruence.
    + auto.
  - destruct (frame_eq (frame_validateForm formId q)) as (E1 & E2 & E3 & E4 & E5).
    cbn [step] in *.
    split; [congruence|]. split; [exact Hk'|].
    intros H. rewrite E4 in H. destruct (Hs H) as [Ht Ha]. split.
    + intros tm Hin Hc. rewrite E in Hc. rewrite E3 in Hin. auto.
    + now rewrite (is_attached_same _ _ banner E1).
Qed.

Lemma stays_run (deadline : option Z) (evs : list Event) :
  forall q : Page,
    stays banner deadline q -> no_manual_dismissal (document q) banner evs ->
    stays banner deadline (run q evs).
Proof.
  unfold run, no_manual_dismissal.
  induction evs as [|ev evs IH]; intros q Hq Hevs; cbn [fold_left]; auto.
  apply IH.
  - apply stays_step; auto. intros a ->. apply Hevs. now left.
  - intros a Ha. destruct Hq as (_ & Hk & _).
    destruct (known_around_step q ev Hk) as [_ ->]. apply Hevs. now right.
Qed.

(** A banner that goes at one moment goes at the next, whatever
    happens. *)
Lemma goes_step (deadline : Z) (q : Page) (ev : Event) :
  goes banner deadline q -> goes banner deadline (step q ev).
Proof.
  intros (Hn & Hg).
  split; [pose proof (next_node_step q ev); lia|].
  rewrite fade_time_step.
  destruct (shows ev) as [[[m ty] du]|] eqn:Hs.
  { rewrite (step_shows q ev m ty du Hs).
    rewrite show_now, is_attached_show.
    destruct Hg as [Hg|[(tm & Hin & Hc)|(tm & Hin & Hc)]].
    - left. rewrite Hg. cbn [orb]. apply Nat.eqb_neq. lia.
    - right; left. exists tm. split; auto. now apply timers_show_incl.
    - right; right. exists tm. split; auto. now apply timers_show_incl. }
  destruct ev; try discriminate; cbn [step].
  - destruct (loaded q); [assumption|].
    destruct (on_DOMContentLoaded_frame q) as (E1 & E2 & E4 & E3).
    cbn [document with_loaded now timers].
    rewrite E4, (is_attached_same _ _ banner E1).
    destruct Hg as [Hg|[(tm & Hin & Hc)|(tm & Hin & Hc)]]; [now left| |].
    + right; left. exists tm. auto.
    + right; right. exists tm. auto.
  - destruct (frame_eq (frame_dispatch_click target q)) as (E1 & E2 & E3 & E4 & E5).
    now rewrite E3, E4, (is_attached_same _ _ banner E1).
  - assumption.
  - rewrite elapse_eq.
    set (t := (now q + Z.max 0 units)%Z).
    destruct (fire_spec t (with_now q t))
      as (H1 & H2 & H3 & H4 & H5 & H6 & H7 & H8 & H9 & H10).
    destruct (fire_spec t (fire t (with_now q t)))
      as (I1 & I2 & I3 & I4 & I5 & I6 & I7 & I8 & I9 & I10).
    cbn [now loaded fade_time document timers with_now] in *.
    rewrite I1, H1.
    set (p1 := fire t (with_now q t)) in *.
    set (p2 := fire t p1) in *.
    assert (Hgone : is_attached (document p1) banner = false ->
                    is_attached (document p2) banner = false).
    { intros Hf. apply not_true_is_false. intros Hat.
      apply I8 in Hat. congruence. }
    assert (Hgone0 : is_attached (document q) banner = false ->
                     is_attached (document p1) banner = false).
    { intros Hf. apply not_true_is_false. intros Hat.
      apply H8 in Hat. congruence. }
    assert (Hremoval : forall r, In r (timers p1) ->
                                 callback r = RemoveAlert banner ->
                                 (due r <= deadline)%Z ->
                                 is_attached (document p2) banner = false \/
                                 exists tm, In tm (timers p2) /\
                                            callback tm = RemoveAlert banner /\
                                            (t < due tm)%Z /\
                                            (due tm <= deadline)%Z).
    { intros r Hin Hc Hd. destruct (is_due t r) eqn:Hdue.
      - left. destruct (I10 r Hin Hdue) as [Hat|[Hc' _]].
        + unfold alert_of in Hat. now rewrite Hc in Hat.
        + unfold alert_of in Hc'. rewrite Hc in Hc'. discriminate.
      - right. exists r. repeat split; auto. unfold is_due in Hdue. lia. }
    destruct Hg as [Hg|[(tm & Hin & Hc & Hd1 & Hd2)|(tm & Hin & Hc & Hd1 & Hd2)]].
    + left. auto.
    + destruct (is_due t tm) eqn:Hdue.
      * destruct (H10 tm Hin Hdue) as [Hat|[_ Hr]].
        -- left. apply Hgone. unfold alert_of in Hat. now rewrite Hc in Hat.
        -- unfold alert_of in Hr. rewrite Hc in Hr.
           destruct (Hremoval _ Hr eq_refl Hd2) as [Hat|Hex];
             [left; exact Hat | right; right; exact Hex].
      * right; left. exists tm. repeat split; auto.
        unfold is_due in Hdue. lia.
    + destruct (is_due t tm) eqn:Hdue.
      * left. apply Hgone. destruct (H10 tm Hin Hdue) as [Hat|[Hc' _]].
        -- unfold alert_of in Hat. now rewrite Hc in Hat.
        -- unfold alert_of in Hc'. rewrite Hc in Hc'. discriminate.
      * destruct (Hremoval tm (H6 tm Hin Hdue) Hc Hd2) as [Hat|Hex];
          [left; exact Hat | right; right; exact Hex].
  - destruct (is_attached (document q) alert); [|assumption].
    destruct (Alert_close_spec (now q) alert q)
      as (H1 & H2 & H3 & H4 & H5 & H6 & H7 & H8 & H9 & H10).
    rewrite H1.
    destruct Hg as [Hg|[(tm & Hin & Hc)|(tm & Hin & Hc)]].
    + left. apply not_true_is_false. intros Hat.
      apply H8 in Hat. congruence.
    + right; left. exists tm. auto.
    + right; right. exists tm. auto.
  - destruct (frame_eq (frame_validateForm formId q)) as (E1 & E2 & E3 & E4 & E5).
    cbn [step] in *. now rewrite E3, E4, (is_attached_same _ _ banner E1).
Qed.

Lemma goes_run (deadline : Z) (evs : list Event) :
  forall q : Page, goes banner deadline q -> goes banner deadline (run q evs).
Proof.
  unfold run. induction evs as [|ev evs IH]; intros q Hq; cbn [fold_left]; auto.
  apply IH. now apply goes_step.
Qed.

(** A banner that goes is gone when the deadline has come. *)
Lemma goes_gone (deadline : Z) (q : Page) :
  goes banner deadline q -> (deadline <= now q)%Z ->
  is_attached (document q) banner = false.
Proof.
  intros (_ & [H|[(tm & _ & _ & H1 & H2)|(tm & _ & _ & H1 & H2)]]) Hd; auto; lia.
Qed.
End Banner.

(** ** The class [show] of an alert *)













Section BannerClass.
Variable banner : nat.





End BannerClass.

(** ** Pages that can be reached *)

Lemma schedule_alerts_new_timers (alerts : list nat) :
  forall (p : Page) (tm : Timer),
    In tm (timers (fold_left (fun q alert => setTimeout q (CloseAlert alert) 5000)
                             alerts p)) ->
    In tm (timers p) \/ exists a, In a alerts /\ callback tm = CloseAlert a.
Proof.
  induction alerts as [|a alerts IH]; intros p tm; cbn [fold_left]; auto.
  intros H. apply IH in H as [H|(a' & Ha' & Hc)].
  - unfold setTimeout in H. cbn [timers with_timers] in H.
    apply In_enqueue in H as [->|H]; auto.
    right. exists a. split; [now left | reflexivity].
  - right. exists a'. split; [now right | assumption].
Qed.





(** Once the layout is initialized it stays so. *)
Lemma loaded_step (q : Page) (ev : Event) :
  loaded q = true -> loaded (step q ev) = true.
Proof.
  intros Hl.
  destruct (shows ev) as [[[m ty] du]|] eqn:Hs.
  { rewrite (step_shows q ev m ty du Hs). now rewrite show_loaded. }
  destruct ev; try discriminate; cbn [step]; auto.
  - now rewrite Hl.
  - now destruct (frame_eq (frame_dispatch_click target q)) as (_ & _ & _ & _ & ->).
  - now destruct (elapse_frame units q) as (_ & -> & _).
  - destruct (is_attached (document q) alert); auto.
    now destruct (Alert_close_spec (now q) alert q) as (_ & -> & _).
  - destruct (frame_eq (frame_validateForm formId q)) as (_ & _ & _ & _ & E).
    cbn [step] in E. now rewrite E.
Qed.








(* ================================================================== *)
(** * Part III. Further properties of the scripts                     *)
(* ================================================================== *)

(** ** [generateDemoData] for every whole number of weeks *)

Section TrendData.
Context {R : Rounding}.
Variable draws : Random.

(** The loop of [generateTrend] adds one value per turn, whatever the
    draws, and every value it adds is an integer of the range. *)
Lemma trend_iter_data (lo hi : Z) (vol : Q) (n : nat) :
  (lo <= hi)%Z ->
  forall (i : Z) (st : TrendState),
  exists values,
    ts_data (for_iter n i (trend_step draws (inject_Z lo) (inject_Z hi) vol) st)
    = (ts_data st ++ values)%list /\
    List.length values = n /\
    Forall (integer_within lo hi) values.
Proof.
  intros Hlh. induction n as [|n IH]; intros i st.
  - exists []. simpl. rewrite app_nil_r. repeat split. constructor.
  - destruct (IH (i + 1)%Z (trend_step draws (inject_Z lo) (inject_Z hi) vol i st))
      as (vs & Hd & Hl & Hb).
    cbn [for_iter]. rewrite Hd. unfold trend_step, Math_random. cbn [ts_data].
    eexists (_ :: vs). rewrite <- app_assoc. split; [reflexivity|].
    split; [simpl; congruence|]. constructor; auto.
    apply Math_round_within; apply clamp_within; rewrite <- Zle_Qle; exact Hlh.
Qed.

Lemma generateTrend_data (weeks start lo hi : Z) (vol : Q) (calls : nat) :
  (lo <= hi)%Z ->
  List.length (fst (generateTrend draws weeks (inject_Z start) (inject_Z lo)
                                  (inject_Z hi) vol calls))
  = Z.to_nat weeks /\
  Forall (integer_within lo hi)
         (fst (generateTrend draws weeks (inject_Z start) (inject_Z lo)
                             (inject_Z hi) vol calls)).
Proof.
  intros Hlh. unfold generateTrend, for_loop. cbn [fst].
  replace (weeks - 1 - 0 + 1)%Z with weeks by lia.
  destruct (trend_iter_data lo hi vol (Z.to_nat weeks) Hlh 0
              {| ts_data := []; ts_current := inject_Z start; ts_calls := calls |})
    as (vs & Hd & Hl & Hb).
  rewrite Hd. cbn [ts_data app]. auto.
Qed.

(** The fields of the result, without the destructuring of the pairs. *)
Lemma generateDemoData_fields (w : option Z) :
  let weeks := match w with Some w => w | None => 7%Z end in
  let g1 := generateTrend draws weeks 25 10 40 8 O in
  let g2 := generateTrend draws weeks 125 110 140 5 (snd g1) in
  let g3 := generateTrend draws weeks 95 70 120 10 (snd g2) in
  let g4 := generateTrend draws weeks 2 0 5 1 (snd g3) in
  let g5 := generateTrend draws weeks 140 120 160 5 (snd g4) in
  generateDemoData draws w
  = {| labels := generateLabels weeks;
       riskScores := fst g1;
       bloodPressure := fst g2;
       glucoseLevels := fst g3;
       weightGain := fst g4;
       fetalHeartRate := fst g5 |}.
Proof.
  cbv zeta. unfold generateDemoData.
  repeat match goal with
         | |- context [let (_, _) := ?g in _] => destruct g; cbn [fst snd]
         end.
  reflexivity.
Qed.
End TrendData.

(** The five series of [generateDemoData] and their ranges, whatever the
    number of weeks and the draws. *)
Lemma demo_series_data (R : Rounding) (draws : Random) (w : option Z) :
  let d := generateDemoData draws w in
  let n := Z.to_nat (match w with Some w => w | None => 7%Z end) in
  (List.length (riskScores d) = n /\ Forall (integer_within 10 40) (riskScores d)) /\
  (List.length (bloodPressure d) = n /\
   Forall (integer_within 110 140) (bloodPressure d)) /\
  (List.length (glucoseLevels d) = n /\
   Forall (integer_within 70 120) (glucoseLevels d)) /\
  (List.length (weightGain d) = n /\ Forall (integer_within 0 5) (weightGain d)) /\
  (List.length (fetalHeartRate d) = n /\
   Forall (integer_within 120 160) (fetalHeartRate d)).
Proof.
  cbv zeta. rewrite generateDemoData_fields.
  cbn [riskScores bloodPressure glucoseLevels weightGain fetalHeartRate].
  set (weeks := match w with Some w => w | None => 7%Z end).
  split; [|split; [|split; [|split]]].
  - exact (generateTrend_data draws weeks 25 10 40 8 _ ltac:(lia)).
  - exact (generateTrend_data draws weeks 125 110 140 5 _ ltac:(lia)).
  - exact (generateTrend_data draws weeks 95 70 120 10 _ ltac:(lia)).
  - exact (generateTrend_data draws weeks 2 0 5 1 _ ltac:(lia)).
  - exact (generateTrend_data draws weeks 140 120 160 5 _ ltac:(lia)).
Qed.

(** X1.  Whatever the whole number of weeks, also zero or negative, and
    whatever the draws, the labels and the five series of
    [generateDemoData] have the same length: the number of weeks, or
    zero when it is negative. *)
Theorem X1_arrays_same_length (R : Rounding) (draws : Random) (w : option Z) :
  let d := generateDemoData draws w in
  let n := Z.to_nat (match w with Some w => w | None => 7%Z end) in
  List.length (labels d) = n /\
  List.length (riskScores d) = n /\
  List.length (bloodPressure d) = n /\
  List.length (glucoseLevels d) = n /\
  List.length (weightGain d) = n /\
  List.length (fetalHeartRate d) = n.
Proof.
  cbv zeta.
  destruct (demo_series_data R draws w) as ((H1 & _) & (H2 & _) & (H3 & _) & (H4 & _) & (H5 & _)).
  repeat split; auto.
  rewrite labels_generateDemoData, generateLabels_map, length_map, length_seq.
  reflexivity.
Qed.

(** X2.  For a number of weeks that is zero or negative no loop runs:
    [generateDemoData] returns six empty arrays. *)
Theorem X2_no_weeks_no_data (R : Rounding) (draws : Random) (weeks : Z) :
  (weeks <= 0)%Z ->
  generateDemoData draws (Some weeks)
  = {| labels := []; riskScores := []; bloodPressure := [];
       glucoseLevels := []; weightGain := []; fetalHeartRate := [] |}.
Proof.
  intros Hw. unfold generateDemoData, generateTrend, generateLabels, for_loop.
  replace (Z.to_nat (weeks - 1 + 1)) with O by lia.
  replace (Z.to_nat (weeks - 1 - 0 + 1)) with O by lia.
  reflexivity.
Qed.

Lemma X2_no_weeks_no_data_witness :
  (-2 <= 0)%Z /\
  generateDemoData sample_draws (Some (-2)%Z)
  = {| labels := []; riskScores := []; bloodPressure := [];
       glucoseLevels := []; weightGain := []; fetalHeartRate := [] |}.
Proof.
  split; [lia|]. apply (X2_no_weeks_no_data exact_arithmetic sample_draws (-2)%Z). lia.
Defined.

(** ** The charts *)

Lemma Object_keys_demo_object (d : DemoData) :
  Object_keys (demo_object d)
  = ["labels"; "riskScores"; "bloodPressure"; "glucoseLevels"; "weightGain";
     "fetalHeartRate"].
Proof. reflexivity. Qed.

(** X3.  [createBarChart] applied to the object of [generateDemoData]
    plots the risk scores, the second property of that object, against
    the week labels. *)
Theorem X3_bar_chart_of_demo (R : Rounding) (draws : Random) (w : option Z)
        (d : Document) (canvasId : string) (ctx : nat) (label : string)
        (color : option string) :
  getContext2d d canvasId = Returned ctx ->
  let demo := generateDemoData draws w in
  exists chart ds,
    createBarChart d canvasId (demo_object demo) label color = Returned chart /\
    chart_datasets chart = [ds] /\
    ds_data ds = VArray (map VNumber (riskScores demo)) /\
    chart_labels chart = VArray (map VString (labels demo)).
Proof.
  intros Hctx demo. unfold createBarChart. rewrite Hctx, Object_keys_demo_object.
  eexists; eexists. repeat split.
Qed.

Lemma X3_bar_chart_of_demo_witness :
  getContext2d sample_canvas_document "chart" = Returned 1%nat /\
  exists chart ds,
    createBarChart sample_canvas_document "chart"
                   (demo_object (generateDemoData sample_draws (Some 2%Z)))
                   "Risk" None
    = Returned chart /\
    chart_datasets chart = [ds] /\
    ds_data ds
    = VArray (map VNumber (riskScores (generateDemoData sample_draws (Some 2%Z)))) /\
    chart_labels chart
    = VArray (map VString (labels (generateDemoData sample_draws (Some 2%Z)))).
Proof.
  split; [reflexivity|].
  apply (X3_bar_chart_of_demo exact_arithmetic sample_draws (Some 2%Z)
           sample_canvas_document "chart" 1 "Risk" None). reflexivity.
Defined.

(** X4.  [createRiskTrendChart] applied to the object of
    [generateDemoData] plots the risk scores against the week labels on
    an axis that begins at zero and ends at 50, and no score falls
    outside that axis. *)
Theorem X4_risk_chart_of_demo (R : Rounding) (draws : Random) (w : option Z)
        (d : Document) (canvasId : string) (ctx : nat) :
  getContext2d d canvasId = Returned ctx ->
  let demo := generateDemoData draws w in
  exists chart ds,
    createRiskTrendChart d canvasId (demo_object demo) = Returned chart /\
    lc_ctx chart = ctx /\
    datasets_of chart = [ds] /\
    json_prop ds "data" = JValue (VArray (map VNumber (riskScores demo))) /\
    json_path (lc_config chart) ["data"; "labels"]
    = JValue (VArray (map VString (labels demo))) /\
    json_path (lc_config chart) ["options"; "scales"; "y"; "beginAtZero"]
    = JBool true /\
    json_path (lc_config chart) ["options"; "scales"; "y"; "max"] = JNumber 50 /\
    Forall (fun v => 0 <= v /\ v <= 50) (riskScores demo).
Proof.
  intros Hctx demo. unfold createRiskTrendChart. rewrite Hctx.
  eexists; eexists. split; [reflexivity|].
  split; [reflexivity|]. split; [reflexivity|]. split; [reflexivity|].
  split; [reflexivity|]. split; [reflexivity|]. split; [reflexivity|].
  destruct (demo_series_data R draws w) as ((_ & H) & _).
  eapply Forall_impl; [|exact H].
  intros v (z & -> & Hz). unfold Qle; simpl. lia.
Qed.

Lemma X4_risk_chart_of_demo_witness :
  getContext2d sample_canvas_document "chart" = Returned 1%nat /\
  exists chart ds,
    createRiskTrendChart sample_canvas_document "chart"
      (demo_object (generateDemoData sample_draws (Some 2%Z)))
    = Returned chart /\
    lc_ctx chart = 1%nat /\
    datasets_of chart = [ds] /\
    json_prop ds "data"
    = JValue (VArray (map VNumber
                          (riskScores (generateDemoData sample_draws (Some 2%Z))))) /\
    json_path (lc_config chart) ["data"; "labels"]
    = JValue (VArray (map VString
                          (labels (generateDemoData sample_draws (Some 2%Z))))) /\
    json_path (lc_config chart) ["options"; "scales"; "y"; "beginAtZero"]
    = JBool true /\
    json_path (lc_config chart) ["options"; "scales"; "y"; "max"] = JNumber 50 /\
    Forall (fun v => 0 <= v /\ v <= 50)
           (riskScores (generateDemoData sample_draws (Some 2%Z))).
Proof.
  split; [reflexivity|].
  apply (X4_risk_chart_of_demo exact_arithmetic sample_draws (Some 2%Z)
           sample_canvas_document "chart" 1). reflexivity.
Defined.


(** X5.  [createVitalSignsChart] makes a dataset for a series only if
    the series is there: blood pressure first, on the left axis, then
    glucose, bound to the right axis [y1].  A series that is missing is
    left out and the chart is made all the same, with no dataset at all
    when both are missing; an array counts as there even when it is
    empty. *)
Theorem X5_vital_signs_datasets (d : Document) (canvasId : string) (ctx : nat)
        (data : JsObject) (type : option string) :
  getContext2d d canvasId = Returned ctx ->
  let bp := get_property data "bloodPressure" in
  let glucose := get_property data "glucoseLevels" in
  exists chart,
    createVitalSignsChart d canvasId data type = Returned chart /\
    json_path (lc_config chart) ["data"; "labels"]
    = JValue (get_property data "labels") /\
    map dataset_summary (datasets_of chart)
    = ((if truthy bp
        then [(JString "Blood Pressure", JValue bp, JValue VUndefined)]
        else []) ++
       (if truthy glucose
        then [(JString "Glucose Levels", JValue glucose, JString "y1")]
        else []))%list /\
    (bp = VUndefined -> glucose = VUndefined -> datasets_of chart = []) /\
    (forall items, bp = VArray items ->
                   exists ds, In ds (datasets_of chart) /\
                              json_prop ds "data" = JValue (VArray items)).
Proof.
  intros Hctx bp glucose. unfold createVitalSignsChart. rewrite Hctx.
  fold bp glucose. eexists. split; [reflexivity|]. split; [reflexivity|].
  split; [|split].
  - unfold datasets_of. cbn -[truthy].
    destruct (truthy bp), (truthy glucose); reflexivity.
  - intros Hb Hg. unfold datasets_of. cbn -[truthy]. rewrite Hb, Hg. reflexivity.
  - intros items Hb. exists (bloodPressure_dataset data). split.
    + unfold datasets_of. cbn -[truthy bloodPressure_dataset glucoseLevels_dataset].
      rewrite Hb. cbn [truthy app].
      destruct (truthy glucose); simpl; auto.
    + unfold bloodPressure_dataset. cbn. fold bp. now rewrite Hb.
Qed.

Lemma X5_vital_signs_datasets_witness :
  getContext2d sample_canvas_document "chart" = Returned 1%nat /\
  exists chart,
    createVitalSignsChart sample_canvas_document "chart"
                          [("labels", VArray []); ("bloodPressure", VArray [])]
                          None
    = Returned chart /\
    map dataset_summary (datasets_of chart)
    = [(JString "Blood Pressure", JValue (VArray []), JValue VUndefined)].
Proof.
  split; [reflexivity|].
  destruct (X5_vital_signs_datasets sample_canvas_document "chart" 1
              [("labels", VArray []); ("bloodPressure", VArray [])] None eq_refl)
    as (chart & Hc & _ & Hs & _).
  exists chart. split; [exact Hc | exact Hs].
Defined.

(** X6.  [createVitalSignsChart] applied to the object of
    [generateDemoData] has exactly two datasets, whatever the whole
    number of weeks, also zero or negative: the blood pressure series
    and the glucose series, each with as many points as there are
    labels. *)
Theorem X6_vital_chart_of_demo (R : Rounding) (draws : Random) (w : option Z)
        (d : Document) (canvasId : string) (ctx : nat) (type : option string) :
  getContext2d d canvasId = Returned ctx ->
  let demo := generateDemoData draws w in
  exists chart,
    createVitalSignsChart d canvasId (demo_object demo) type = Returned chart /\
    map dataset_summary (datasets_of chart)
    = [ (JString "Blood Pressure",
         JValue (VArray (map VNumber (bloodPressure demo))), JValue VUndefined);
        (JString "Glucose Levels",
         JValue (VArray (map VNumber (glucoseLevels demo))), JString "y1") ] /\
    List.length (bloodPressure demo) = List.length (labels demo) /\
    List.length (glucoseLevels demo) = List.length (labels demo).
Proof.
  intros Hctx demo. unfold createVitalSignsChart. rewrite Hctx.
  eexists. split; [reflexivity|]. split; [reflexivity|].
  destruct (demo_series_data R draws w) as (_ & (H2 & _) & (H3 & _) & _).
  fold demo in H2, H3. rewrite H2, H3. subst demo.
  rewrite labels_generateDemoData, generateLabels_map, length_map, length_seq.
  split; reflexivity.
Qed.

Lemma X6_vital_chart_of_demo_witness :
  getContext2d sample_canvas_document "chart" = Returned 1%nat /\
  exists chart,
    createVitalSignsChart sample_canvas_document "chart"
      (demo_object (generateDemoData sample_draws (Some 0%Z))) (Some "bar")
    = Returned chart /\
    List.length (datasets_of chart) = 2%nat.
Proof.
  split; [reflexivity|].
  destruct (X6_vital_chart_of_demo exact_arithmetic sample_draws (Some 0%Z)
              sample_canvas_document "chart" 1 (Some "bar") eq_refl)
    as (chart & Hc & Hs & _).
  exists chart. split; [exact Hc|].
  rewrite <- (length_map dataset_summary), Hs. reflexivity.
Defined.

(** ** The sidebar, once the layout is initialized *)

Lemma contains_toggle_token (cl : list string) (t : string) :
  contains_token (toggle_token cl t) t = negb (contains_token cl t).
Proof.
  unfold toggle_token. destruct (contains_token cl t) eqn:E.
  - rewrite contains_remove_token, String.eqb_refl. apply andb_false_r.
  - rewrite contains_add_token, String.eqb_refl. apply orb_true_r.
Qed.

Lemma node_contains_classList_toggle (d : Document) (n : nat) (t : string)
      (a b : nat) :
  node_contains (classList_toggle d n t) a b = node_contains d a b.
Proof.
  unfold node_contains, classList_toggle, update_element. cbn [element].
  now destruct (Nat.eqb b n).
Qed.

(** On a page that has both the toggle control and the sidebar and no
    listener yet, the handler of [DOMContentLoaded] registers the
    listener of the toggle and then the document-wide one. *)
Lemma init_listeners (p : Page) (tg sb : nat) :
  loaded p = false ->
  listeners p = [] ->
  getElementById (document p) "sidebarToggle" = Some tg ->
  getElementById (document p) "sidebar" = Some sb ->
  listeners (step p DOMContentLoaded)
  = [ToggleClick tg sb; DocumentClick (Some tg) (Some sb)].
Proof.
  intros Hl Hls Htg Hsb. cbn [step]. rewrite Hl. cbn [listeners with_loaded].
  destruct (on_DOMContentLoaded_listeners p) as (-> & _).
  unfold bind_sidebar. rewrite Htg, Hsb. cbn [listeners with_listeners].
  now rewrite Hls.
Qed.

Section SidebarClicks.
Variables (q : Page) (tg sb : nat).
Hypothesis bound :
  listeners q = [ToggleClick tg sb; DocumentClick (Some tg) (Some sb)].

Lemma dispatch_bound (target : nat) :
  dispatch_click target q
  = run_listener target (run_listener target q (ToggleClick tg sb))
                 (DocumentClick (Some tg) (Some sb)).
Proof. unfold dispatch_click. now rewrite bound. Qed.

(** A click on the toggle control itself. *)
Lemma click_on_toggle :
  dispatch_click tg q
  = with_document q (classList_toggle (document q) sb "active").
Proof.
  rewrite dispatch_bound. unfold run_listener at 2.
  unfold node_contains at 1. rewrite Nat.eqb_refl. cbn [orb toggle_click_listener].
  unfold run_listener, document_click_listener. cbn [innerWidth with_document document].
  rewrite Nat.eqb_refl. cbn [negb]. rewrite !andb_false_r.
  now destruct (innerWidth q <=? 768)%Z.
Qed.

(** A click on a narrow screen, outside the sidebar and not on the
    toggle control itself. *)
Lemma click_outside_closes (target : nat) :
  (innerWidth q <= 768)%Z ->
  node_contains (document q) sb target = false ->
  target <> tg ->
  classList_contains (document (dispatch_click target q)) sb "active" = false.
Proof.
  intros Hw Hout Hne. rewrite dispatch_bound.
  assert (Hdoc : forall q1,
             innerWidth q1 = innerWidth q ->
             node_contains (document q1) sb target = false ->
             classList_contains
               (document (run_listener target q1 (DocumentClick (Some tg) (Some sb))))
               sb "active" = false).
  { intros q1 Ew Ec. unfold run_listener, document_click_listener.
    rewrite Ew. destruct (Z.leb_spec (innerWidth q) 768) as [_|]; [|lia].
    rewrite Ec. destruct (Nat.eqb_spec target tg) as [|_]; [contradiction|].
    cbn [negb]. rewrite !andb_true_r.
    destruct (classList_contains (document q1) sb "active") eqn:Ea; auto.
    cbn [document with_document]. unfold classList_contains.
    rewrite element_classList_remove, Nat.eqb_refl. cbn [classList has_classList].
    rewrite contains_remove_token, String.eqb_refl. apply andb_false_r. }
  unfold run_listener at 2, toggle_click_listener.
  destruct (node_contains (document q) tg target); apply Hdoc; auto.
  cbn [document with_document]. now rewrite node_contains_classList_toggle.
Qed.

(** A click that is not in the toggle control changes nothing on a wide
    screen, and nothing when it is inside the sidebar. *)
Lemma click_elsewhere (target : nat) :
  node_contains (document q) tg target = false ->
  (768 < innerWidth q)%Z \/ node_contains (document q) sb target = true ->
  dispatch_click target q = q.
Proof.
  intros Hnt H. rewrite dispatch_bound. unfold run_listener at 2. rewrite Hnt.
  unfold run_listener, document_click_listener.
  destruct (Z.leb_spec (innerWidth q) 768) as [Hw|Hw]; auto.
  destruct H as [H|H]; [lia|]. rewrite H. cbn [negb].
  now rewrite andb_false_r.
Qed.
End SidebarClicks.

(** X8.  Once the layout of a page with a toggle control and a sidebar is
    initialized, a click on the toggle control flips the open marker of
    the sidebar, at every viewport width, and changes nothing else. *)
Theorem X8_toggle_flips (p : Page) (tg sb : nat) :
  loaded p = false ->
  listeners p = [] ->
  getElementById (document p) "sidebarToggle" = Some tg ->
  getElementById (document p) "sidebar" = Some sb ->
  let q := step p DOMContentLoaded in
  step q (Click tg) = with_document q (classList_toggle (document q) sb "active") /\
  classList_contains (document (step q (Click tg))) sb "active"
  = negb (classList_contains (document q) sb "active").
Proof.
  intros Hl Hls Htg Hsb q.
  pose proof (init_listeners p tg sb Hl Hls Htg Hsb) as Hb. fold q in Hb.
  cbn [step]. rewrite (click_on_toggle q tg sb Hb). split; [reflexivity|].
  cbn [document with_document]. unfold classList_contains, classList_toggle.
  cbn [element update_element]. rewrite Nat.eqb_refl. cbn [classList has_classList].
  apply contains_toggle_token.
Qed.

Lemma X8_toggle_flips_witness :
  loaded page_at_breakpoint = false /\
  listeners page_at_breakpoint = [] /\
  getElementById (document page_at_breakpoint) "sidebarToggle" = Some 4%nat /\
  getElementById (document page_at_breakpoint) "sidebar" = Some 1%nat /\
  classList_contains
    (document (step (step page_at_breakpoint DOMContentLoaded) (Click 4))) 1 "active"
  = negb (classList_contains
            (document (step page_at_breakpoint DOMContentLoaded)) 1 "active").
Proof.
  split; [reflexivity|]. split; [reflexivity|]. split; [reflexivity|].
  split; [reflexivity|].
  exact (proj2 (X8_toggle_flips page_at_breakpoint 4 1 eq_refl eq_refl
                                eq_refl eq_refl)).
Defined.

(** X9.  Once the layout is initialized, a click on a screen at most 768
    wide whose target is outside the sidebar and is not the toggle
    control itself leaves the sidebar closed, whether it was open or
    not; this holds also for a click on an element inside the toggle
    control, which the two listeners open and close at once. *)
Theorem X9_click_outside_closes (p : Page) (tg sb target : nat) :
  loaded p = false ->
  listeners p = [] ->
  getElementById (document p) "sidebarToggle" = Some tg ->
  getElementById (document p) "sidebar" = Some sb ->
  let q := step p DOMContentLoaded in
  (innerWidth q <= 768)%Z ->
  node_contains (document q) sb target = false ->
  target <> tg ->
  classList_contains (document (step q (Click target))) sb "active" = false.
Proof.
  intros Hl Hls Htg Hsb q Hw Hout Hne.
  pose proof (init_listeners p tg sb Hl Hls Htg Hsb) as Hb. fold q in Hb.
  cbn [step]. now apply (click_outside_closes q tg sb Hb).
Qed.

Lemma X9_click_outside_closes_witness :
  loaded page_at_breakpoint = false /\
  listeners page_at_breakpoint = [] /\
  getElementById (document page_at_breakpoint) "sidebarToggle" = Some 4%nat /\
  getElementById (document page_at_breakpoint) "sidebar" = Some 1%nat /\
  (innerWidth (step page_at_breakpoint DOMContentLoaded) <= 768)%Z /\
  node_contains (document (step page_at_breakpoint DOMContentLoaded)) 1 5 = false /\
  5%nat <> 4%nat /\
  classList_contains
    (document (step (step page_at_breakpoint DOMContentLoaded) (Click 5))) 1 "active"
  = false.
Proof.
  assert (Hw : (innerWidth (step page_at_breakpoint DOMContentLoaded) <= 768)%Z)
    by (cbn; lia).
  assert (Hne : 5%nat <> 4%nat) by lia.
  split; [reflexivity|]. split; [reflexivity|]. split; [reflexivity|].
  split; [reflexivity|]. split; [exact Hw|]. split; [reflexivity|].
  split; [exact Hne|].
  apply (X9_click_outside_closes page_at_breakpoint 4 1 5 eq_refl eq_refl
           eq_refl eq_refl Hw eq_refl Hne).
Defined.

(** X10.  Once the layout is initialized, a click that is not in the
    toggle control leaves the whole page as it is when the screen is
    wider than 768 or when the click is inside the sidebar: the sidebar
    closes by itself on narrow screens only, and never on a click
    inside it. *)
Theorem X10_click_elsewhere (p : Page) (tg sb target : nat) :
  loaded p = false ->
  listeners p = [] ->
  getElementById (document p) "sidebarToggle" = Some tg ->
  getElementById (document p) "sidebar" = Some sb ->
  let q := step p DOMContentLoaded in
  node_contains (document q) tg target = false ->
  (768 < innerWidth q)%Z \/ node_contains (document q) sb target = true ->
  step q (Click target) = q.
Proof.
  intros Hl Hls Htg Hsb q Hnt H.
  pose proof (init_listeners p tg sb Hl Hls Htg Hsb) as Hb. fold q in Hb.
  cbn [step]. now apply (click_elsewhere q tg sb Hb).
Qed.

Lemma X10_click_elsewhere_witness :
  loaded page_at_breakpoint = false /\
  listeners page_at_breakpoint = [] /\
  getElementById (document page_at_breakpoint) "sidebarToggle" = Some 4%nat /\
  getElementById (document page_at_breakpoint) "sidebar" = Some 1%nat /\
  node_contains (document (step page_at_breakpoint DOMContentLoaded)) 4 2 = false /\
  node_contains (document (step page_at_breakpoint DOMContentLoaded)) 1 2 = true /\
  step (step page_at_breakpoint DOMContentLoaded) (Click 2)
  = step page_at_breakpoint DOMContentLoaded.
Proof.
  split; [reflexivity|]. split; [reflexivity|]. split; [reflexivity|].
  split; [reflexivity|]. split; [reflexivity|]. split; [reflexivity|].
  apply (X10_click_elsewhere page_at_breakpoint 4 1 2 eq_refl eq_refl
           eq_refl eq_refl eq_refl).
  right. reflexivity.
Defined.

(** ** The alerts of the page *)

Lemma now_schedule_alerts (alerts : list nat) (p : Page) :
  now (fold_left (fun q alert => setTimeout q (CloseAlert alert) 5000) alerts p)
  = now p.
Proof. now destruct (schedule_alerts_fold alerts p) as (_ & _ & _ & _ & -> & _). Qed.

(** Every alert of the list gets a timer that is due 5000 units from
    now. *)
Lemma schedule_alerts_adds (alerts : list nat) :
  forall (p : Page) (a : nat),
    In a alerts ->
    In {| due := (now p + 5000)%Z; callback := CloseAlert a |}
       (timers (fold_left (fun q alert => setTimeout q (CloseAlert alert) 5000)
                          alerts p)).
Proof.
  induction alerts as [|a' alerts IH]; intros p a; cbn [fold_left].
  - intros [].
  - intros [<-|Hin].
    + apply schedule_alerts_timers. unfold setTimeout. cbn [timers with_timers].
      apply In_enqueue. now left.
    + specialize (IH (setTimeout p (CloseAlert a') 5000) a Hin).
      exact IH.
Qed.

Lemma init_keeps_document_until_links (p : Page) :
  document (init_tooltips (bind_sidebar p)) = document p /\
  timers (init_tooltips (bind_sidebar p)) = timers p /\
  now (init_tooltips (bind_sidebar p)) = now p.
Proof.
  unfold init_tooltips, bind_sidebar.
  destruct (getElementById (document p) "sidebarToggle"),
           (getElementById (document p) "sidebar"); repeat split.
Qed.

(** The timers of the page after the handler of [DOMContentLoaded]: a
    timer for every alert without [alert-permanent], and no new timer
    for anything else. *)
Lemma init_timers (p : Page) :
  (forall a, is_attached (document p) a = true ->
             sel_alert_not_permanent (document p) a = true ->
             In {| due := (now p + 5000)%Z; callback := CloseAlert a |}
                (timers (on_DOMContentLoaded p))) /\
  (forall tm, In tm (timers (on_DOMContentLoaded p)) ->
              In tm (timers p) \/
              exists a, sel_alert_not_permanent (document p) a = true /\
                        callback tm = CloseAlert a).
Proof.
  unfold on_DOMContentLoaded.
  destruct (frame_eq (frame_mark_nav_links
                        (schedule_alerts (init_tooltips (bind_sidebar p)))))
    as (_ & _ & -> & _).
  destruct (init_keeps_document_until_links p) as (Ed & Et & En).
  unfold schedule_alerts. rewrite Ed. split.
  - intros a Hat Hsel. rewrite <- En. apply schedule_alerts_adds.
    unfold querySelectorAll. apply filter_In. split; auto.
    unfold is_attached in Hat. apply existsb_exists in Hat as (x & Hx & E).
    apply Nat.eqb_eq in E. now subst.
  - intros tm H. apply schedule_alerts_new_timers in H as [H|(a & Ha & Hc)].
    + left. now rewrite <- Et.
    + right. exists a. split; auto.
      unfold querySelectorAll in Ha. now apply filter_In in Ha as [_ Ha].
Qed.

(** An alert without [alert-permanent] that is in the document when the
    layout is initialized goes within 5000 units and the time the
    library takes to fade it out. *)
Lemma init_goes (p : Page) (a : nat) :
  loaded p = false ->
  nodes_known p ->
  is_attached (document p) a = true ->
  sel_alert_not_permanent (document p) a = true ->
  goes a (now p + 5000 + Z.max 0 (fade_time p a)) (step p DOMContentLoaded).
Proof.
  intros Hl Hn Hat Hsel. split.
  - pose proof (next_node_step p DOMContentLoaded). specialize (Hn a Hat). lia.
  - rewrite fade_time_step. cbn [step]. rewrite Hl.
    destruct (on_DOMContentLoaded_frame p) as (E1 & E2 & E4 & _).
    destruct (init_timers p) as (Hadd & _).
    cbn [document with_loaded now timers].
    right; left. eexists. split; [apply (Hadd a Hat Hsel)|].
    cbn [callback due]. rewrite E4. repeat split; lia.
Qed.

(** X11.  For an alert without the class [alert-permanent] that is in
    the document when the layout is initialized, the handler schedules
    the [close] routine of the library 5000 units later; once 5000 units
    and the time the library takes to fade an alert out have passed, the
    alert is out of the document, whatever else happens to the page in
    between. *)
Theorem X11_alerts_dismissed (p : Page) (a : nat) :
  loaded p = false ->
  nodes_known p ->
  is_attached (document p) a = true ->
  sel_alert_not_permanent (document p) a = true ->
  In {| due := (now p + 5000)%Z; callback := CloseAlert a |}
     (timers (step p DOMContentLoaded)) /\
  forall evs, (5000 + Z.max 0 (fade_time p a) <= elapsed evs)%Z ->
              is_attached (document (run p (DOMContentLoaded :: evs))) a = false.
Proof.
  intros Hl Hn Hat Hsel. split.
  - cbn [step]. rewrite Hl. cbn [timers with_loaded].
    now apply (proj1 (init_timers p)).
  - intros evs Hel.
    change (run p (DOMContentLoaded :: evs))
      with (run (step p DOMContentLoaded) evs).
    apply (goes_gone a _ _ (goes_run a _ evs _ (init_goes p a Hl Hn Hat Hsel))).
    rewrite now_run, now_step. lia.
Qed.

Lemma well_formed_page_with_alerts : well_formed page_with_alerts.
Proof.
  split.
  - intros tm [].
  - intros n H. unfold is_attached in H. cbn in H.
    repeat (apply orb_true_iff in H as [H|H];
            [apply Nat.eqb_eq in H; subst n; cbn; lia|]).
    discriminate.
Qed.

Lemma X11_alerts_dismissed_witness :
  loaded page_with_alerts = false /\
  nodes_known page_with_alerts /\
  is_attached (document page_with_alerts) 1 = true /\
  sel_alert_not_permanent (document page_with_alerts) 1 = true /\
  In {| due := 5000; callback := CloseAlert 1 |}
     (timers (step page_with_alerts DOMContentLoaded)) /\
  is_attached
    (document (run page_with_alerts
                   (DOMContentLoaded :: [Elapse 2000; Click 0; Elapse 4000]))) 1
  = false.
Proof.
  destruct (X11_alerts_dismissed page_with_alerts 1 eq_refl
              (proj2 well_formed_page_with_alerts) eq_refl eq_refl)
    as [Htimer Hgone].
  split; [reflexivity|]. split; [exact (proj2 well_formed_page_with_alerts)|].
  split; [reflexivity|]. split; [reflexivity|]. split; [exact Htimer|].
  apply (Hgone [Elapse 2000; Click 0; Elapse 4000]). simpl. lia.
Defined.

(** X12.  The handler of [DOMContentLoaded] schedules the closing of
    nothing but the alerts without [alert-permanent]: an element of the
    document that is neither such an alert nor inside one, a permanent
    alert among them, stays in the document for ever, unless a timer that
    was pending already is about it or an element it is in, or the user
    closes one of these by hand. *)
Theorem X12_permanent_alerts_stay (p : Page) (a : nat) (evs : list Event) :
  loaded p = false ->
  known_around (document p) a ->
  kept p a ->
  is_attached (document p) a = true ->
  (forall c, node_contains (document p) c a = true ->
             sel_alert_not_permanent (document p) c = false) ->
  no_manual_dismissal (document p) a evs ->
  is_attached (document (run p (DOMContentLoaded :: evs))) a = true.
Proof.
  intros Hl Hk Hkept Hat Hsel Hevs.
  change (run p (DOMContentLoaded :: evs)) with (run (step p DOMContentLoaded) evs).
  destruct (known_around_step a p DOMContentLoaded Hk) as [Hk' E].
  assert (Hs : stays a None (step p DOMContentLoaded)).
  { split; [cbn [step]; now rewrite Hl|]. split; [exact Hk'|].
    intros _. split.
    - intros tm Hin Hc. exfalso. rewrite E in Hc.
      cbn [step] in Hin. rewrite Hl in Hin. cbn [timers with_loaded] in Hin.
      apply (proj2 (init_timers p)) in Hin as [Hin|(a' & Ha' & Hcb)].
      + rewrite (Hkept tm Hin) in Hc. discriminate.
      + unfold alert_of in Hc. rewrite Hcb in Hc.
        rewrite (Hsel a' Hc) in Ha'. discriminate.
    - cbn [step]. rewrite Hl. cbn [document with_loaded].
      destruct (on_DOMContentLoaded_frame p) as (E1 & _).
      now rewrite (is_attached_same _ _ a E1). }
  assert (Hevs' : no_manual_dismissal (document (step p DOMContentLoaded)) a evs).
  { intros c Hc. rewrite E. now apply Hevs. }
  destruct (stays_run a None evs _ Hs Hevs') as (_ & _ & Ha).
  apply Ha. intros t Ht. discriminate.
Qed.

Lemma X12_permanent_alerts_stay_witness :
  loaded page_with_alerts = false /\
  known_around (document page_with_alerts) 2 /\
  kept page_with_alerts 2 /\
  is_attached (document page_with_alerts) 2 = true /\
  sel_alert_not_permanent (document page_with_alerts) 2 = false /\
  sel_alert_not_permanent (document page_with_alerts) 0 = false /\
  no_manual_dismissal (document page_with_alerts) 2 [Elapse 9000; Dismiss 1] /\
  is_attached
    (document (run page_with_alerts (DOMContentLoaded :: [Elapse 9000; Dismiss 1]))) 2
  = true.
Proof.
  assert (Hin : forall c, node_contains (document page_with_alerts) c 2 = true ->
                          c = 2%nat \/ c = 0%nat).
  { intros c H. unfold node_contains in H. cbn in H. rewrite orb_false_r in H.
    apply orb_true_iff in H as [H|H]; apply Nat.eqb_eq in H; auto. }
  assert (Hk : known_around (document page_with_alerts) 2).
  { intros c H. destruct (Hin c H) as [-> | ->]; cbn; lia. }
  assert (Hkept : kept page_with_alerts 2) by (intros tm []).
  assert (Hsel : forall c, node_contains (document page_with_alerts) c 2 = true ->
                           sel_alert_not_permanent (document page_with_alerts) c
                           = false).
  { intros c H. destruct (Hin c H) as [-> | ->]; reflexivity. }
  assert (Hno : no_manual_dismissal (document page_with_alerts) 2
                                    [Elapse 9000; Dismiss 1]).
  { intros c [H|[H|[]]]; [discriminate|]. injection H as <-. reflexivity. }
  split; [reflexivity|]. split; [exact Hk|]. split; [exact Hkept|].
  split; [reflexivity|]. split; [reflexivity|]. split; [reflexivity|].
  split; [exact Hno|].
  apply (X12_permanent_alerts_stay page_with_alerts 2 [Elapse 9000; Dismiss 1]
           eq_refl Hk Hkept eq_refl Hsel Hno).
Defined.

(** ** Banners *)








Lemma nodes_known_fresh_page : nodes_known fresh_page.
Proof.
  intros n H. unfold is_attached in H. cbn in H.
  rewrite orb_false_r in H. apply Nat.eqb_eq in H. subst n. cbn. lia.
Qed.


(** X14.  [Notification.show] only adds: the banner is a node that was
    not in the document; every node the document had handed out before
    the call is in the document after the call exactly if it was before,
    with the tag, the place, the attributes, the classes, the value and
    the style it had; and no pending timer, listener or reported error
    is dropped.  Banners pile up; none replaces another. *)
Theorem X14_show_only_adds (message : string) (type : option string)
        (duration : option Z) (p : Page) :
  nodes_known p ->
  let banner := fst (Notification.show message type duration p) in
  let p' := snd (Notification.show message type duration p) in
  is_attached (document p) banner = false /\
  is_attached (document p') banner = true /\
  (forall n, (n < next_node (document p))%nat ->
             is_attached (document p') n = is_attached (document p) n /\
             tagName (element (document p') n) = tagName (element (document p) n) /\
             ancestors (element (document p') n)
             = ancestors (element (document p) n) /\
             attributes (element (document p') n)
             = attributes (element (document p) n) /\
             classList (element (document p') n)
             = classList (element (document p) n) /\
             value (element (document p') n) = value (element (document p) n) /\
             cssText (element (document p') n)
             = cssText (element (document p) n)) /\
  (forall tm, In tm (timers p) -> In tm (timers p')) /\
  listeners p' = listeners p /\
  console_errors p' = console_errors p.
Proof.
  intros Hn banner p'. subst banner. rewrite show_banner.
  split; [|split; [|split; [|split]]].
  - destruct (is_attached (document p) (next_node (document p))) eqn:E; auto.
    specialize (Hn _ E). lia.
  - subst p'. rewrite is_attached_show, Nat.eqb_refl. apply orb_true_r.
  - intros n Hlt.
    assert (Hne : n <> next_node (document p)) by lia.
    split.
    + subst p'. rewrite is_attached_show.
      destruct (Nat.eqb_spec n (next_node (document p))); [contradiction|].
      apply orb_false_r.
    + subst p'. rewrite (show_element_other message type duration p n Hne).
      repeat split.
  - intros tm. subst p'. apply timers_show_incl.
  - subst p'. rewrite show_eq. cbn [snd].
    destruct (0 <? _)%Z; split; reflexivity.
Qed.

Lemma X14_show_only_adds_witness :
  nodes_known fresh_page /\
  is_attached (document fresh_page)
              (fst (Notification.show "Saved" None None fresh_page)) = false /\
  is_attached (document (snd (Notification.show "Saved" None None fresh_page)))
              (fst (Notification.show "Saved" None None fresh_page)) = true.
Proof.
  split; [exact nodes_known_fresh_page|].
  destruct (X14_show_only_adds "Saved" None None fresh_page nodes_known_fresh_page)
    as (H1 & H2 & _).
  split; [exact H1 | exact H2].
Defined.

(** ** The navigation links, again *)

Lemma includes_empty (s : string) : includes s "" = true.
Proof. rewrite includes_eq. now destruct s. Qed.

Lemma replace_leading_slash (h : string) : replace (String "/" h) "/" "" = h.
Proof.
  rewrite replace_eq.
  assert (E : prefix "/" (String "/" h) = true)
    by (apply prefix_split; exists h; reflexivity).
  rewrite E. reflexivity.
Qed.

Lemma is_substring_tail (c : ascii) (h s : string) :
  is_substring (String c h) s -> is_substring h s.
Proof.
  intros (pre & post & ->). exists (pre ++ String c ""), post.
  now rewrite append_assoc.
Qed.

Lemma nav_link_active_after_init (p : Page) (link : nat) :
  In link (querySelectorAll (document p) sel_sidebar_nav_link) ->
  classList_contains (document (on_DOMContentLoaded p)) link "active"
  = nav_link_matches (pathname p) (getAttribute (document p) link "href").
Proof.
  intros Hin. rewrite on_DOMContentLoaded_document.
  destruct (mark_nav_links_fold (pathname p)
              (querySelectorAll (document p) sel_sidebar_nav_link) (document p))
    as (_ & Ha & _).
  now apply Ha.
Qed.

(** X15.  A sidebar link to ["/"] is marked active on every page,
    whatever the current path: with its slash taken away its [href] is
    the empty string, which occurs in every path. *)
Theorem X15_root_link_always_active (p : Page) (link : nat) :
  In link (querySelectorAll (document p) sel_sidebar_nav_link) ->
  getAttribute (document p) link "href" = Some "/" ->
  classList_contains (document (on_DOMContentLoaded p)) link "active" = true.
Proof.
  intros Hin Hh. rewrite (nav_link_active_after_init p link Hin), Hh.
  unfold nav_link_matches. rewrite replace_leading_slash, includes_empty.
  reflexivity.
Qed.

(** X16.  A sidebar link whose [href] begins with a slash is marked
    active exactly when the rest of the [href] occurs somewhere in the
    current path; so it is marked whenever the [href] itself occurs in
    the path, as the link to the current page and the links to the
    sections above it do. *)
Theorem X16_slash_links (p : Page) (link : nat) (h : string) :
  In link (querySelectorAll (document p) sel_sidebar_nav_link) ->
  getAttribute (document p) link "href" = Some (String "/" h) ->
  let active :=
    classList_contains (document (on_DOMContentLoaded p)) link "active" in
  (active = true <-> is_substring h (pathname p)) /\
  (is_substring (String "/" h) (pathname p) -> active = true) /\
  (pathname p = String "/" h -> active = true).
Proof.
  intros Hin Hh active. subst active.
  rewrite (nav_link_active_after_init p link Hin), Hh.
  unfold nav_link_matches. rewrite replace_leading_slash.
  assert (E : negb (String.eqb (String "/" h) "")
              && includes (pathname p) h
              && negb (String.eqb (String "/" h) "#")
              = includes (pathname p) h).
  { cbn [String.eqb Ascii.eqb Bool.eqb negb andb]. apply andb_true_r. }
  rewrite E. split; [apply includes_spec|]. split.
  - intros H. apply includes_spec. eapply is_substring_tail; eassumption.
  - intros H. apply includes_spec. rewrite H. exists "/", "".
    simpl. now rewrite append_nil_r.
Qed.

Lemma X15_root_link_always_active_witness :
  In 2%nat (querySelectorAll (document page_with_home_link) sel_sidebar_nav_link) /\
  getAttribute (document page_with_home_link) 2 "href" = Some "/" /\
  classList_contains (document (on_DOMContentLoaded page_with_home_link)) 2 "active"
  = true.
Proof.
  assert (Hin : In 2%nat (querySelectorAll (document page_with_home_link)
                                           sel_sidebar_nav_link))
    by (simpl; auto).
  split; [exact Hin|]. split; [reflexivity|].
  apply (X15_root_link_always_active page_with_home_link 2 Hin eq_refl).
Defined.

Lemma X16_slash_links_witness :
  In 3%nat (querySelectorAll (document page_with_home_link) sel_sidebar_nav_link) /\
  getAttribute (document page_with_home_link) 3 "href" = Some (String "/" "patients") /\
  pathname page_with_home_link = String "/" "patients" /\
  classList_contains (document (on_DOMContentLoaded page_with_home_link)) 3 "active"
  = true.
Proof.
  assert (Hin : In 3%nat (querySelectorAll (document page_with_home_link)
                                           sel_sidebar_nav_link))
    by (simpl; auto).
  split; [exact Hin|]. split; [reflexivity|]. split; [reflexivity|].
  destruct (X16_slash_links page_with_home_link 3 "patients" Hin eq_refl)
    as (_ & _ & H).
  exact (H eq_refl).
Defined.

(** ** What the initialization of the layout leaves alone *)

Lemma mark_nav_links_same_but_classes (path : string) (links : list nat) :
  forall (d : Document) (n : nat),
    same_but_classes (element d n)
                     (element (fold_left (mark_nav_link path) links d) n).
Proof.
  induction links as [|a links IH]; intros d n; cbn [fold_left].
  - repeat split.
  - destruct (IH (mark_nav_link path d a) n) as (H1 & H2 & H3 & H4 & H5 & H6).
    rewrite mark_nav_link_element in H1, H2, H3, H4, H5, H6.
    destruct (Nat.eqb n a); repeat split; assumption.
Qed.

(** X17.  The handler of [DOMContentLoaded] neither adds a node to the
    document nor removes one.  The elements with tooltips it hands to
    the library; of every other element it leaves the tag, the place,
    the attributes, the value and the style as they were, and the
    classes too: all of them if the element is not a sidebar navigation
    link, all but ["active"] if it is one. *)
Theorem X17_init_touches_links_only (p : Page) (n : nat) :
  let d := document p in
  let d' := document (on_DOMContentLoaded p) in
  attached d' = attached d /\
  next_node d' = next_node d /\
  (sel_tooltip d n = false ->
   same_but_classes (element d n) (element d' n) /\
   (~ In n (querySelectorAll d sel_sidebar_nav_link) ->
    classList (element d' n) = classList (element d n)) /\
   (forall t, t <> "active" ->
              classList_contains d' n t = classList_contains d n t)).
Proof.
  intros d d'. subst d d'.
  destruct (on_DOMContentLoaded_frame p) as (E1 & E2 & _).
  split; [exact E1|]. split; [exact E2|]. intros _.
  rewrite on_DOMContentLoaded_document.
  destruct (mark_nav_links_fold (pathname p)
              (querySelectorAll (document p) sel_sidebar_nav_link) (document p))
    as (_ & _ & Ho & He).
  split; [apply mark_nav_links_same_but_classes|]. split.
  - intros Hn. now rewrite (He n Hn).
  - intros t Ht. now apply Ho.
Qed.

Lemma X17_init_touches_links_only_witness :
  sel_tooltip (document page_with_home_link) 3 = false /\
  attributes (element (document (on_DOMContentLoaded page_with_home_link)) 3)
  = [("href", "/patients")] /\
  classList_contains (document (on_DOMContentLoaded page_with_home_link)) 3
                     "nav-link" = true.
Proof.
  destruct (X17_init_touches_links_only page_with_home_link 3)
    as (_ & _ & H).
  destruct (H eq_refl) as ((_ & _ & Ha & _) & _ & Hc).
  split; [reflexivity|]. split; [exact Ha|].
  rewrite Hc; [reflexivity | discriminate].
Defined.

(** ** [validateForm] and the guard, again *)

Lemma add_token_twice (cl : list string) (t : string) :
  add_token (add_token cl t) t = add_token cl t.
Proof.
  unfold add_token at 1. rewrite contains_add_token, String.eqb_refl.
  now rewrite orb_true_r.
Qed.

Lemma find_pointwise {A : Type} (f g : A -> bool) (l : list A) :
  (forall x, f x = g x) -> find f l = find g l.
Proof.
  intros H. induction l as [|x l IH]; simpl; auto.
  rewrite H, IH. reflexivity.
Qed.

Lemma getElementById_classList_add (d : Document) (n : nat) (t id : string) :
  getElementById (classList_add d n t) id = getElementById d id.
Proof.
  unfold getElementById. destruct (String.eqb id ""); auto.
  cbn [attached classList_add update_element]. apply find_pointwise.
  intros m. unfold has_id, getAttribute. rewrite element_classList_add.
  now destruct (Nat.eqb m n).
Qed.

(** X18.  [validateForm] is idempotent: a second call with the same
    identifier returns, or throws, what the first did and leaves the
    page as the first call left it. *)
Theorem X18_validateForm_idempotent (formId : string) (p : Page) :
  let once := validateForm formId p in
  let twice := validateForm formId (snd once) in
  fst twice = fst once /\ same_page (snd once) (snd twice).
Proof.
  cbv zeta. unfold validateForm.
  destruct (getElementById (document p) formId) as [form|] eqn:E.
  - cbn [fst snd document with_document].
    rewrite getElementById_classList_add, E. cbn [fst snd document with_document].
    split.
    + unfold checkValidity. rewrite !element_classList_add, Nat.eqb_refl.
      reflexivity.
    + repeat split. intros n. cbn [document with_document].
      rewrite !element_classList_add.
      destruct (Nat.eqb n form); auto.
      cbn [classList has_classList]. rewrite add_token_twice. reflexivity.
  - cbn [fst snd]. rewrite E. cbn [fst snd]. repeat split.
Qed.







(** ** How far a generated series moves in one step *)

From Stdlib Require Import Lqa.

Ltac push_inject :=
  unfold Z.sub in *;
  repeat (rewrite ?inject_Z_plus, ?inject_Z_mult, ?inject_Z_opp in * );
  change (inject_Z 2) with 2 in *; change (inject_Z 1) with 1 in *;
  unfold Qdiv in *; change (/ 2) with (1 # 2) in *.

Section TrendSteps.
Context {R : Rounding}.
Variable draws : Random.
Variables lo hi vol : Z.
Hypothesis lo_le_hi : (lo <= hi)%Z.
Hypothesis lo_moderate : (- 2 ^ 50 <= lo)%Z.
Hypothesis hi_moderate : (hi <= 2 ^ 50)%Z.
Hypothesis vol_moderate : (0 <= vol <= 2 ^ 50)%Z.
Hypothesis draws_range : forall k, 0 <= draws k /\ draws k < 1.

Let k : Z := ((vol + 1) / 2)%Z.

Lemma half_up (n : Z) : Qfloor (inject_Z (2 * n + 1) / 2 + (1 # 2)) = (n + 1)%Z.
Proof.
  rewrite <- (Qfloor_Z (n + 1)). apply Qfloor_comp. push_inject. lra.
Qed.

Lemma half_down (n : Z) : Qfloor (inject_Z (2 * n - 1) / 2 + (1 # 2)) = n.
Proof.
  rewrite <- (Qfloor_Z n) at 2. apply Qfloor_comp. push_inject.
  change (inject_Z (-1)) with (- (1)). lra.
Qed.

(** One turn of the loop moves the rounded value down by [k] at most
    and up by [k + 1] at most, [k] being half the volatility, rounded
    up. *)
Lemma step_bound (c r : Q) :
  inject_Z lo <= c -> c <= inject_Z hi -> 0 <= r -> r < 1 ->
  let c' := Math_max (inject_Z lo)
              (Math_min (inject_Z hi)
                 (fl (c + fl (fl (r - (1 # 2)) * inject_Z vol)))) in
  (Qfloor (c + (1 # 2)) - k <= Qfloor (c' + (1 # 2)))%Z /\
  (Qfloor (c' + (1 # 2)) <= Qfloor (c + (1 # 2)) + k + 1)%Z.
Proof.
  intros Hlo Hhi Hr0 Hr1 c'.
  set (m := Qfloor (c + (1 # 2))).
  pose proof (Qfloor_le (c + (1 # 2))) as H1. fold m in H1.
  pose proof (Qlt_floor (c + (1 # 2))) as H2. fold m in H2.
  assert (Hm1 : (lo <= m)%Z).
  { subst m. rewrite <- (Qfloor_Z lo). apply Qfloor_resp_le. lra. }
  assert (Hm2 : (m <= hi)%Z).
  { subst m. rewrite <- (Qfloor_plus_half hi). apply Qfloor_resp_le. lra. }
  assert (Hk : (vol <= 2 * k)%Z) by (unfold k; Z.div_mod_to_equations; lia).
  assert (Hk0 : (0 <= k <= 2 ^ 50)%Z) by (unfold k; Z.div_mod_to_equations; lia).
  assert (Qk : inject_Z vol <= 2 * inject_Z k).
  { change 2 with (inject_Z 2). rewrite <- inject_Z_mult, <- Zle_Qle. exact Hk. }
  assert (Qk0 : 0 <= inject_Z k).
  { change 0 with (inject_Z 0). rewrite <- Zle_Qle. lia. }
  assert (Qm1 : inject_Z lo <= inject_Z m) by (rewrite <- Zle_Qle; exact Hm1).
  assert (Qm2 : inject_Z m <= inject_Z hi) by (rewrite <- Zle_Qle; exact Hm2).
  destruct (perturbation_range vol r ltac:(lia) Hr0 Hr1) as [Hc1 Hc2].
  set (change := fl (fl (r - (1 # 2)) * inject_Z vol)) in *.
  assert (EL : inject_Z (2 * (m - k) - 1) / 2
               == inject_Z m - inject_Z k - (1 # 2)).
  { clear. push_inject. change (inject_Z (-1)) with (- (1)). lra. }
  assert (EH : inject_Z (2 * (m + k) + 1) / 2
               == inject_Z m + inject_Z k + (1 # 2)).
  { clear. push_inject. lra. }
  assert (HL : inject_Z (2 * (m - k) - 1) / 2 <= c + change).
  { rewrite EL. rewrite inject_Z_plus in H2. change (inject_Z 1) with 1 in H2.
    unfold Qdiv in Hc1. change (/ 2) with (1 # 2) in Hc1. lra. }
  assert (HH : c + change <= inject_Z (2 * (m + k) + 1) / 2).
  { rewrite EH. rewrite inject_Z_plus in H2. change (inject_Z 1) with 1 in H2.
    unfold Qdiv in Hc2. change (/ 2) with (1 # 2) in Hc2. lra. }
  apply fl_above_half in HL; [|lia]. apply fl_below_half in HH; [|lia].
  set (y := fl (c + change)) in *.
  assert (HcL : inject_Z (2 * (m - k) - 1) / 2 <= c').
  { subst c'. unfold Math_max, Math_min.
    apply Qle_trans with (Qmin (inject_Z hi) y); [|apply Q.le_max_r].
    apply Q.min_glb; auto. rewrite EL. lra. }
  assert (HcH : c' <= inject_Z (2 * (m + k) + 1) / 2).
  { subst c'. unfold Math_max, Math_min. apply Q.max_lub.
    - rewrite EH. lra.
    - apply Qle_trans with y; [apply Q.le_min_r | exact HH]. }
  split.
  - rewrite <- (half_down (m - k)). apply Qfloor_resp_le.
    apply Qplus_le_l. exact HcL.
  - replace (m + k + 1)%Z with ((m + k) + 1)%Z by lia.
    rewrite <- (half_up (m + k)). apply Qfloor_resp_le.
    apply Qplus_le_l. exact HcH.
Qed.

Let turn := trend_step draws (inject_Z lo) (inject_Z hi) (inject_Z vol).

Lemma trend_iter_steps (n : nat) :
  forall (i : Z) (st : TrendState),
    inject_Z lo <= ts_current st -> ts_current st <= inject_Z hi ->
    exists values,
      ts_data (for_iter n i turn st) = (ts_data st ++ values)%list /\
      steps_within k (k + 1) (Math_round (ts_current st)) values.
Proof.
  induction n as [|n IH]; intros i st Hlo Hhi.
  - exists []. simpl. now rewrite app_nil_r.
  - destruct (draws_range (ts_calls st)) as [Hr0 Hr1].
    destruct (step_bound (ts_current st) (draws (ts_calls st)) Hlo Hhi Hr0 Hr1)
      as [Hd Hu].
    set (c' := Math_max (inject_Z lo)
                 (Math_min (inject_Z hi)
                    (fl (ts_current st
                         + fl (fl (draws (ts_calls st) - (1 # 2)) * inject_Z vol)))))
      in *.
    assert (Hc' : inject_Z lo <= c' /\ c' <= inject_Z hi).
    { apply clamp_within. rewrite <- Zle_Qle. exact lo_le_hi. }
    assert (Et : turn i st
                 = {| ts_data := (ts_data st ++ [Math_round c'])%list;
                      ts_current := c';
                      ts_calls := S (ts_calls st) |}) by reflexivity.
    destruct (IH (i + 1)%Z (turn i st)) as (vs & Hdata & Hsteps);
      try (rewrite Et; cbn [ts_current]; tauto).
    exists (Math_round c' :: vs). cbn [for_iter]. fold turn. rewrite Hdata, Et.
    cbn [ts_data ts_current]. split; [now rewrite <- app_assoc|].
    cbn [steps_within]. rewrite Et in Hsteps. cbn [ts_current] in Hsteps.
    split; [|split; [|exact Hsteps]]; unfold Math_round.
    + rewrite Zle_Qle in Hd. clear - Hd. push_inject. lra.
    + rewrite Zle_Qle in Hu. clear - Hu. push_inject. lra.
Qed.

Lemma generateTrend_steps (weeks start : Z) (calls : nat) :
  (lo <= start <= hi)%Z ->
  steps_within k (k + 1) (inject_Z start)
    (fst (generateTrend draws weeks (inject_Z start) (inject_Z lo) (inject_Z hi)
                        (inject_Z vol) calls)).
Proof.
  intros [Hs1 Hs2]. unfold generateTrend, for_loop. cbn [fst].
  destruct (trend_iter_steps (Z.to_nat (weeks - 1 - 0 + 1)) 0
              {| ts_data := []; ts_current := inject_Z start; ts_calls := calls |})
    as (vs & Hd & Hsteps); cbn [ts_current]; try (rewrite <- Zle_Qle; assumption).
  fold turn. rewrite Hd. cbn [ts_data app ts_current] in *.
  unfold Math_round in Hsteps. now rewrite Qfloor_plus_half in Hsteps.
Qed.
End TrendSteps.

(** X21.  Whatever the number of weeks and whatever the draws from
    [[0, 1)], no series of [generateDemoData] jumps: a value lies at most
    half the volatility of its metric, rounded up, below the value
    before it and at most one more than that above it, the first value
    being compared with the start value of the metric (risk score 4 down
    and 5 up, blood pressure and fetal heart rate 3 and 4, glucose 5
    and 6, weight gain 1 and 2). *)
Theorem X21_series_steps (R : Rounding) (draws : Random) (w : option Z) :
  (forall k, 0 <= draws k /\ draws k < 1) ->
  let d := generateDemoData draws w in
  steps_within 4 5 25 (riskScores d) /\
  steps_within 3 4 125 (bloodPressure d) /\
  steps_within 5 6 95 (glucoseLevels d) /\
  steps_within 1 2 2 (weightGain d) /\
  steps_within 3 4 140 (fetalHeartRate d).
Proof.
  intros Hdraws. cbv zeta. rewrite generateDemoData_fields.
  cbn [riskScores bloodPressure glucoseLevels weightGain fetalHeartRate].
  set (weeks := match w with Some w => w | None => 7%Z end).
  split; [|split; [|split; [|split]]].
  - exact (generateTrend_steps draws 10 40 8 ltac:(lia) ltac:(lia) ltac:(lia)
             ltac:(lia) Hdraws weeks 25 _ ltac:(lia)).
  - exact (generateTrend_steps draws 110 140 5 ltac:(lia) ltac:(lia) ltac:(lia)
             ltac:(lia) Hdraws weeks 125 _ ltac:(lia)).
  - exact (generateTrend_steps draws 70 120 10 ltac:(lia) ltac:(lia) ltac:(lia)
             ltac:(lia) Hdraws weeks 95 _ ltac:(lia)).
  - exact (generateTrend_steps draws 0 5 1 ltac:(lia) ltac:(lia) ltac:(lia)
             ltac:(lia) Hdraws weeks 2 _ ltac:(lia)).
  - exact (generateTrend_steps draws 120 160 5 ltac:(lia) ltac:(lia) ltac:(lia)
             ltac:(lia) Hdraws weeks 140 _ ltac:(lia)).
Qed.

Lemma X21_series_steps_witness :
  (forall k, 0 <= sample_draws k /\ sample_draws k < 1) /\
  steps_within 4 5 25 (riskScores (generateDemoData sample_draws (Some 3%Z))) /\
  riskScores (generateDemoData sample_draws (Some 3%Z)) = [22; 25; 22].
Proof.
  split; [exact sample_draws_range|]. split; [|reflexivity].
  exact (proj1 (X21_series_steps exact_arithmetic sample_draws (Some 3%Z)
                                 sample_draws_range)).
Defined.
